(** * The detection pipeline of [server/inference_server.py]

    A shallow embedding of [ObjectDetectionServer]: letterbox preprocessing,
    the YOLO output decoder, the red-blob fallback detector and the [detect]
    session wrapper, followed by the properties of the specification that
    concern them.

    Numbers.  Python's [int] is [Z].  A Python or NumPy float is the rational
    it denotes; every floating-point operation is the exact operation followed
    by rounding to nearest, ties to even ([Float.round]).  Exponent range
    (overflow, subnormals), infinities and NaN are not represented, except
    that [float] of an int too large for a double raises.

    Effects.  Exceptions are values of [exn]; code that may raise returns a
    [result].  A [try] block whose local state survives the exception, and
    the mutation of [self], are written in the monad [Exec]. *)

From Stdlib Require Import ZArith QArith Qround Qabs Qpower String List Bool.
From Stdlib Require Import Lia Lqa DecimalString.
Import ListNotations.
Open Scope Q_scope.

(* ================================================================== *)
(** ** Binary floating point on rationals *)
(* ================================================================== *)

Module Float.

(** [ilog2 q] is the exponent of the binade of [q > 0]:
    [2 ^ ilog2 q <= q < 2 ^ (ilog2 q + 1)]. *)
Definition ilog2 (q : Q) : Z :=
  let k := (Z.log2 (Qnum q) - Z.log2 (Zpos (Qden q)))%Z in
  if Qle_bool (2 ^ k) q then k else (k - 1)%Z.

(** Nearest integer, ties to the even one. *)
Definition round_half_even (q : Q) : Z :=
  let f := Qfloor q in
  match Qcompare (q - inject_Z f) (1 # 2) with
  | Lt => f
  | Gt => (f + 1)%Z
  | Eq => if Z.even f then f else (f + 1)%Z
  end.

(** Rounding of [q > 0] to a significand of [prec] bits. *)
Definition round_pos (prec : positive) (q : Q) : Q :=
  let e := (ilog2 q - (Z.pos prec - 1))%Z in
  Qred (inject_Z (round_half_even (q * 2 ^ (- e))) * 2 ^ e).

Definition round (prec : positive) (q : Q) : Q :=
  match Qnum q with
  | Z0 => 0
  | Zpos _ => round_pos prec q
  | Zneg _ => - round_pos prec (- q)
  end.

(** IEEE 754 binary64 (Python [float], [np.float64]) and binary32
    ([np.float32]). *)
Definition binary64 : positive := 53%positive.
Definition binary32 : positive := 24%positive.
Definition fl64 : Q -> Q := round binary64.
Definition fl32 : Q -> Q := round binary32.

(** Unit roundoff of binary64. *)
Definition u64 : Q := 2 ^ (- 53).

End Float.

(* ================================================================== *)
(** ** Exceptions and the two monads *)
(* ================================================================== *)

Inductive exn : Type :=
| ZeroDivisionError
| IndexError
| ValueError
| cv2_error
| RuntimeError.

(** [inl e]: the computation raised [e]; [inr a]: it returned [a]. *)
Definition result (A : Type) : Type := (exn + A)%type.

Definition ret {A : Type} (a : A) : result A := inr a.

Definition raise {A : Type} (e : exn) : result A := inl e.

Definition bind {A B : Type} (m : result A) (k : A -> result B) : result B :=
  match m with
  | inl e => inl e
  | inr a => k a
  end.

Notation "'let?' x ':=' m 'in' k" := (bind m (fun x => k))
  (at level 10, x binder, m at level 100, k at level 200).

(** A computation over a mutable store [S].  The store is returned on both
    outcomes: what was written before an exception stays written. *)
Definition Exec (S A : Type) : Type := S -> result A * S.

Definition pure {S A : Type} (a : A) : Exec S A := fun s => (inr a, s).

Definition lift {S A : Type} (r : result A) : Exec S A := fun s => (r, s).

Definition bindE {S A B : Type} (m : Exec S A) (k : A -> Exec S B) : Exec S B :=
  fun s =>
    match m s with
    | (inl e, s') => (inl e, s')
    | (inr a, s') => k a s'
    end.

Definition get {S : Type} : Exec S S := fun s => (inr s, s).

Definition modify {S : Type} (f : S -> S) : Exec S unit := fun s => (inr tt, f s).

Notation "'do' x '<-' m ';;' k" := (bindE m (fun x => k))
  (at level 10, x binder, m at level 100, k at level 200).

Fixpoint for_each {S A : Type} (l : list A) (body : A -> Exec S unit) : Exec S unit :=
  match l with
  | [] => pure tt
  | x :: rest => do _ <- body x ;; for_each rest body
  end.

(* ================================================================== *)
(** ** Python and NumPy primitives *)
(* ================================================================== *)

Definition Qltb (a b : Q) : bool := negb (Qle_bool b a).

(** [a / b] on two Python ints: the correctly rounded quotient. *)
Definition py_truediv (a b : Z) : result Q :=
  if (b =? 0)%Z then raise ZeroDivisionError
  else ret (Float.fl64 (inject_Z a / inject_Z b)).

(** [n * x] for an int [n] and a float [x]: [n] is converted first. *)
Definition py_mul_int_float (n : Z) (x : Q) : Q :=
  Float.fl64 (Float.fl64 (inject_Z n) * x).

(** [int(x)] truncates toward zero. *)
Definition py_int (x : Q) : Z := Z.quot (Qnum x) (Zpos (Qden x)).

(** Built-in [min(a, b)] and [max(a, b)]: the second argument replaces the
    first only when it compares strictly smaller (larger). *)
Definition py_min (a b : Q) : Q := if Qltb b a then b else a.

Definition py_max (a b : Q) : Q := if Qltb a b then b else a.

(** Built-in [round(x)] (half to even); the code never calls it. *)
Definition py_round (x : Q) : Z := Float.round_half_even x.

(** [l[i]] for a non-negative literal index. *)
Definition py_getitem {A : Type} (l : list A) (i : nat) : result A :=
  match nth_error l i with
  | Some a => ret a
  | None => raise IndexError
  end.

(** Bounds of [a[start:stop]] on an axis of length [len]. *)
Definition py_slice_indices (start stop len : Z) : Z * Z :=
  let norm i := if (i <? 0)%Z then Z.max (i + len) 0 else Z.min i len in
  (norm start, norm stop).

Fixpoint map2 {A B C : Type} (f : A -> B -> C) (l : list A) (m : list B) : list C :=
  match l, m with
  | a :: l', b :: m' => f a b :: map2 f l' m'
  | _, _ => []
  end.

(** [array.shape[:2]] of an array held as a list of rows. *)
Definition shape2 {A : Type} (a : list (list A)) : Z * Z :=
  (Z.of_nat (length a), Z.of_nat (length (hd [] a))).

(** Every row of [a] has [w] entries and there are [h] rows. *)
Definition has_shape {A : Type} (a : list (list A)) (h w : Z) : Prop :=
  Z.of_nat (length a) = h /\ Forall (fun row => Z.of_nat (length row) = w) a.

(* ================================================================== *)
(** ** Images, tensors and detections *)
(* ================================================================== *)

(** One RGB (or HSV) pixel of a [uint8] H x W x 3 array. *)
Definition pixel : Type := (Z * Z * Z)%type.

Definition rgb_image : Type := list (list pixel).

(** Single-channel [uint8] image. *)
Definition gray_image : Type := list (list Z).

(** A contour is its list of points [(x, y)]. *)
Definition contour : Type := list (Z * Z).

(** [1 x 3 x H x W] float array. *)
Definition tensor : Type := list (list (list (list Q))).

(** A two-dimensional float array with its second shape entry. *)
Record ndarray2 : Type := {
  ncols : nat;
  rows : list (list Q)
}.

(** An array of shape [batch, N, K] is the list of its [batch] entries. *)
Definition ndarray3 : Type := list ndarray2.

Record Detection : Type := {
  label : string;
  score : Q;
  xmin : Q;
  ymin : Q;
  xmax : Q;
  ymax : Q
}.

(** The ONNX Runtime session: an opaque backend. *)
Record InferenceSession : Type := {
  run : string -> tensor -> result (list ndarray3)
}.

Record ObjectDetectionServer : Type := {
  confidence_threshold : Q;
  model_path : option string;
  session : option InferenceSession;
  input_name : string;
  input_shape : Z * Z;
  class_names : list string;
  inference_count : Z;
  total_inference_time : Q
}.

(** The third-party libraries the server calls: OpenCV, and the precision
    NumPy computes in: [np_dtype] for the backend's output arrays and for a
    Python number that meets an array, [np_scalar] for an operation that
    mixes an array element with a Python number, which depends on the NumPy
    version.  NumPy casts the Python number to that precision first. *)
Class Runtime : Type := {
  np_dtype : positive;
  np_scalar : positive;
  cv2_resize : rgb_image -> Z * Z -> result rgb_image;
  cv2_cvtColor_RGB2HSV : rgb_image -> result rgb_image;
  cv2_findContours : gray_image -> list contour;
  cv2_contourArea : contour -> Q;
  cv2_boundingRect : contour -> Z * Z * Z * Z
}.

(* ================================================================== *)
(** ** [get_coco_class_names] and the configuration update *)
(* ================================================================== *)

Open Scope string_scope.

Definition get_coco_class_names : list string :=
  [ "person"; "bicycle"; "car"; "motorcycle"; "airplane"; "bus"; "train"; "truck";
    "boat"; "traffic light"; "fire hydrant"; "stop sign"; "parking meter"; "bench";
    "bird"; "cat"; "dog"; "horse"; "sheep"; "cow"; "elephant"; "bear"; "zebra";
    "giraffe"; "backpack"; "umbrella"; "handbag"; "tie"; "suitcase"; "frisbee";
    "skis"; "snowboard"; "sports ball"; "kite"; "baseball bat"; "baseball glove";
    "skateboard"; "surfboard"; "tennis racket"; "bottle"; "wine glass"; "cup";
    "fork"; "knife"; "spoon"; "bowl"; "banana"; "apple"; "sandwich"; "orange";
    "broccoli"; "carrot"; "hot dog"; "pizza"; "donut"; "cake"; "chair"; "couch";
    "potted plant"; "bed"; "dining table"; "toilet"; "tv"; "laptop"; "mouse";
    "remote"; "keyboard"; "cell phone"; "microwave"; "oven"; "toaster"; "sink";
    "refrigerator"; "book"; "clock"; "vase"; "scissors"; "teddy bear"; "hair drier";
    "toothbrush" ].

Close Scope string_scope.

(** [POST /config]: [detector.confidence_threshold = float(...)]. *)
Definition set_confidence_threshold (self : ObjectDetectionServer) (t : Q)
  : ObjectDetectionServer :=
  {| confidence_threshold := t;
     model_path := model_path self;
     session := session self;
     input_name := input_name self;
     input_shape := input_shape self;
     class_names := class_names self;
     inference_count := inference_count self;
     total_inference_time := total_inference_time self |}.

(* ================================================================== *)
(** ** [preprocess_image] *)
(* ================================================================== *)

Definition gray : pixel := (114, 114, 114)%Z.

(** [np.full((h, w, 3), 114, dtype=np.uint8)]. *)
Definition np_full (h w : Z) (v : pixel) : result rgb_image :=
  if ((h <? 0) || (w <? 0))%Z then raise ValueError
  else ret (repeat (repeat v (Z.to_nat w)) (Z.to_nat h)).

Definition has_shapeb {A : Type} (a : list (list A)) (h w : Z) : bool :=
  (Z.of_nat (length a) =? h)%Z
  && forallb (fun row => (Z.of_nat (length row) =? w)%Z) a.

Definition paste_row (xlo : nat) (row value : list pixel) : list pixel :=
  firstn xlo row ++ value ++ skipn (xlo + length value) row.

(** [a[y0:y1, x0:x1] = value].  The value must have the shape of the
    selected block; NumPy would also stretch an axis of length 1, which
    needs a block other than [value]'s own shape and is left as the error. *)
Definition np_setitem_block (a : rgb_image) (ys xs : Z * Z) (value : rgb_image)
  : result rgb_image :=
  let '(h, w) := shape2 a in
  let '(ylo, yhi) := py_slice_indices (fst ys) (snd ys) h in
  let '(xlo, xhi) := py_slice_indices (fst xs) (snd xs) w in
  if has_shapeb value (Z.max 0 (yhi - ylo)) (Z.max 0 (xhi - xlo)) then
    ret (firstn (Z.to_nat ylo) a
         ++ map2 (paste_row (Z.to_nat xlo)) (skipn (Z.to_nat ylo) a) value
         ++ skipn (Z.to_nat ylo + length value) a)
  else raise ValueError.

Definition channel (c : nat) (p : pixel) : Z :=
  let '(c0, c1, c2) := p in
  match c with
  | O => c0
  | S O => c1
  | _ => c2
  end.

(** [padded.transpose(2, 0, 1).astype(np.float32) / 255.0], then
    [np.expand_dims(_, axis=0)]. *)
Definition to_tensor (padded : rgb_image) : tensor :=
  [ map (fun c => map (map (fun p => Float.fl32 (inject_Z (channel c p) / 255))) padded)
        [0; 1; 2]%nat ].

(** Lines 110-111: the scale and the size of the resized image. *)
Definition resized_dims (h w target_h target_w : Z) : result (Q * Z * Z) :=
  let? a := py_truediv target_w w in
  let? b := py_truediv target_h h in
  let scale := py_min a b in
  ret (scale, py_int (py_mul_int_float w scale), py_int (py_mul_int_float h scale)).

Definition preprocess_image `{RT : Runtime} (self : ObjectDetectionServer) (image : rgb_image)
  : result (tensor * Q * (Z * Z)) :=
  let '(h, w) := shape2 image in
  let '(target_h, target_w) := input_shape self in
  let? '(scale, new_w, new_h) := resized_dims h w target_h target_w in
  let? resized := cv2_resize image (new_w, new_h) in
  let? padded := np_full target_h target_w gray in
  let pad_x := ((target_w - new_w) / 2)%Z in
  let pad_y := ((target_h - new_h) / 2)%Z in
  let? padded :=
    np_setitem_block padded (pad_y, pad_y + new_h)%Z (pad_x, pad_x + new_w)%Z resized in
  let input_tensor := to_tensor padded in
  ret (input_tensor, scale, (pad_x, pad_y)).

(* ================================================================== *)
(** ** [postprocess_detections] *)
(* ================================================================== *)

(** [a[:, j]]: the index is checked against the shape. *)
Definition np_col (a : ndarray2) (j : nat) : result (list Q) :=
  if (j <? ncols a)%nat then ret (map (fun r => nth j r 0) (rows a))
  else raise IndexError.

(** [a[:, :j]] and [a[:, j:]]: slices never raise. *)
Definition np_cols_to (a : ndarray2) (j : nat) : ndarray2 :=
  {| ncols := Nat.min j (ncols a); rows := map (firstn j) (rows a) |}.

Definition np_cols_from (a : ndarray2) (j : nat) : ndarray2 :=
  {| ncols := ncols a - j; rows := map (skipn j) (rows a) |}.

(** [a[keep]] for a boolean array [keep] with one entry per row. *)
Definition np_take_rows (a : ndarray2) (keep : list bool) : ndarray2 :=
  {| ncols := ncols a;
     rows := map snd (filter fst (combine keep (rows a))) |}.

(** Index of the first maximum. *)
Fixpoint argmax_from (best : Q) (best_i i : nat) (l : list Q) : nat :=
  match l with
  | [] => best_i
  | x :: rest =>
      if Qltb best x then argmax_from x i (S i) rest
      else argmax_from best best_i (S i) rest
  end.

Definition argmax (l : list Q) : nat :=
  match l with
  | [] => O
  | x :: rest => argmax_from x O 1%nat rest
  end.

Definition list_max (l : list Q) : Q :=
  match l with
  | [] => 0
  | x :: rest => fold_left (fun m y => if Qltb m y then y else m) rest x
  end.

(** [np.argmax(a, axis=1)] and [np.max(a, axis=1)] reject an empty axis. *)
Definition np_argmax_axis1 (a : ndarray2) : result (list nat) :=
  if (ncols a =? 0)%nat then raise ValueError else ret (map argmax (rows a)).

Definition np_max_axis1 (a : ndarray2) : result (list Q) :=
  if (ncols a =? 0)%nat then raise ValueError else ret (map list_max (rows a)).

Definition string_of_nat (n : nat) : string :=
  NilZero.string_of_uint (Nat.to_uint n).

(** Line 184. *)
Definition class_label (self : ObjectDetectionServer) (class_id : nat) : string :=
  if (class_id <? length (class_names self))%nat
  then nth class_id (class_names self) EmptyString
  else String.append "class_" (string_of_nat class_id).

(** Lines 169-193: one surviving row becomes a detection.  Arithmetic on the
    array element is carried out in the precision [np_scalar]: the Python
    operands ([pad_x], [scale], [orig_w], ...) are cast to it and every
    result is rounded to it.  NumPy divides by zero without raising (the
    quotient is infinite or NaN); here [x / 0] is 0, so the model says
    nothing of a zero [scale] or a zero image side, which [detect] never
    passes on: [preprocess_image] raises on an empty image and returns a
    positive scale. *)
Definition box_to_detection `{RT : Runtime} (self : ObjectDetectionServer)
  (original_shape : Z * Z) (scale : Q) (padding : Z * Z)
  (box : list Q) (conf : Q) (class_id : nat) : Detection :=
  let fl := Float.round np_scalar in
  let '(pad_x, pad_y) := padding in
  let '(orig_h, orig_w) := original_shape in
  let x_center := nth 0 box 0 in
  let y_center := nth 1 box 0 in
  let width := nth 2 box 0 in
  let height := nth 3 box 0 in
  let scale := fl scale in
  let pad_x := fl (inject_Z pad_x) in
  let pad_y := fl (inject_Z pad_y) in
  let orig_w := fl (inject_Z orig_w) in
  let orig_h := fl (inject_Z orig_h) in
  let x_center := fl (fl (x_center - pad_x) / scale) in
  let y_center := fl (fl (y_center - pad_y) / scale) in
  let width := fl (width / scale) in
  let height := fl (height / scale) in
  let x1 := py_max 0 (fl (fl (x_center - fl (width / 2)) / orig_w)) in
  let y1 := py_max 0 (fl (fl (y_center - fl (height / 2)) / orig_h)) in
  let x2 := py_min 1 (fl (fl (x_center + fl (width / 2)) / orig_w)) in
  let y2 := py_min 1 (fl (fl (y_center + fl (height / 2)) / orig_h)) in
  let class_name := class_label self class_id in
  {| label := class_name;
     score := conf;
     xmin := x1;
     ymin := y1;
     xmax := x2;
     ymax := y2 |}.

(** The body of the [try] block, over the local list [detections].  NumPy
    casts the Python float [self.confidence_threshold] before it compares:
    to the array's precision at line 144, to the scalar precision at
    line 168. *)
Definition postprocess_try `{RT : Runtime} (self : ObjectDetectionServer)
  (outputs : list ndarray3) (original_shape : Z * Z) (scale : Q) (padding : Z * Z)
  : Exec (list Detection) unit :=
  do out0 <- lift (py_getitem outputs 0) ;;
  do predictions <- lift (py_getitem out0 0) ;;
  do confidences <- lift (np_col predictions 4) ;;
  let valid_indices :=
    map (Qltb (Float.round np_dtype (confidence_threshold self))) confidences in
  if negb (existsb (fun b => b) valid_indices) then pure tt
  else
    let valid_predictions := np_take_rows predictions valid_indices in
    let boxes := np_cols_to valid_predictions 4 in
    do confidences <- lift (np_col valid_predictions 4) ;;
    let class_scores := np_cols_from valid_predictions 5 in
    do class_ids <- lift (np_argmax_axis1 class_scores) ;;
    do class_confidences <- lift (np_max_axis1 class_scores) ;;
    let final_confidences :=
      map2 (fun c k => Float.round np_dtype (c * k)) confidences class_confidences in
    for_each (combine (rows boxes) (combine final_confidences class_ids))
      (fun '(box, (conf, class_id)) =>
         if Qltb (Float.round np_scalar (confidence_threshold self)) conf then
           modify (fun detections =>
             detections
             ++ [box_to_detection self original_shape scale padding box conf class_id])
         else pure tt).

(** [except Exception] logs and falls through to [return detections]. *)
Definition postprocess_detections `{RT : Runtime} (self : ObjectDetectionServer)
  (outputs : list ndarray3) (original_shape : Z * Z) (scale : Q) (padding : Z * Z)
  : list Detection :=
  snd (postprocess_try self outputs original_shape scale padding []).

(* ================================================================== *)
(** ** [fallback_detection] *)
(* ================================================================== *)

Definition lower_red1 : pixel := (0, 50, 50)%Z.
Definition upper_red1 : pixel := (10, 255, 255)%Z.
Definition lower_red2 : pixel := (170, 50, 50)%Z.
Definition upper_red2 : pixel := (180, 255, 255)%Z.

Definition in_range (p lowerb upperb : pixel) : bool :=
  let '(p0, p1, p2) := p in
  let '(l0, l1, l2) := lowerb in
  let '(u0, u1, u2) := upperb in
  ((l0 <=? p0) && (p0 <=? u0) && (l1 <=? p1) && (p1 <=? u1)
   && (l2 <=? p2) && (p2 <=? u2))%Z.

Definition cv2_inRange (src : rgb_image) (lowerb upperb : pixel) : gray_image :=
  map (map (fun p => if in_range p lowerb upperb then 255%Z else 0%Z)) src.

Definition cv2_bitwise_or (a b : gray_image) : gray_image :=
  map2 (map2 Z.lor) a b.

(** Lines 215-217. *)
Definition red_mask (hsv : rgb_image) : gray_image :=
  let mask1 := cv2_inRange hsv lower_red1 upper_red1 in
  let mask2 := cv2_inRange hsv lower_red2 upper_red2 in
  cv2_bitwise_or mask1 mask2.

(** The literal [0.8]. *)
Definition dummy_confidence : Q := Float.fl64 (8 # 10).

(** Lines 223-235. *)
Fixpoint fallback_loop `{RT : Runtime} (h w : Z) (contours : list contour)
  (detections : list Detection) : result (list Detection) :=
  match contours with
  | [] => ret detections
  | contour :: rest =>
      let area := cv2_contourArea contour in
      if Qltb 500 area then
        let '(x, y, cw, ch) := cv2_boundingRect contour in
        let? x_min := py_truediv x w in
        let? y_min := py_truediv y h in
        let? x_max := py_truediv (x + cw) w in
        let? y_max := py_truediv (y + ch) h in
        fallback_loop h w rest
          (detections
           ++ [ {| label := "red_object";
                   score := dummy_confidence;
                   xmin := x_min;
                   ymin := y_min;
                   xmax := x_max;
                   ymax := y_max |} ])
      else fallback_loop h w rest detections
  end.

Definition fallback_detection `{RT : Runtime} (self : ObjectDetectionServer)
  (image : rgb_image) : result (list Detection) :=
  let detections := [] in
  let? hsv := cv2_cvtColor_RGB2HSV image in
  let mask := red_mask hsv in
  let contours := cv2_findContours mask in
  let '(h, w) := shape2 image in
  fallback_loop h w contours detections.

(* ================================================================== *)
(** ** [detect] *)
(* ================================================================== *)

(** Lines 244-255: the model path or the fallback path. *)
Definition dispatch `{RT : Runtime} (self : ObjectDetectionServer) (image : rgb_image)
  : result (list Detection) :=
  match session self with
  | Some sess =>
      let? '(input_tensor, scale, padding) := preprocess_image self image in
      let? outputs := run sess (input_name self) input_tensor in
      ret (postprocess_detections self outputs (shape2 image) scale padding)
  | None => fallback_detection self image
  end.

(** [self.inference_count += 1]. *)
Definition count_inference (self : ObjectDetectionServer) : ObjectDetectionServer :=
  {| confidence_threshold := confidence_threshold self;
     model_path := model_path self;
     session := session self;
     input_name := input_name self;
     input_shape := input_shape self;
     class_names := class_names self;
     inference_count := inference_count self + 1;
     total_inference_time := total_inference_time self |}.

(** [self.total_inference_time += inference_time]. *)
Definition add_inference_time (inference_time : Q) (self : ObjectDetectionServer)
  : ObjectDetectionServer :=
  {| confidence_threshold := confidence_threshold self;
     model_path := model_path self;
     session := session self;
     input_name := input_name self;
     input_shape := input_shape self;
     class_names := class_names self;
     inference_count := inference_count self;
     total_inference_time :=
       Float.fl64 (total_inference_time self + inference_time) |}.

(** The [try] block of [detect].  [start_time] and [now] are the two
    readings of [time.time()], at line 241 and at line 258. *)
Definition detect_try `{RT : Runtime} (start_time now : Q) (image : rgb_image)
  : Exec ObjectDetectionServer (list Detection) :=
  do self <- get ;;
  do detections <- lift (dispatch self image) ;;
  let inference_time := Float.fl64 (now - start_time) in
  do _ <- modify count_inference ;;
  do _ <- modify (add_inference_time inference_time) ;;
  pure detections.

(** [except Exception]: log and [return []]. *)
Definition detect `{RT : Runtime} (start_time now : Q) (image : rgb_image)
  (self : ObjectDetectionServer) : list Detection * ObjectDetectionServer :=
  match detect_try start_time now image self with
  | (inr detections, self') => (detections, self')
  | (inl _, self') => ([], self')
  end.

(* ================================================================== *)
(** ** A small runtime to run the model on *)
(* ================================================================== *)

(** Executable stand-ins for the OpenCV calls, used where a statement is
    evaluated on a concrete input: nearest-neighbour resampling, the 8-bit
    HSV conversion formula, Green's formula for the area, the tight
    bounding box, and a contour finder that handles one filled axis-parallel
    rectangle.  The theorems about the server quantify over every
    [Runtime]. *)
Module Reference.

Definition Zrange (n : Z) : list Z := map Z.of_nat (seq 0 (Z.to_nat n)).

Definition resize (src : rgb_image) (dsize : Z * Z) : result rgb_image :=
  let '(h, w) := shape2 src in
  let '(new_w, new_h) := dsize in
  if ((h <=? 0) || (w <=? 0) || (new_w <=? 0) || (new_h <=? 0))%Z
  then raise cv2_error
  else
    ret (map (fun y =>
                let row := nth (Z.to_nat (y * h / new_h)) src [] in
                map (fun x => nth (Z.to_nat (x * w / new_w)) row (0, 0, 0)%Z)
                    (Zrange new_w))
             (Zrange new_h)).

Definition hsv_of_rgb (p : pixel) : pixel :=
  let '(r, g, b) := p in
  let v := Z.max r (Z.max g b) in
  let m := Z.min r (Z.min g b) in
  let d := inject_Z (v - m) in
  let s := if (v =? 0)%Z then 0 else 255 * d / inject_Z v in
  let hue :=
    if (v =? m)%Z then 0
    else if (v =? r)%Z then 60 * inject_Z (g - b) / d
    else if (v =? g)%Z then 120 + 60 * inject_Z (b - r) / d
    else 240 + 60 * inject_Z (r - g) / d in
  let hue := if Qltb hue 0 then hue + 360 else hue in
  (Float.round_half_even (hue / 2), Float.round_half_even s, v).

Definition cvtColor_RGB2HSV (src : rgb_image) : result rgb_image :=
  let '(h, w) := shape2 src in
  if ((h <=? 0) || (w <=? 0))%Z then raise cv2_error
  else ret (map (map hsv_of_rgb) src).

(** The points [(x, y)] of the non-zero pixels. *)
Definition nonzero_points (m : gray_image) : list (Z * Z) :=
  flat_map (fun '(y, row) =>
              flat_map (fun '(x, v) => if (v =? 0)%Z then [] else [(x, y)])
                       (combine (Zrange (Z.of_nat (length row))) row))
           (combine (Zrange (Z.of_nat (length m))) m).

Definition minimum (l : list Z) : Z := fold_right Z.min (hd 0%Z l) l.

Definition maximum (l : list Z) : Z := fold_right Z.max (hd 0%Z l) l.

Definition boundingRect (c : contour) : Z * Z * Z * Z :=
  match c with
  | [] => (0, 0, 0, 0)%Z
  | _ =>
      let xs := map fst c in
      let ys := map snd c in
      (minimum xs, minimum ys,
       maximum xs - minimum xs + 1, maximum ys - minimum ys + 1)%Z
  end.

Definition findContours (m : gray_image) : list contour :=
  let pts := nonzero_points m in
  let '(x, y, cw, ch) := boundingRect pts in
  if (0 <? cw * ch)%Z && (Z.of_nat (length pts) =? cw * ch)%Z
  then [[(x, y); (x, y + ch - 1); (x + cw - 1, y + ch - 1); (x + cw - 1, y)]%Z]
  else [].

Fixpoint cross_sum (first prev : Z * Z) (l : list (Z * Z)) : Z :=
  match l with
  | [] => (fst prev * snd first - fst first * snd prev)%Z
  | p :: rest => (fst prev * snd p - fst p * snd prev + cross_sum first p rest)%Z
  end.

Definition contourArea (c : contour) : Q :=
  match c with
  | [] => 0
  | p :: rest => Float.fl64 (inject_Z (Z.abs (cross_sum p p rest)) / 2)
  end.

Definition runtime : Runtime := {|
  np_dtype := Float.binary32;
  np_scalar := Float.binary64;
  cv2_resize := resize;
  cv2_cvtColor_RGB2HSV := cvtColor_RGB2HSV;
  cv2_findContours := findContours;
  cv2_contourArea := contourArea;
  cv2_boundingRect := boundingRect
|}.

(** The server as [__init__] leaves it when no model file is found. *)
Definition fallback_server : ObjectDetectionServer :=
  {| confidence_threshold := 1 # 2;
     model_path := None;
     session := None;
     input_name := EmptyString;
     input_shape := (640, 640)%Z;
     class_names := get_coco_class_names;
     inference_count := 0;
     total_inference_time := 0 |}.

(** A backend that fails, one that answers [outputs], and one that is never
    reached. *)
Definition failing_session : InferenceSession :=
  {| run := fun _ _ => raise RuntimeError |}.

Definition stub_session (outputs : list ndarray3) : InferenceSession :=
  {| run := fun _ _ => ret outputs |}.

Definition no_session : InferenceSession := stub_session [].

(** The same server with a backend installed. *)
Definition server_with (sess : InferenceSession) : ObjectDetectionServer :=
  {| confidence_threshold := 1 # 2;
     model_path := Some "models/yolov5s.onnx"%string;
     session := Some sess;
     input_name := "images"%string;
     input_shape := (640, 640)%Z;
     class_names := get_coco_class_names;
     inference_count := 0;
     total_inference_time := 0 |}.

(** A server whose model takes 8 x 8 inputs. *)
Definition small_model_server (sess : InferenceSession) : ObjectDetectionServer :=
  {| confidence_threshold := 1 # 2;
     model_path := Some "models/tiny.onnx"%string;
     session := Some sess;
     input_name := "images"%string;
     input_shape := (8, 8)%Z;
     class_names := get_coco_class_names;
     inference_count := 0;
     total_inference_time := 0 |}.

(** An image of [h] rows and [w] columns, black except for a pure-red
    rectangle with corner [(x0, y0)], [rw] wide and [rh] high. *)
Definition red_rectangle_image (h w x0 y0 rw rh : Z) : rgb_image :=
  map (fun y =>
         map (fun x =>
                if ((x0 <=? x) && (x <? x0 + rw) && (y0 <=? y) && (y <? y0 + rh))%Z
                then (255, 0, 0)%Z else (0, 0, 0)%Z)
             (Zrange w))
      (Zrange h).

End Reference.

(* ================================================================== *)
(** ** The specification's vocabulary *)
(* ================================================================== *)

(** Largest side length for which the bounds below are shown. *)
Definition max_dim : Z := (2 ^ 50)%Z.

(** The resized image centred on a gray canvas of [target_h] rows and
    [target_w] columns, as the specification words it. *)
Definition centered_on_gray (target_h target_w pad_x pad_y new_w new_h : Z)
  (resized : rgb_image) : rgb_image :=
  let gray_row := repeat gray (Z.to_nat target_w) in
  repeat gray_row (Z.to_nat pad_y)
  ++ map (fun row =>
            repeat gray (Z.to_nat pad_x) ++ row
            ++ repeat gray (Z.to_nat (target_w - pad_x - new_w)))
         resized
  ++ repeat gray_row (Z.to_nat (target_h - pad_y - new_h)).

(** The object confidence of a row and its final confidence (line 161). *)
Definition object_confidence (r : list Q) : Q := nth 4 r 0.

Definition final_confidence `{RT : Runtime} (r : list Q) : Q :=
  Float.round np_dtype (object_confidence r * list_max (skipn 5 r)).

(** The rows that pass both filters at threshold [t]. *)
Definition survivors `{RT : Runtime} (t : Q) (l : list (list Q))
  : list (list Q) :=
  filter (fun r => Qltb (Float.round np_scalar t) (final_confidence r))
         (filter (fun r => Qltb (Float.round np_dtype t) (object_confidence r)) l).

Definition row_detection `{RT : Runtime} (self : ObjectDetectionServer)
  (original_shape : Z * Z)
  (scale : Q) (padding : Z * Z) (r : list Q) : Detection :=
  box_to_detection self original_shape scale padding
    (firstn 4 r) (final_confidence r) (argmax (skipn 5 r)).

(** The detection the specification asks for a contour with bounding
    rectangle [rect] in an image of [h] rows and [w] columns. *)
Definition red_object_at (h w : Z) (rect : Z * Z * Z * Z) : Detection :=
  let '(x, y, cw, ch) := rect in
  {| label := "red_object";
     score := Float.fl64 (8 # 10);
     xmin := Float.fl64 (inject_Z x / inject_Z w);
     ymin := Float.fl64 (inject_Z y / inject_Z h);
     xmax := Float.fl64 (inject_Z (x + cw) / inject_Z w);
     ymax := Float.fl64 (inject_Z (y + ch) / inject_Z h) |}.

(** The rectangle lies inside an image of [h] rows and [w] columns. *)
Definition rect_inside (h w : Z) (rect : Z * Z * Z * Z) : Prop :=
  let '(x, y, cw, ch) := rect in
  (0 <= x /\ 0 <= y /\ 0 <= cw /\ 0 <= ch /\ x + cw <= w /\ y + ch <= h)%Z.

Definition in_unit_square (d : Detection) : Prop :=
  (0 <= xmin d /\ xmin d <= 1) /\ (0 <= ymin d /\ ymin d <= 1)
  /\ (0 <= xmax d /\ xmax d <= 1) /\ (0 <= ymax d /\ ymax d <= 1).

(* ================================================================== *)
(** ** Concrete inputs *)
(* ================================================================== *)

(** A raw output with one candidate: a 10 x 10 box centred at (630, 320) in
    model space, object confidence 0.875, three class scores.  For a
    480 x 640 image letterboxed into 640 x 640 the picture occupies the
    columns 80 to 559, so the box lies in the right-hand padding. *)
Definition box_in_padding : list ndarray3 :=
  [ [ {| ncols := 8;
         rows := [ [630; 320; 10; 10; 7 # 8; 3 # 4; 1 # 8; 0] ] |} ] ].

(** A raw output whose rows carry no class scores. *)
Definition no_class_scores : list ndarray3 :=
  [ [ {| ncols := 5; rows := [ [320; 320; 10; 10; 7 # 8] ] |} ] ].

(** A 40 x 50 image holding one pure-red 30 x 30 square. *)
Definition red_square_image : rgb_image :=
  Reference.red_rectangle_image 40 50 5 4 30 30.

Definition red_square_hsv : rgb_image :=
  Eval vm_compute in map (map Reference.hsv_of_rgb) red_square_image.

Definition red_square_contour : contour :=
  [(5, 4); (5, 33); (34, 33); (34, 4)]%Z.

(** A 2 x 3 image with one red pixel. *)
Definition tiny_image : rgb_image := Reference.red_rectangle_image 2 3 1 0 1 1.

Definition tiny_scale : Q :=
  Eval vm_compute in py_min (Float.fl64 (8 / 3)) (Float.fl64 (8 / 2)).

Definition tiny_resized : rgb_image :=
  Eval vm_compute in
    match Reference.resize tiny_image (8, 5)%Z with
    | inr resized => resized
    | inl _ => []
    end.

(* ================================================================== *)
(** ** Further vocabulary and inputs *)
(* ================================================================== *)

(** The detection decoded from [box_in_padding]. *)
Definition padding_box_detection : Detection :=
  Eval vm_compute in
    hd {| label := EmptyString; score := 0; xmin := 0; ymin := 0; xmax := 0; ymax := 0 |}
       (postprocess_detections (RT := Reference.runtime)
          (Reference.server_with Reference.no_session)
          box_in_padding (640, 480)%Z 1 (80, 0)%Z).

(** A pixel whose three channels are bytes. *)
Definition uint8_pixel (p : pixel) : Prop :=
  let '(c0, c1, c2) := p in
  (0 <= c0 <= 255 /\ 0 <= c1 <= 255 /\ 0 <= c2 <= 255)%Z.

(** A tensor of shape [1, 3, h, w]. *)
Definition tensor_has_shape (t : tensor) (h w : Z) : Prop :=
  length t = 1%nat
  /\ Forall (fun planes =>
               length planes = 3%nat
               /\ Forall (fun plane => has_shape plane h w) planes) t.

(** Every entry of the tensor lies in [0,1]. *)
Definition tensor_in_unit_interval (t : tensor) : Prop :=
  Forall (Forall (Forall (Forall (fun v => 0 <= v /\ v <= 1)))) t.

(** The red bands of lines 209-212, spelled out on hue, saturation and
    value. *)
Definition is_red (p : pixel) : bool :=
  let '(hue, sat, val) := p in
  ((((0 <=? hue) && (hue <=? 10)) || ((170 <=? hue) && (hue <=? 180)))
   && ((50 <=? sat) && (sat <=? 255))
   && ((50 <=? val) && (val <=? 255)))%Z.

(** The invariant of a detection: corners in [0,1] and ordered. *)
Definition well_formed_box (d : Detection) : Prop :=
  in_unit_square d /\ xmin d <= xmax d /\ ymin d <= ymax d.

(** A 40 x 50 image holding one pure-red 20 x 20 square. *)
Definition small_red_square_image : rgb_image :=
  Reference.red_rectangle_image 40 50 5 4 20 20.

Definition small_red_square_hsv : rgb_image :=
  Eval vm_compute in map (map Reference.hsv_of_rgb) small_red_square_image.

(** A run of calls to [detect], each with its two clock readings, on the
    one server object: the results in order and the server afterwards. *)
Fixpoint detect_all `{RT : Runtime} (calls : list (Q * Q * rgb_image))
  (self : ObjectDetectionServer)
  : list (list Detection) * ObjectDetectionServer :=
  match calls with
  | [] => ([], self)
  | (start_time, now, image) :: rest =>
      let '(detections, self') := detect start_time now image self in
      let '(results, self'') := detect_all rest self' in
      (detections :: results, self'')
  end.

(** The dispatched path returns on this image. *)
Definition completes `{RT : Runtime} (self : ObjectDetectionServer)
  (call : Q * Q * rgb_image) : bool :=
  match dispatch self (snd call) with
  | inr _ => true
  | inl _ => false
  end.

(* ================================================================== *)
(** ** [get_stats] *)
(* ================================================================== *)

(** [x / n] for a float [x] and an int [n]. *)
Definition py_truediv_float_int (x : Q) (n : Z) : result Q :=
  if (n =? 0)%Z then raise ZeroDivisionError
  else ret (Float.fl64 (x / Float.fl64 (inject_Z n))).

Record Stats : Type := {
  stats_inference_count : Z;
  stats_average_inference_time_ms : Q;
  stats_model_loaded : bool;
  stats_model_path : option string;
  stats_input_shape : Z * Z;
  stats_confidence_threshold : Q
}.

Definition is_not_None {A : Type} (o : option A) : bool :=
  match o with
  | Some _ => true
  | None => false
  end.

Definition get_stats (self : ObjectDetectionServer) : result Stats :=
  let? avg_inference_time :=
    if (0 <? inference_count self)%Z
    then py_truediv_float_int (total_inference_time self) (inference_count self)
    else ret 0 in
  ret {| stats_inference_count := inference_count self;
         stats_average_inference_time_ms := Float.fl64 (avg_inference_time * 1000);
         stats_model_loaded := is_not_None (session self);
         stats_model_path := model_path self;
         stats_input_shape := input_shape self;
         stats_confidence_threshold := confidence_threshold self |}.

(* ================================================================== *)
(** ** Construction: [__init__], [get_default_model_path],
       [initialize_model] *)
(* ================================================================== *)

(** What [ort.InferenceSession(path, providers=...)] gives access to: the
    session itself, [get_inputs()] as names with their shapes, and
    [get_providers()].  Shapes are lists of ints; symbolic dimensions are
    not represented. *)
Record OrtSession : Type := {
  ort_session : InferenceSession;
  ort_inputs : list (string * list Z);
  ort_providers : list string
}.

(** What [os.makedirs] can raise. *)
Inductive os_exn : Type :=
| PermissionError
| FileExistsError
| OSError.

Definition os_result (A : Type) : Type := (os_exn + A)%type.

(** The file system and ONNX Runtime as the constructor sees them:
    [os.path.exists], [os.makedirs(_, exist_ok=True)], the directory
    [../models] next to the source file and the path [yolov5s.onnx] in it,
    [ort.get_device()] and [ort.InferenceSession]. *)
Class Host : Type := {
  os_path_exists : string -> bool;
  os_makedirs : string -> os_result unit;
  default_model_dir : string;
  default_model_file : string;
  ort_get_device : string;
  ort_InferenceSession : string -> list string -> result OrtSession
}.

(** Truth value of [model_path]: [None] and the empty string are false. *)
Definition path_is_true (model_path : option string) : bool :=
  match model_path with
  | None => false
  | Some EmptyString => false
  | Some _ => true
  end.

(** Lines 38-52.  [os.makedirs] is called outside every [try]: what it
    raises leaves the method. *)
Definition get_default_model_path `{HO : Host} : os_result (option string) :=
  let model_dir := default_model_dir in
  match os_makedirs model_dir with
  | inl e => inl e
  | inr _ =>
      let model_path := default_model_file in
      if negb (os_path_exists model_path) then inr None
      else inr (Some model_path)
  end.

Definition set_session (session' : option InferenceSession)
  (self : ObjectDetectionServer) : ObjectDetectionServer :=
  {| confidence_threshold := confidence_threshold self;
     model_path := model_path self;
     session := session';
     input_name := input_name self;
     input_shape := input_shape self;
     class_names := class_names self;
     inference_count := inference_count self;
     total_inference_time := total_inference_time self |}.

Definition set_input_name (name : string) (self : ObjectDetectionServer)
  : ObjectDetectionServer :=
  {| confidence_threshold := confidence_threshold self;
     model_path := model_path self;
     session := session self;
     input_name := name;
     input_shape := input_shape self;
     class_names := class_names self;
     inference_count := inference_count self;
     total_inference_time := total_inference_time self |}.

Definition set_input_shape (shape : Z * Z) (self : ObjectDetectionServer)
  : ObjectDetectionServer :=
  {| confidence_threshold := confidence_threshold self;
     model_path := model_path self;
     session := session self;
     input_name := input_name self;
     input_shape := shape;
     class_names := class_names self;
     inference_count := inference_count self;
     total_inference_time := total_inference_time self |}.

(** Lines 59-63: the CPU provider, preceded by CUDA on a GPU build. *)
Definition execution_providers `{HO : Host} : list string :=
  let providers := ["CPUExecutionProvider"%string] in
  if String.eqb ort_get_device "GPU"
  then "CUDAExecutionProvider"%string :: providers
  else providers.

(** The [try] block of [initialize_model] (lines 57-80). *)
Definition initialize_model_try `{HO : Host} : Exec ObjectDetectionServer unit :=
  do self <- get ;;
  match model_path self with
  | Some path =>
      if path_is_true (model_path self) && os_path_exists path then
        let providers := execution_providers in
        do loaded <- lift (ort_InferenceSession path providers) ;;
        do _ <- modify (set_session (Some (ort_session loaded))) ;;
        do input_details <- lift (py_getitem (ort_inputs loaded) 0) ;;
        do _ <- modify (set_input_name (fst input_details)) ;;
        let input_shape := snd input_details in
        if (length input_shape =? 4)%nat then
          modify (set_input_shape (nth 2 input_shape 0%Z, nth 3 input_shape 0%Z))
        else pure tt
      else modify (set_session None)
  | None => modify (set_session None)
  end.

(** [except Exception]: log and [self.session = None]. *)
Definition initialize_model `{HO : Host} (self : ObjectDetectionServer)
  : ObjectDetectionServer :=
  match initialize_model_try self with
  | (inr _, self') => self'
  | (inl _, self') => set_session None self'
  end.

(** [ObjectDetectionServer(model_path, confidence_threshold)].  In
    [model_path or self.get_default_model_path()] the method is called only
    when [model_path] is false; an exception from it leaves the constructor
    and no server is built. *)
Definition init `{HO : Host} (model_path : option string) (confidence_threshold : Q)
  : os_result ObjectDetectionServer :=
  match (if path_is_true model_path then inr model_path
         else get_default_model_path) with
  | inl e => inl e
  | inr model_path =>
      inr (initialize_model
             {| confidence_threshold := confidence_threshold;
                model_path := model_path;
                session := None;
                input_name := EmptyString;
                input_shape := (640, 640)%Z;
                class_names := get_coco_class_names;
                inference_count := 0;
                total_inference_time := 0 |})
  end.

(* ================================================================== *)
(** ** The Flask handlers *)
(* ================================================================== *)

From Stdlib Require Import Ascii.

(** A parsed JSON document.  A number without fraction or exponent is an
    int of any size; [JFloat] holds a finite double (the infinities and NaN,
    which [json.loads] also accepts, are not represented). *)
#[local] Unset Elimination Schemes.
Inductive json : Type :=
| JNull
| JBool (b : bool)
| JInt (n : Z)
| JFloat (x : Q)
| JStr (s : string)
| JArray (items : list json)
| JObject (fields : list (string * json)).
#[local] Set Elimination Schemes.

(** Exceptions of the handlers: those of the detection code and the ones
    raised on a JSON value of the wrong type or an undecodable image. *)
Inductive web_exn : Type :=
| Raised (e : exn)
| TypeError
| AttributeError
| KeyError
| BadRequest
| DecodeError
| OverflowError.

Definition web_result (A : Type) : Type := (web_exn + A)%type.

Definition bindW {A B : Type} (m : web_result A) (k : A -> web_result B)
  : web_result B :=
  match m with
  | inl e => inl e
  | inr a => k a
  end.

Notation "'let!' x ':=' m 'in' k" := (bindW m (fun x => k))
  (at level 10, x binder, m at level 100, k at level 200).

(** What the request handlers need besides the detector: the decoding of a
    base64 string into an RGB array ([base64.b64decode], [Image.open],
    [convert('RGB')], [np.array]), [str] of a float and [float] of a
    string. *)
Class Transport : Type := {
  decode_image : string -> web_result rgb_image;
  py_str_of_float : Q -> string;
  py_float_of_str : string -> web_result Q
}.

Fixpoint assoc (key : string) (fields : list (string * json)) : option json :=
  match fields with
  | [] => None
  | (k, v) :: rest => if String.eqb k key then Some v else assoc key rest
  end.

Definition is_substring (needle hay : string) : bool :=
  match String.index 0 needle hay with
  | Some _ => true
  | None => false
  end.

(** [key in data]: a key of a dict, an element of a list, a substring of a
    string; anything else is not iterable. *)
Definition py_in (key : string) (data : json) : web_result bool :=
  match data with
  | JObject fields => inr (is_not_None (assoc key fields))
  | JArray items =>
      inr (existsb (fun v => match v with
                             | JStr s => String.eqb s key
                             | _ => false
                             end) items)
  | JStr s => inr (is_substring key s)
  | _ => inl TypeError
  end.

(** [data[key]] for a string [key]. *)
Definition py_subscript (data : json) (key : string) : web_result json :=
  match data with
  | JObject fields =>
      match assoc key fields with
      | Some v => inr v
      | None => inl KeyError
      end
  | _ => inl TypeError
  end.

(** [data.get(key, default)]: only a dict has the method. *)
Definition py_get (data : json) (key : string) (default : json) : web_result json :=
  match data with
  | JObject fields =>
      match assoc key fields with
      | Some v => inr v
      | None => inr default
      end
  | _ => inl AttributeError
  end.

(** The doubles lie strictly between [-2^1024] and [2^1024]. *)
Definition float_overflow : Q := inject_Z (2 ^ 1024).

(** [float(v)].  An int is rounded to the nearest double, and
    [OverflowError] is raised when that leaves the range of the doubles. *)
Definition py_float `{TR : Transport} (v : json) : web_result Q :=
  match v with
  | JInt n =>
      let x := Float.fl64 (inject_Z n) in
      if Qltb (Qabs x) float_overflow then inr x else inl OverflowError
  | JFloat x => inr x
  | JBool b => inr (if b then 1 else 0)
  | JStr s => py_float_of_str s
  | _ => inl TypeError
  end.

(** The receiver of a [str] method. *)
Definition py_str_receiver (v : json) : web_result string :=
  match v with
  | JStr s => inr s
  | _ => inl AttributeError
  end.

(** [s.split(sep)] for a one-character separator. *)
Fixpoint py_split (sep : Ascii.ascii) (s : string) : list string :=
  match s with
  | EmptyString => [EmptyString]
  | String c rest =>
      if Ascii.eqb c sep then EmptyString :: py_split sep rest
      else
        match py_split sep rest with
        | [] => [String c EmptyString]
        | piece :: pieces => String c piece :: pieces
        end
  end.

Definition py_getitem_web {A : Type} (l : list A) (i : nat) : web_result A :=
  match nth_error l i with
  | Some a => inr a
  | None => inl (Raised IndexError)
  end.

Inductive http_method : Type :=
| GET
| POST.

Record ConfigView : Type := {
  view_confidence_threshold : Q;
  view_input_shape : Z * Z;
  view_model_path : option string
}.

Inductive config_reply : Type :=
| Configuration (view : ConfigView)
| Message (text : string).

(** [handle_config].  [body] is the outcome of [request.get_json()], read
    on POST only.  Nothing catches here: an exception leaves the handler,
    and the detector as it was. *)
Definition handle_config `{TR : Transport} (method : http_method)
  (body : web_result json) (detector : ObjectDetectionServer)
  : web_result config_reply * ObjectDetectionServer :=
  match method with
  | GET =>
      (inr (Configuration
              {| view_confidence_threshold := confidence_threshold detector;
                 view_input_shape := input_shape detector;
                 view_model_path := model_path detector |}),
       detector)
  | POST =>
      let update :=
        let! data := body in
        let! present := py_in "confidence_threshold" data in
        if present then
          let! value := py_subscript data "confidence_threshold" in
          let! threshold := py_float value in
          inr (Some threshold)
        else inr None in
      match update with
      | inl e => (inl e, detector)
      | inr (Some threshold) =>
          (inr (Message "Configuration updated"),
           set_confidence_threshold detector threshold)
      | inr None => (inr (Message "Configuration updated"), detector)
      end
  end.

(** The readings of [time.time()] during one request to [/detect], in the
    order they are taken. *)
Record RequestClock : Type := {
  t_start : Q;
  t_done : Q;
  t_frame_id : Q;
  t_capture : Q;
  t_recv : Q;
  t_inference : Q
}.

Record DetectReply : Type := {
  frame_id : json;
  capture_ts : json;
  recv_ts : Q;
  inference_ts : Q;
  reply_detections : list Detection;
  detection_count : Z
}.

(** Status 200 with the response, 400 with [{'error': error}], or 500
    with [{'error': str(e)}] for the exception caught. *)
Inductive http_reply : Type :=
| Reply200 (reply : DetectReply)
| Reply400 (error : string)
| Reply500 (e : web_exn).

(** Lines 306-314: from the JSON value under ['image'] to the array. *)
Definition read_image `{TR : Transport} (image_data : json) : web_result rgb_image :=
  let! s := py_str_receiver image_data in
  let! image_data :=
    if String.prefix "data:image" s
    then py_getitem_web (py_split ","%char s) 1
    else inr s in
  decode_image image_data.

(** Lines 320-327. *)
Definition build_reply `{TR : Transport} (data : json) (clock : RequestClock)
  (detections : list Detection) : web_result DetectReply :=
  let! frame := py_get data "frame_id" (JStr (py_str_of_float (t_frame_id clock))) in
  let! capture :=
    py_get data "capture_ts" (JFloat (Float.fl64 (t_capture clock * 1000))) in
  inr {| frame_id := frame;
         capture_ts := capture;
         recv_ts := Float.fl64 (t_recv clock * 1000);
         inference_ts := Float.fl64 (t_inference clock * 1000);
         reply_detections := detections;
         detection_count := Z.of_nat (length detections) |}.

(** [detect_objects].  [body] is the outcome of [request.get_json()]. *)
Definition detect_objects `{RT : Runtime} `{TR : Transport}
  (body : web_result json) (clock : RequestClock)
  (detector : ObjectDetectionServer) : http_reply * ObjectDetectionServer :=
  let before_detection :=
    let! data := body in
    let! present := py_in "image" data in
    if negb present then inr (data, None)
    else
      let! image_data := py_subscript data "image" in
      let! image_np := read_image image_data in
      inr (data, Some image_np) in
  match before_detection with
  | inl e => (Reply500 e, detector)
  | inr (_, None) => (Reply400 "No image provided", detector)
  | inr (data, Some image_np) =>
      let '(detections, detector') :=
        detect (t_start clock) (t_done clock) image_np detector in
      match build_reply data clock detections with
      | inl e => (Reply500 e, detector')
      | inr reply => (Reply200 reply, detector')
      end
  end.

(* ================================================================== *)
(** ** Stand-ins for the transport and the host *)
(* ================================================================== *)

Module ReferenceWeb.

(** A decoder that knows one payload, the red square. *)
Definition transport : Transport :=
  {| decode_image := fun s =>
       if String.eqb s "cmVkc3F1YXJl" then inr red_square_image
       else inl DecodeError;
     py_str_of_float := fun _ => "1700000000.0"%string;
     py_float_of_str := fun _ => inl (Raised ValueError) |}.

(** A host without a model file. *)
Definition bare_host : Host :=
  {| os_path_exists := fun _ => false;
     os_makedirs := fun _ => inr tt;
     default_model_dir := "server/../models";
     default_model_file := "server/../models/yolov5s.onnx";
     ort_get_device := "CPU";
     ort_InferenceSession := fun _ _ => raise RuntimeError |}.

Definition tiny_model : OrtSession :=
  {| ort_session := Reference.no_session;
     ort_inputs := [("images"%string, [1; 3; 8; 8]%Z)];
     ort_providers := ["CPUExecutionProvider"%string] |}.

(** A host whose default model file exists and loads. *)
Definition model_host : Host :=
  {| os_path_exists := fun path => String.eqb path "server/../models/yolov5s.onnx";
     os_makedirs := fun _ => inr tt;
     default_model_dir := "server/../models";
     default_model_file := "server/../models/yolov5s.onnx";
     ort_get_device := "CPU";
     ort_InferenceSession := fun _ _ => ret tiny_model |}.

(** A host on which the models directory cannot be created, although a
    model file exists elsewhere. *)
Definition readonly_host : Host :=
  {| os_path_exists := fun path => String.eqb path "/opt/models/custom.onnx";
     os_makedirs := fun _ => inl PermissionError;
     default_model_dir := "server/../models";
     default_model_file := "server/../models/yolov5s.onnx";
     ort_get_device := "CPU";
     ort_InferenceSession := fun _ _ => ret tiny_model |}.

Definition clock : RequestClock :=
  {| t_start := 100;
     t_done := 401 # 4;
     t_frame_id := 401 # 4;
     t_capture := 401 # 4;
     t_recv := 401 # 4;
     t_inference := 401 # 4 |}.

Definition data_url_header : string := "data:image/png;base64".

Definition red_square_payload : string := "cmVkc3F1YXJl".

End ReferenceWeb.

(** The path the constructor settles on: the argument when it is a
    non-empty string, else what [get_default_model_path] answers, which is
    the default file when that exists, or an exception of [os.makedirs]. *)
Definition chosen_model_path `{HO : Host} (model_path : option string)
  : os_result (option string) :=
  if path_is_true model_path then inr model_path else get_default_model_path.

(** The red-hue mask spelled out: 255 on the pixels of the red bands, 0
    elsewhere. *)
Definition red_band_mask (hsv : rgb_image) : gray_image :=
  map (map (fun p => if is_red p then 255%Z else 0%Z)) hsv.

(** An image of [h] rows and [w] columns that shows [background] except on
    a pure-red rectangle with corner [(x0, y0)], [rw] wide and [rh] high. *)
Definition red_rectangle_on (background : Z -> Z -> pixel)
  (h w x0 y0 rw rh : Z) : rgb_image :=
  map (fun y =>
         map (fun x =>
                if ((x0 <=? x) && (x <? x0 + rw) && (y0 <=? y) && (y <? y0 + rh))%Z
                then (255, 0, 0)%Z else background x y)
             (Reference.Zrange w))
      (Reference.Zrange h).

(** The mask that is 255 on that rectangle and 0 elsewhere. *)
Definition rectangle_mask (h w x0 y0 rw rh : Z) : gray_image :=
  map (fun y =>
         map (fun x =>
                if ((x0 <=? x) && (x <? x0 + rw) && (y0 <=? y) && (y <? y0 + rh))%Z
                then 255%Z else 0%Z)
             (Reference.Zrange w))
      (Reference.Zrange h).

(** The external contour of a filled rectangle under
    [CHAIN_APPROX_SIMPLE]: the centres of its four corner pixels. *)
Definition rectangle_contour (x0 y0 rw rh : Z) : contour :=
  [(x0, y0); (x0, y0 + rh - 1); (x0 + rw - 1, y0 + rh - 1); (x0 + rw - 1, y0)]%Z.

(** The pixel area the specification speaks of: the number of mask pixels
    a contour encloses.  For the contour of a filled rectangle these are
    the non-zero pixels between its extreme points. *)
Definition pixel_area (mask : gray_image) (c : contour) : Z :=
  let '(x, y, cw, ch) := Reference.boundingRect c in
  Z.of_nat
    (length
       (filter (fun '(px, py) =>
                  ((x <=? px) && (px <? x + cw) && (y <=? py) && (py <? y + ch))%Z)
               (Reference.nonzero_points mask))).

(** A 40 x 50 image holding one pure-red 23 x 23 square: 529 red pixels. *)
Definition red_square_23_image : rgb_image :=
  Reference.red_rectangle_image 40 50 5 4 23 23.

(** Bright pixels that are not red: white on the left, blue on the right,
    black between. *)
Definition bright_background (x y : Z) : pixel :=
  if (x <? 3)%Z then (255, 255, 255)%Z
  else if (45 <? x)%Z then (0, 0, 255)%Z
  else (0, 0, 0)%Z.

(** A 40 x 50 image holding one pure-red 30 x 30 square on that
    background. *)
Definition red_square_on_bright_image : rgb_image :=
  red_rectangle_on bright_background 40 50 5 4 30 30.

(** A raw output whose only row carries the object confidence float32(0.1):
    it lies above the double 0.1 and equals the cast of that double to
    single precision. *)
Definition confidence_at_cast_threshold : list ndarray3 :=
  [ [ {| ncols := 5;
         rows := [ [320; 320; 10; 10; 13421773 # 134217728] ] |} ] ].

(** The constructor settles on a path and there is no usable model: no
    path, a path to nothing, a load that raises, or a model that declares
    no input. *)
Definition model_unavailable `{HO : Host} (model_path : option string) : Prop :=
  match chosen_model_path model_path with
  | inl _ => False
  | inr None => True
  | inr (Some path) =>
      path_is_true (Some path) && os_path_exists path = false
      \/ (exists e, ort_InferenceSession path execution_providers = inl e)
      \/ (exists loaded,
            ort_InferenceSession path execution_providers = inr loaded
            /\ ort_inputs loaded = [])
  end.

(** A NumPy array: every row has [ncols] entries. *)
Definition well_shaped (a : ndarray2) : Prop :=
  Forall (fun r => length r = ncols a) (rows a).

(** One row of 85 columns: a box, object confidence 0.875, and class
    scores that are 0.75 for class 16 and 0 for the others. *)
Definition coco_predictions : ndarray2 :=
  {| ncols := 85;
     rows := [ [320; 320; 40; 40; 7 # 8]
               ++ repeat 0 16 ++ [3 # 4] ++ repeat 0 63 ] |}.

Definition coco_row_detection : Detection :=
  Eval vm_compute in
    hd {| label := EmptyString; score := 0; xmin := 0; ymin := 0; xmax := 0; ymax := 0 |}
       (postprocess_detections (RT := Reference.runtime)
          (Reference.server_with Reference.no_session)
          [[coco_predictions]] (640, 640)%Z 1 (0, 0)%Z).

(* ================================================================== *)
(** ** Facts about rounding *)
(* ================================================================== *)

Module FloatFacts.
Import Float.

Lemma round_half_even_err q :
  Qabs (inject_Z (round_half_even q) - q) <= 1 # 2.
Proof.
  unfold round_half_even.
  pose proof (Qfloor_le q) as Hlo. pose proof (Qlt_floor q) as Hhi.
  rewrite inject_Z_plus in Hhi. change (inject_Z 1) with 1 in Hhi.
  apply Qabs_Qle_condition.
  destruct (Qcompare_spec (q - inject_Z (Qfloor q)) (1 # 2)) as [He|Hl|Hg].
  - destruct (Z.even (Qfloor q));
      [|rewrite inject_Z_plus; change (inject_Z 1) with 1]; split; lra.
  - split; lra.
  - rewrite inject_Z_plus. change (inject_Z 1) with 1. split; lra.
Qed.

Lemma pow2_pos e : 0 < 2 ^ e.
Proof. apply Qpower_0_lt. reflexivity. Qed.

Lemma pow2_plus a b : 2 ^ (a + b) == 2 ^ a * 2 ^ b.
Proof. apply Qpower_plus. discriminate. Qed.

Lemma pow2_inject (n : Z) : (0 <= n)%Z -> inject_Z (2 ^ n) == 2 ^ n.
Proof. intros. now rewrite Zpower_Qpower. Qed.

Lemma ilog2_le q : 0 < q -> 2 ^ ilog2 q <= q.
Proof.
  intros Hq. unfold ilog2.
  destruct (Qle_bool _ q) eqn:Hb.
  - now apply Qle_bool_iff.
  - destruct q as [n d]. cbn [Qnum Qden] in *.
    assert (Hn : (0 < n)%Z).
    { unfold Qlt in Hq. cbn in Hq. lia. }
    pose proof (Z.log2_spec n Hn) as [Hn1 _].
    pose proof (Z.log2_spec (Zpos d) eq_refl) as [_ Hd2].
    pose proof (Z.log2_nonneg n) as Hln.
    pose proof (Z.log2_nonneg (Zpos d)) as Hld.
    replace (Z.log2 n - Z.log2 (Z.pos d) - 1)%Z
      with (Z.log2 n + - (Z.succ (Z.log2 (Z.pos d))))%Z by lia.
    rewrite pow2_plus, Qpower_opp.
    rewrite <- !pow2_inject by lia.
    set (a := (2 ^ Z.log2 n)%Z) in *.
    set (b := (2 ^ Z.succ (Z.log2 (Z.pos d)))%Z) in *.
    assert (Hb0 : (0 < b)%Z) by lia.
    assert (Ha0 : (0 < a)%Z) by (subst a; apply Z.pow_pos_nonneg; lia).
    destruct b as [|b|b]; try lia.
    change (/ inject_Z (Z.pos b)) with (1 # b).
    unfold Qle, Qmult, inject_Z. cbn [Qnum Qden].
    rewrite Z.mul_1_r, Pos.mul_1_l.
    nia.
Qed.

Lemma round_pos_err p q :
  0 < q -> Qabs (round_pos p q - q) <= q * 2 ^ (- Z.pos p).
Proof.
  intros Hq. unfold round_pos. rewrite Qred_correct.
  set (e := (ilog2 q - (Z.pos p - 1))%Z).
  pose proof (round_half_even_err (q * 2 ^ (- e))) as Hm.
  set (m := inject_Z (round_half_even (q * 2 ^ (- e)))) in *.
  apply Qabs_Qle_condition in Hm. destruct Hm as [Hm1 Hm2].
  pose proof (ilog2_le q Hq) as HL.
  pose proof (pow2_pos e) as HA. pose proof (pow2_pos (- Z.pos p)) as Hu.
  assert (HAB : 2 ^ (- e) * 2 ^ e == 1).
  { rewrite <- pow2_plus. now replace (- e + e)%Z with 0%Z by lia. }
  assert (HAL : 2 ^ e == 2 * (2 ^ ilog2 q * 2 ^ (- Z.pos p))).
  { unfold e.
    replace (ilog2 q - (Z.pos p - 1))%Z with (1 + (ilog2 q + - Z.pos p))%Z by lia.
    now rewrite !pow2_plus. }
  set (A := 2 ^ e) in *. set (B := 2 ^ (- e)) in *.
  set (L := 2 ^ ilog2 q) in *. set (u := 2 ^ (- Z.pos p)) in *.
  assert (Hd1 : (m - q * B + (1 # 2)) * A >= 0) by (apply Qmult_le_0_compat; lra).
  assert (Hd2 : ((1 # 2) - (m - q * B)) * A >= 0) by (apply Qmult_le_0_compat; lra).
  assert (HLu : (q - L) * u >= 0) by (apply Qmult_le_0_compat; lra).
  assert (Hq' : q * B * A == q) by (rewrite <- Qmult_assoc, HAB; ring).
  apply Qabs_Qle_condition. split; nra.
Qed.

Lemma round_err p q : Qabs (round p q - q) <= Qabs q * 2 ^ (- Z.pos p).
Proof.
  unfold round. destruct q as [[|n|n] d]; cbn [Qnum].
  - assert (H0 : (0 # d) == 0) by reflexivity.
    rewrite H0. cbn. unfold Qle. cbn. lia.
  - rewrite (Qabs_pos (Z.pos n # d)) by (unfold Qle; cbn; lia).
    now apply round_pos_err.
  - change (- (Z.neg n # d)) with (Z.pos n # d).
    change (Z.neg n # d) with (- (Z.pos n # d)).
    rewrite Qabs_opp.
    rewrite (Qabs_pos (Z.pos n # d)) by (unfold Qle; cbn; lia).
    setoid_replace (- round_pos p (Z.pos n # d) - - (Z.pos n # d))
      with (- (round_pos p (Z.pos n # d) - (Z.pos n # d))) by ring.
    rewrite Qabs_opp. now apply round_pos_err.
Qed.

Lemma pow2_le a b : (a <= b)%Z -> 2 ^ a <= 2 ^ b.
Proof. intros. apply Qpower_le_compat_l; [assumption | discriminate]. Qed.

Lemma ilog2_lt q : 0 < q -> q < 2 ^ (ilog2 q + 1).
Proof.
  intros Hq. unfold ilog2.
  destruct (Qle_bool _ q) eqn:Hb.
  - destruct q as [n d]. cbn [Qnum Qden] in *.
    assert (Hn : (0 < n)%Z).
    { unfold Qlt in Hq. cbn in Hq. lia. }
    pose proof (Z.log2_spec n Hn) as [_ Hn2].
    pose proof (Z.log2_spec (Zpos d) eq_refl) as [Hd1 _].
    pose proof (Z.log2_nonneg n) as Hln.
    pose proof (Z.log2_nonneg (Zpos d)) as Hld.
    replace (Z.log2 n - Z.log2 (Z.pos d) + 1)%Z
      with (Z.succ (Z.log2 n) + - Z.log2 (Z.pos d))%Z by lia.
    rewrite pow2_plus, Qpower_opp.
    rewrite <- !pow2_inject by lia.
    set (a := (2 ^ Z.succ (Z.log2 n))%Z) in *.
    set (b := (2 ^ Z.log2 (Z.pos d))%Z) in *.
    assert (Hb0 : (0 < b)%Z) by (subst b; apply Z.pow_pos_nonneg; lia).
    destruct b as [|b|b]; try lia.
    change (/ inject_Z (Z.pos b)) with (1 # b).
    unfold Qlt, Qmult, inject_Z. cbn [Qnum Qden].
    rewrite Z.mul_1_r, Pos.mul_1_l.
    nia.
  - replace (Z.log2 (Qnum q) - Z.log2 (Z.pos (Qden q)) - 1 + 1)%Z
      with (Z.log2 (Qnum q) - Z.log2 (Z.pos (Qden q)))%Z by lia.
    apply Qnot_le_lt. intros H. apply Qle_bool_iff in H. congruence.
Qed.

Lemma ilog2_mono x y : 0 < x -> x <= y -> (ilog2 x <= ilog2 y)%Z.
Proof.
  intros Hx Hxy.
  assert (Hy : 0 < y) by lra.
  pose proof (ilog2_le x Hx). pose proof (ilog2_lt y Hy).
  destruct (Z_le_gt_dec (ilog2 x) (ilog2 y)) as [|Hgt]; [assumption|].
  pose proof (pow2_le (ilog2 y + 1) (ilog2 x) ltac:(lia)). lra.
Qed.

Lemma round_half_even_Z n : round_half_even (inject_Z n) = n.
Proof.
  unfold round_half_even. rewrite Qfloor_Z.
  destruct (Qcompare_spec (inject_Z n - inject_Z n) (1 # 2)) as [H|H|H];
    try reflexivity; exfalso; lra.
Qed.

Lemma round_half_even_mono x y :
  x <= y -> (round_half_even x <= round_half_even y)%Z.
Proof.
  intros Hxy.
  pose proof (Qfloor_resp_le x y Hxy) as Hf.
  pose proof (Qfloor_le x) as Hx1. pose proof (Qlt_floor x) as Hx2.
  pose proof (Qfloor_le y) as Hy1. pose proof (Qlt_floor y) as Hy2.
  rewrite inject_Z_plus in Hx2, Hy2. change (inject_Z 1) with 1 in Hx2, Hy2.
  unfold round_half_even.
  destruct (Z.eq_dec (Qfloor x) (Qfloor y)) as [He|Hne].
  - rewrite <- He in *.
    destruct (Qcompare_spec (x - inject_Z (Qfloor x)) (1 # 2));
      destruct (Qcompare_spec (y - inject_Z (Qfloor x)) (1 # 2));
      destruct (Z.even (Qfloor x)); try lia; exfalso; lra.
  - assert (Hlt : (Qfloor x + 1 <= Qfloor y)%Z) by lia.
    destruct (Qcompare_spec (x - inject_Z (Qfloor x)) (1 # 2));
      destruct (Qcompare_spec (y - inject_Z (Qfloor y)) (1 # 2));
      destruct (Z.even (Qfloor x)); destruct (Z.even (Qfloor y)); lia.
Qed.

Lemma round_pos_bounds p q :
  0 < q -> 2 ^ ilog2 q <= round_pos p q <= 2 ^ (ilog2 q + 1).
Proof.
  intros Hq. unfold round_pos. rewrite Qred_correct.
  set (k := ilog2 q). set (e := (k - (Z.pos p - 1))%Z).
  pose proof (ilog2_le q Hq) as Hlo. pose proof (ilog2_lt q Hq) as Hhi.
  fold k in Hlo, Hhi.
  pose proof (pow2_pos e) as HA. pose proof (pow2_pos (- e)) as HB.
  assert (HAB : 2 ^ (- e) * 2 ^ e == 1).
  { rewrite <- pow2_plus. now replace (- e + e)%Z with 0%Z by lia. }
  (* the scaled binade bounds 2^(p-1) and 2^p are integers *)
  assert (H1 : 2 ^ k * 2 ^ (- e) == inject_Z (2 ^ (Z.pos p - 1))).
  { rewrite pow2_inject by lia. rewrite <- pow2_plus.
    now replace (k + - e)%Z with (Z.pos p - 1)%Z by (unfold e; lia). }
  assert (H2 : 2 ^ (k + 1) * 2 ^ (- e) == inject_Z (2 ^ Z.pos p)).
  { rewrite pow2_inject by lia. rewrite <- pow2_plus.
    now replace (k + 1 + - e)%Z with (Z.pos p) by (unfold e; lia). }
  assert (Hz1 : inject_Z (2 ^ (Z.pos p - 1)) <= q * 2 ^ (- e)).
  { rewrite <- H1. apply Qmult_le_compat_r; lra. }
  assert (Hz2 : q * 2 ^ (- e) <= inject_Z (2 ^ Z.pos p)).
  { rewrite <- H2. apply Qmult_le_compat_r; lra. }
  apply round_half_even_mono in Hz1, Hz2.
  rewrite round_half_even_Z in Hz1, Hz2.
  set (m := round_half_even (q * 2 ^ (- e))) in *.
  assert (Hm1 : inject_Z (2 ^ (Z.pos p - 1)) <= inject_Z m) by now rewrite <- Zle_Qle.
  assert (Hm2 : inject_Z m <= inject_Z (2 ^ Z.pos p)) by now rewrite <- Zle_Qle.
  rewrite <- H1 in Hm1. rewrite <- H2 in Hm2.
  split.
  - setoid_replace (2 ^ k) with (2 ^ k * 2 ^ (- e) * 2 ^ e)
      by (rewrite <- Qmult_assoc, HAB; ring).
    apply Qmult_le_compat_r; lra.
  - setoid_replace (2 ^ (k + 1)) with (2 ^ (k + 1) * 2 ^ (- e) * 2 ^ e)
      by (rewrite <- Qmult_assoc, HAB; ring).
    apply Qmult_le_compat_r; lra.
Qed.

Lemma round_pos_mono p x y :
  0 < x -> x <= y -> round_pos p x <= round_pos p y.
Proof.
  intros Hx Hxy. assert (Hy : 0 < y) by lra.
  pose proof (ilog2_mono x y Hx Hxy) as Hk.
  destruct (Z.eq_dec (ilog2 x) (ilog2 y)) as [He|Hne].
  - unfold round_pos. rewrite !Qred_correct, He.
    set (e := (ilog2 y - (Z.pos p - 1))%Z).
    pose proof (pow2_pos e). pose proof (pow2_pos (- e)).
    apply Qmult_le_compat_r; [|lra].
    rewrite <- Zle_Qle. apply round_half_even_mono.
    apply Qmult_le_compat_r; lra.
  - pose proof (round_pos_bounds p x Hx) as [_ Hbx].
    pose proof (round_pos_bounds p y Hy) as [Hby _].
    pose proof (pow2_le (ilog2 x + 1) (ilog2 y) ltac:(lia)). lra.
Qed.

Lemma round_pos_pos p q : 0 < q -> 0 < round_pos p q.
Proof.
  intros Hq. pose proof (round_pos_bounds p q Hq) as [H _].
  pose proof (pow2_pos (ilog2 q)). lra.
Qed.

Lemma Qnum_pos_iff q : 0 < q <-> (0 < Qnum q)%Z.
Proof. unfold Qlt. cbn. lia. Qed.

Lemma round_mono p x y : x <= y -> round p x <= round p y.
Proof.
  intros Hxy. unfold round.
  destruct x as [[|n|n] d]; destruct y as [[|m|m] c]; cbn [Qnum].
  - lra.
  - pose proof (round_pos_pos p (Z.pos m # c) ltac:(reflexivity)). lra.
  - exfalso. unfold Qle in Hxy. cbn in Hxy. lia.
  - exfalso. unfold Qle in Hxy. cbn in Hxy. lia.
  - apply round_pos_mono; [reflexivity | assumption].
  - exfalso. unfold Qle in Hxy. cbn in Hxy. lia.
  - pose proof (round_pos_pos p (- (Z.neg n # d)) ltac:(reflexivity)). lra.
  - pose proof (round_pos_pos p (- (Z.neg n # d)) ltac:(reflexivity)).
    pose proof (round_pos_pos p (Z.pos m # c) ltac:(reflexivity)). lra.
  - assert (H : round_pos p (- (Z.neg m # c)) <= round_pos p (- (Z.neg n # d))).
    { apply round_pos_mono; [reflexivity | lra]. }
    lra.
Qed.

Lemma round_0 p : round p 0 = 0.
Proof. reflexivity. Qed.

Lemma round_nonneg p x : 0 <= x -> 0 <= round p x.
Proof. intros Hx. rewrite <- (round_0 p). now apply round_mono. Qed.

Lemma round_proper p x y : x == y -> round p x == round p y.
Proof.
  intros Hxy. apply Qle_antisym; apply round_mono; rewrite Hxy; apply Qle_refl.
Qed.

(** Relative error of one binary64 operation. *)
Lemma fl64_bounds x :
  0 <= x -> x * (1 - u64) <= fl64 x /\ fl64 x <= x * (1 + u64).
Proof.
  intros Hx. pose proof (round_err binary64 x) as He.
  rewrite (Qabs_pos x Hx) in He.
  apply Qabs_Qle_condition in He. destruct He as [He1 He2].
  change (2 ^ (- Z.pos binary64)) with u64 in He1, He2.
  fold fl64 in He1, He2. split; lra.
Qed.

Lemma fl64_1 : fl64 1 == 1.
Proof. vm_compute. reflexivity. Qed.

(** The doubles and the single nearest to one tenth, and a product that
    falls short of the integer it approximates. *)
Example fl64_one_tenth : fl64 (1 # 10) = 3602879701896397 # 36028797018963968.
Proof. vm_compute. reflexivity. Qed.

Example fl32_one_tenth : fl32 (1 # 10) = 13421773 # 134217728.
Proof. vm_compute. reflexivity. Qed.

Example fl64_product_below :
  fl64 (77 * fl64 (640 # 77)) = 5629499534213119 # 8796093022208
  /\ fl64 (77 * fl64 (640 # 77)) < 640.
Proof. split; [vm_compute; reflexivity | reflexivity]. Qed.

End FloatFacts.

(* ================================================================== *)
(** ** The letterbox geometry *)
(* ================================================================== *)

Section Letterbox.
Import Float FloatFacts.

Lemma Qltb_lt a b : Qltb a b = true <-> a < b.
Proof.
  unfold Qltb. rewrite negb_true_iff. split.
  - intros Hb. apply Qnot_le_lt. intros Hle.
    apply Qle_bool_iff in Hle. congruence.
  - intros Hlt. destruct (Qle_bool b a) eqn:Hb; [|reflexivity].
    apply Qle_bool_iff in Hb. lra.
Qed.

Lemma Qltb_ge a b : Qltb a b = false <-> b <= a.
Proof.
  unfold Qltb. rewrite negb_false_iff. apply Qle_bool_iff.
Qed.

Lemma py_min_cases a b : (py_min a b = a /\ a <= b) \/ (py_min a b = b /\ b < a).
Proof.
  unfold py_min. destruct (Qltb b a) eqn:Hb.
  - right. split; [reflexivity | now apply Qltb_lt].
  - left. split; [reflexivity | now apply Qltb_ge].
Qed.

Lemma py_int_floor x : 0 <= x -> py_int x = Qfloor x.
Proof.
  destruct x as [n d]. unfold Qle, py_int, Qfloor. cbn. intros Hn.
  apply Z.quot_div_nonneg; lia.
Qed.

Lemma py_int_nonneg x : 0 <= x -> (0 <= py_int x)%Z.
Proof.
  intros Hx. rewrite py_int_floor by assumption.
  rewrite <- (Qfloor_Z 0). now apply Qfloor_resp_le.
Qed.

Lemma py_int_upper x n : 0 <= x -> x < inject_Z n + 1 -> (py_int x <= n)%Z.
Proof.
  intros Hx Hlt. rewrite py_int_floor by assumption.
  pose proof (Qfloor_le x) as Hf.
  assert (H : inject_Z (Qfloor x) < inject_Z (n + 1)).
  { rewrite inject_Z_plus. change (inject_Z 1) with 1. lra. }
  rewrite <- Zlt_Qlt in H. lia.
Qed.

Lemma py_int_lower x n : 0 <= x -> inject_Z n <= x -> (n <= py_int x)%Z.
Proof.
  intros Hx Hle. rewrite py_int_floor by assumption.
  rewrite <- (Qfloor_Z n). now apply Qfloor_resp_le.
Qed.

Lemma Qmult_le_compat_l_nonneg x y z : 0 <= z -> x <= y -> z * x <= z * y.
Proof.
  intros Hz Hxy. rewrite (Qmult_comm z x), (Qmult_comm z y).
  now apply Qmult_le_compat_r.
Qed.

Lemma u64_value : u64 == 1 # 9007199254740992.
Proof. reflexivity. Qed.

Lemma cube_above u : 0 <= u -> u <= 1 # 4 -> (1 + u) * (1 + u) * (1 + u) <= 1 + 4 * u.
Proof. intros. nra. Qed.

Lemma cube_below u : 0 <= u -> u <= 1 -> 1 - 3 * u <= (1 - u) * (1 - u) * (1 - u).
Proof. intros. nra. Qed.

(** One side of the image: [n] pixels, target [t], and a scale [s] that is
    at most the rounded quotient [t / n]. *)
Lemma side_upper (n t : Z) (s : Q) :
  (0 < n)%Z -> (0 < t <= max_dim)%Z ->
  0 <= s -> s <= fl64 (inject_Z t / inject_Z n) ->
  (0 <= py_int (py_mul_int_float n s) <= t)%Z.
Proof.
  intros Hn [Ht0 Ht] Hs0 Hs. unfold py_mul_int_float.
  assert (HnQ : 0 < inject_Z n) by (rewrite (Zlt_Qlt 0 n) in Hn; exact Hn).
  assert (HtQ : 0 < inject_Z t) by (rewrite (Zlt_Qlt 0 t) in Ht0; exact Ht0).
  assert (HtB : inject_Z t <= inject_Z max_dim) by (now rewrite <- Zle_Qle).
  change (inject_Z max_dim) with (1125899906842624 # 1) in HtB.
  assert (Hq0 : 0 <= inject_Z t / inject_Z n).
  { apply Qle_shift_div_l; lra. }
  pose proof (fl64_bounds (inject_Z n) ltac:(lra)) as [_ HA].
  pose proof (fl64_bounds _ Hq0) as [_ Ha].
  pose proof (round_nonneg binary64 (inject_Z n) ltac:(lra)) as HA0.
  fold fl64 in HA0.
  set (A := fl64 (inject_Z n)) in *.
  set (a := fl64 (inject_Z t / inject_Z n)) in *.
  pose proof u64_value as Hu. set (u := u64) in *.
  assert (Hy0 : 0 <= A * s) by (apply Qmult_le_0_compat; lra).
  pose proof (fl64_bounds _ Hy0) as [_ Hy]. fold u in Hy.
  pose proof (round_nonneg binary64 _ Hy0) as Hf0. fold fl64 in Hf0.
  split; [now apply py_int_nonneg|].
  apply py_int_upper; [assumption|].
  assert (Hprod : A * s <= inject_Z t * ((1 + u) * (1 + u))).
  { assert (H1 : A * s <= (inject_Z n * (1 + u)) * (inject_Z t / inject_Z n * (1 + u))).
    { apply Qmult_le_compat_nonneg; split; lra. }
    assert (H2 : (inject_Z n * (1 + u)) * (inject_Z t / inject_Z n * (1 + u))
                 == inject_Z t * ((1 + u) * (1 + u))).
    { field. lra. }
    lra. }
  pose proof (cube_above u ltac:(lra) ltac:(lra)) as Hc.
  assert (H3 : fl64 (A * s) <= inject_Z t * ((1 + u) * (1 + u) * (1 + u))).
  { apply Qle_trans with (A * s * (1 + u)); [assumption|].
    setoid_replace (inject_Z t * ((1 + u) * (1 + u) * (1 + u)))
      with (inject_Z t * ((1 + u) * (1 + u)) * (1 + u)) by ring.
    apply Qmult_le_compat_r; lra. }
  assert (H4 : inject_Z t * ((1 + u) * (1 + u) * (1 + u)) <= inject_Z t * (1 + 4 * u)).
  { apply Qmult_le_compat_l_nonneg; lra. }
  assert (H5 : inject_Z t * u <= 1 # 8).
  { rewrite Hu. lra. }
  lra.
Qed.

Lemma side_lower (n t : Z) :
  (0 < n)%Z -> (0 < t <= max_dim)%Z ->
  (t - 1 <= py_int (py_mul_int_float n (fl64 (inject_Z t / inject_Z n))))%Z.
Proof.
  intros Hn [Ht0 Ht]. unfold py_mul_int_float.
  assert (HnQ : 0 < inject_Z n) by (rewrite (Zlt_Qlt 0 n) in Hn; exact Hn).
  assert (HtQ : 1 <= inject_Z t).
  { change 1 with (inject_Z 1). rewrite <- Zle_Qle. lia. }
  assert (HtB : inject_Z t <= inject_Z max_dim) by (now rewrite <- Zle_Qle).
  change (inject_Z max_dim) with (1125899906842624 # 1) in HtB.
  assert (Hq0 : 0 <= inject_Z t / inject_Z n).
  { apply Qle_shift_div_l; lra. }
  pose proof (fl64_bounds (inject_Z n) ltac:(lra)) as [HA _].
  pose proof (fl64_bounds _ Hq0) as [Ha _].
  pose proof (round_nonneg binary64 (inject_Z n) ltac:(lra)) as HA0.
  pose proof (round_nonneg binary64 _ Hq0) as Ha0.
  fold fl64 in HA0, Ha0.
  set (A := fl64 (inject_Z n)) in *.
  set (a := fl64 (inject_Z t / inject_Z n)) in *.
  pose proof u64_value as Hu. set (u := u64) in *.
  assert (Hy0 : 0 <= A * a) by (apply Qmult_le_0_compat; lra).
  pose proof (fl64_bounds _ Hy0) as [Hy _]. fold u in Hy.
  pose proof (round_nonneg binary64 _ Hy0) as Hf0. fold fl64 in Hf0.
  apply py_int_lower; [assumption|].
  assert (Hprod : inject_Z t * ((1 - u) * (1 - u)) <= A * a).
  { assert (H1 : (inject_Z n * (1 - u)) * (inject_Z t / inject_Z n * (1 - u)) <= A * a).
    { apply Qmult_le_compat_nonneg; split; try lra.
      - apply Qmult_le_0_compat; lra.
      - apply Qmult_le_0_compat; lra. }
    assert (H2 : (inject_Z n * (1 - u)) * (inject_Z t / inject_Z n * (1 - u))
                 == inject_Z t * ((1 - u) * (1 - u))).
    { field. lra. }
    lra. }
  pose proof (cube_below u ltac:(lra) ltac:(lra)) as Hc.
  assert (H3 : inject_Z t * ((1 - u) * (1 - u) * (1 - u)) <= fl64 (A * a)).
  { apply Qle_trans with (A * a * (1 - u)); [|assumption].
    setoid_replace (inject_Z t * ((1 - u) * (1 - u) * (1 - u)))
      with (inject_Z t * ((1 - u) * (1 - u)) * (1 - u)) by ring.
    apply Qmult_le_compat_r; lra. }
  assert (H4 : inject_Z t * (1 - 3 * u) <= inject_Z t * ((1 - u) * (1 - u) * (1 - u))).
  { apply Qmult_le_compat_l_nonneg; lra. }
  assert (H5 : inject_Z t * u <= 1 # 8).
  { rewrite Hu. lra. }
  unfold Z.sub. rewrite inject_Z_plus. change (inject_Z (- (1))) with (- (1)).
  lra.
Qed.

Lemma py_truediv_pos (a b : Z) :
  (0 < b)%Z -> py_truediv a b = inr (fl64 (inject_Z a / inject_Z b)).
Proof.
  intros Hb. unfold py_truediv.
  destruct (Z.eqb_spec b 0) as [->|_]; [lia | reflexivity].
Qed.

Lemma quotient_nonneg (a b : Z) :
  (0 <= a)%Z -> (0 < b)%Z -> 0 <= fl64 (inject_Z a / inject_Z b).
Proof.
  intros Ha Hb. apply round_nonneg.
  rewrite (Zle_Qle 0 a) in Ha. rewrite (Zlt_Qlt 0 b) in Hb.
  change (inject_Z 0) with 0 in Ha, Hb.
  apply Qle_shift_div_l; lra.
Qed.

(** The resized image never exceeds the target, and the side that fixes the
    scale comes within one pixel of it. *)
Lemma resized_dims_bounds (h w target_h target_w : Z) :
  (0 < h)%Z -> (0 < w)%Z ->
  (0 < target_h <= max_dim)%Z -> (0 < target_w <= max_dim)%Z ->
  exists scale new_w new_h,
    resized_dims h w target_h target_w = inr (scale, new_w, new_h)
    /\ scale = py_min (fl64 (inject_Z target_w / inject_Z w))
                      (fl64 (inject_Z target_h / inject_Z h))
    /\ new_w = py_int (py_mul_int_float w scale)
    /\ new_h = py_int (py_mul_int_float h scale)
    /\ (0 <= new_w <= target_w)%Z
    /\ (0 <= new_h <= target_h)%Z
    /\ (target_w - 1 <= new_w \/ target_h - 1 <= new_h)%Z.
Proof.
  intros Hh Hw Hth Htw.
  unfold resized_dims.
  rewrite (py_truediv_pos target_w w Hw), (py_truediv_pos target_h h Hh).
  cbn [bind ret].
  pose proof (quotient_nonneg target_w w ltac:(lia) Hw) as Ha0.
  pose proof (quotient_nonneg target_h h ltac:(lia) Hh) as Hb0.
  set (a := fl64 (inject_Z target_w / inject_Z w)) in *.
  set (b := fl64 (inject_Z target_h / inject_Z h)) in *.
  do 3 eexists. split; [reflexivity|].
  split; [reflexivity|]. split; [reflexivity|]. split; [reflexivity|].
  destruct (py_min_cases a b) as [[-> Hab]|[-> Hba]].
  - split; [|split].
    + apply side_upper; try assumption. apply Qle_refl.
    + apply side_upper; assumption.
    + left. now apply side_lower.
  - split; [|split].
    + apply side_upper; try assumption. apply Qlt_le_weak. exact Hba.
    + apply side_upper; try assumption. apply Qle_refl.
    + right. now apply side_lower.
Qed.

End Letterbox.

(* ================================================================== *)
(** ** The padded canvas *)
(* ================================================================== *)

Section Canvas.

Lemma firstn_repeat {A : Type} (x : A) (k m : nat) :
  firstn k (repeat x (k + m)) = repeat x k.
Proof. induction k as [|k IH]; cbn; [reflexivity | now rewrite IH]. Qed.

Lemma skipn_repeat {A : Type} (x : A) (k m : nat) :
  skipn k (repeat x (k + m)) = repeat x m.
Proof. induction k as [|k IH]; cbn; [reflexivity | exact IH]. Qed.

Lemma map2_repeat {A B C : Type} (f : A -> B -> C) (x : A) (l : list B) (m : nat) :
  map2 f (repeat x (length l + m)) l = map (f x) l.
Proof. induction l as [|b l IH]; cbn; [now destruct m | now rewrite IH]. Qed.

Lemma has_shapeb_true {A : Type} (a : list (list A)) (h w : Z) :
  has_shapeb a h w = true <-> has_shape a h w.
Proof.
  unfold has_shapeb, has_shape.
  rewrite andb_true_iff, Z.eqb_eq, forallb_forall, Forall_forall.
  split; intros [H1 H2]; (split; [exact H1|]);
    intros row Hin; specialize (H2 row Hin); now apply Z.eqb_eq.
Qed.

Lemma shape2_canvas (h w : Z) :
  (0 < h)%Z -> (0 <= w)%Z ->
  shape2 (repeat (repeat gray (Z.to_nat w)) (Z.to_nat h)) = (h, w).
Proof.
  intros Hh Hw. unfold shape2. rewrite repeat_length.
  destruct (Z.to_nat h) eqn:E; [lia|]. cbn [repeat hd].
  rewrite repeat_length. f_equal; lia.
Qed.

Lemma py_slice_inside (lo hi len : Z) :
  (0 <= lo)%Z -> (lo <= hi)%Z -> (hi <= len)%Z ->
  py_slice_indices lo hi len = (lo, hi).
Proof.
  intros H1 H2 H3. unfold py_slice_indices.
  destruct (Z.ltb_spec lo 0); [lia|]. destruct (Z.ltb_spec hi 0); [lia|].
  f_equal; lia.
Qed.

Lemma paste_row_gray (target_w pad_x new_w : Z) (row : list pixel) :
  (0 <= pad_x)%Z -> (0 <= new_w)%Z -> (pad_x + new_w <= target_w)%Z ->
  Z.of_nat (length row) = new_w ->
  paste_row (Z.to_nat pad_x) (repeat gray (Z.to_nat target_w)) row
  = repeat gray (Z.to_nat pad_x) ++ row
    ++ repeat gray (Z.to_nat (target_w - pad_x - new_w)).
Proof.
  intros Hp Hn Hfit Hlen. unfold paste_row.
  replace (Z.to_nat target_w)
    with (Z.to_nat pad_x + (length row + Z.to_nat (target_w - pad_x - new_w)))%nat
    by lia.
  rewrite firstn_repeat. f_equal. f_equal.
  rewrite Nat.add_assoc. apply skipn_repeat.
Qed.

(** Writing a block of the right shape into the gray canvas centres it. *)
Lemma setitem_on_canvas (target_h target_w pad_x pad_y new_w new_h : Z)
  (resized : rgb_image) :
  (0 < target_h)%Z -> (0 < target_w)%Z ->
  (0 <= pad_x)%Z -> (0 <= pad_y)%Z -> (0 <= new_w)%Z -> (0 <= new_h)%Z ->
  (pad_x + new_w <= target_w)%Z -> (pad_y + new_h <= target_h)%Z ->
  has_shape resized new_h new_w ->
  np_setitem_block (repeat (repeat gray (Z.to_nat target_w)) (Z.to_nat target_h))
    (pad_y, pad_y + new_h)%Z (pad_x, pad_x + new_w)%Z resized
  = inr (centered_on_gray target_h target_w pad_x pad_y new_w new_h resized).
Proof.
  intros Hth Htw Hpx Hpy Hnw Hnh Hfx Hfy Hshape.
  unfold np_setitem_block. rewrite shape2_canvas by lia. cbn [fst snd].
  rewrite !py_slice_inside by lia.
  replace (Z.max 0 (pad_y + new_h - pad_y)) with new_h by lia.
  replace (Z.max 0 (pad_x + new_w - pad_x)) with new_w by lia.
  apply has_shapeb_true in Hshape as Hb. rewrite Hb.
  destruct Hshape as [Hlen Hrows].
  unfold ret, centered_on_gray. f_equal.
  set (gray_row := repeat gray (Z.to_nat target_w)).
  replace (Z.to_nat target_h)
    with (Z.to_nat pad_y
          + (length resized + Z.to_nat (target_h - pad_y - new_h)))%nat by lia.
  rewrite firstn_repeat. f_equal.
  rewrite skipn_repeat, map2_repeat. f_equal.
  - apply map_ext_in. intros row Hin.
    rewrite Forall_forall in Hrows.
    apply paste_row_gray; try assumption. now apply Hrows.
  - rewrite Nat.add_assoc. apply skipn_repeat.
Qed.

Lemma centered_on_gray_shape (target_h target_w pad_x pad_y new_w new_h : Z)
  (resized : rgb_image) :
  (0 <= pad_x)%Z -> (0 <= pad_y)%Z -> (0 <= new_w)%Z -> (0 <= new_h)%Z ->
  (pad_x + new_w <= target_w)%Z -> (pad_y + new_h <= target_h)%Z ->
  has_shape resized new_h new_w ->
  has_shape (centered_on_gray target_h target_w pad_x pad_y new_w new_h resized)
    target_h target_w.
Proof.
  intros Hpx Hpy Hnw Hnh Hfx Hfy [Hlen Hrows]. unfold centered_on_gray. split.
  - rewrite !length_app, length_map, !repeat_length. lia.
  - rewrite !Forall_app. repeat split.
    + apply Forall_forall. intros row Hin. apply repeat_spec in Hin. subst row.
      rewrite repeat_length. lia.
    + apply Forall_map. eapply Forall_impl; [|exact Hrows].
      intros row Hrow. cbn beta in Hrow |- *.
      rewrite !length_app, !repeat_length. lia.
    + apply Forall_forall. intros row Hin. apply repeat_spec in Hin. subst row.
      rewrite repeat_length. lia.
Qed.

End Canvas.

(* ================================================================== *)
(** ** Image Preprocessor: claims C5 and C6 *)
(* ================================================================== *)

Section PreprocessorClaims.
Import Float FloatFacts.

(** C5, as stated, fails: the resized size is [int(w * scale)],
    [int(h * scale)], a truncation.  For a 1024 x 683 image and a 640 x 640
    target the scale is 0.625 and the new height is 426, where rounding
    426.875 gives 427. *)
Lemma preprocess_truncates_counterexample :
  resized_dims 683 1024 640 640 = inr (5 # 8, 640%Z, 426%Z)
  /\ py_round (inject_Z 683 * (5 # 8)) = 427%Z
  /\ 426%Z <> py_round (inject_Z 683 * (5 # 8)).
Proof.
  split; [vm_compute; reflexivity|].
  split; [vm_compute; reflexivity|].
  vm_compute. discriminate.
Qed.

(** C5 (amended): for an image of [h > 0] rows and [w > 0] columns and a
    target [(target_h, target_w)], sides up to [max_dim], on which
    [cv2.resize] returns an image of the requested size,
    [preprocess_image] takes [scale = min(target_w / w, target_h / h)],
    resizes to [(int(w * scale), int(h * scale))], centres the result on a
    canvas of exactly [target_h] x [target_w] filled with 114, with
    [pad_x = (target_w - new_w) // 2] and [pad_y = (target_h - new_h) // 2],
    and returns [(tensor, scale, (pad_x, pad_y))]. *)
Theorem preprocess_image_letterbox `{RT : Runtime} (self : ObjectDetectionServer)
  (image resized : rgb_image) (h w target_h target_w : Z)
  (scale : Q) (new_w new_h : Z) :
  shape2 image = (h, w) ->
  input_shape self = (target_h, target_w) ->
  (0 < h <= max_dim)%Z -> (0 < w <= max_dim)%Z ->
  (0 < target_h <= max_dim)%Z -> (0 < target_w <= max_dim)%Z ->
  resized_dims h w target_h target_w = inr (scale, new_w, new_h) ->
  cv2_resize image (new_w, new_h) = inr resized ->
  has_shape resized new_h new_w ->
  let pad_x := ((target_w - new_w) / 2)%Z in
  let pad_y := ((target_h - new_h) / 2)%Z in
  let padded := centered_on_gray target_h target_w pad_x pad_y new_w new_h resized in
  scale = py_min (fl64 (inject_Z target_w / inject_Z w))
                 (fl64 (inject_Z target_h / inject_Z h))
  /\ new_w = py_int (py_mul_int_float w scale)
  /\ new_h = py_int (py_mul_int_float h scale)
  /\ has_shape padded target_h target_w
  /\ preprocess_image self image = inr (to_tensor padded, scale, (pad_x, pad_y)).
Proof.
  intros Hshape Hinput Hh Hw Hth Htw Hdims Hresize Hresized pad_x pad_y padded.
  destruct (resized_dims_bounds h w target_h target_w)
    as (scale' & new_w' & new_h' & Hd & Hs & Hnw & Hnh & Hbw & Hbh & _);
    try lia.
  rewrite Hdims in Hd. injection Hd as <- <- <-.
  assert (Hpx : (0 <= pad_x)%Z) by (subst pad_x; apply Z.div_pos; lia).
  assert (Hpy : (0 <= pad_y)%Z) by (subst pad_y; apply Z.div_pos; lia).
  assert (Hfx : (pad_x + new_w <= target_w)%Z).
  { subst pad_x. pose proof (Z.div_le_upper_bound (target_w - new_w) 2
      (target_w - new_w)). lia. }
  assert (Hfy : (pad_y + new_h <= target_h)%Z).
  { subst pad_y. pose proof (Z.div_le_upper_bound (target_h - new_h) 2
      (target_h - new_h)). lia. }
  split; [exact Hs|]. split; [exact Hnw|]. split; [exact Hnh|].
  split.
  - subst padded. apply centered_on_gray_shape; try assumption; lia.
  - unfold preprocess_image. rewrite Hshape, Hinput, Hdims. cbn [bind].
    rewrite Hresize. cbn [bind]. unfold np_full.
    destruct (Z.ltb_spec target_h 0); [lia|].
    destruct (Z.ltb_spec target_w 0); [lia|].
    cbn [orb ret bind].
    fold pad_x pad_y.
    rewrite (setitem_on_canvas target_h target_w pad_x pad_y new_w new_h resized);
      try assumption; try lia.
    reflexivity.
Qed.

(** C6, as stated, fails twice over.  A square image on a square target
    fills both sides, so it is not exactly one side that reaches its target;
    and a 638 x 10 image on a 640 x 640 target is resized to 639 x 10, so
    that neither side does, because [638 * (640 / 638)] rounds below 640. *)
Lemma letterbox_exactly_one_counterexample :
  resized_dims 640 640 640 640 = inr (1, 640%Z, 640%Z)
  /\ (exists scale, resized_dims 10 638 640 640 = inr (scale, 639%Z, 10%Z)).
Proof.
  split; [vm_compute; reflexivity|].
  eexists. vm_compute. reflexivity.
Qed.

(** C6 (amended): for every image of positive height and width and every
    target shape, sides up to [max_dim], the resized width is at most the
    target width, the resized height is at most the target height, and at
    least one of the two is within one pixel of its target. *)
Theorem letterbox_resized_within_target (h w target_h target_w : Z) :
  (0 < h <= max_dim)%Z -> (0 < w <= max_dim)%Z ->
  (0 < target_h <= max_dim)%Z -> (0 < target_w <= max_dim)%Z ->
  exists scale resized_w resized_h,
    resized_dims h w target_h target_w = inr (scale, resized_w, resized_h)
    /\ (resized_w <= target_w)%Z
    /\ (resized_h <= target_h)%Z
    /\ (target_w - 1 <= resized_w \/ target_h - 1 <= resized_h)%Z.
Proof.
  intros Hh Hw Hth Htw.
  destruct (resized_dims_bounds h w target_h target_w)
    as (scale & new_w & new_h & Hd & _ & _ & _ & Hbw & Hbh & Hone);
    try lia.
  exists scale, new_w, new_h. repeat split; try assumption; lia.
Qed.

Lemma letterbox_resized_within_target_witness :
  exists scale resized_w resized_h,
    resized_dims 480 640 640 640 = inr (scale, resized_w, resized_h)
    /\ (resized_w <= 640)%Z
    /\ (resized_h <= 640)%Z
    /\ (640 - 1 <= resized_w \/ 640 - 1 <= resized_h)%Z.
Proof.
  apply (letterbox_resized_within_target 480 640 640 640);
    unfold max_dim; lia.
Defined.

End PreprocessorClaims.

(* ================================================================== *)
(** ** The decoder as a filter *)
(* ================================================================== *)

Section Decoder.
Context `{RT : Runtime}.

Lemma bindE_lift {S A B : Type} (r : result A) (k : A -> Exec S B) (s : S) :
  bindE (lift r) k s
  = match r with
    | inl e => (inl e, s)
    | inr a => k a s
    end.
Proof. unfold bindE, lift. now destruct r. Qed.

(** A loop whose body cannot raise does not raise. *)
Lemma for_each_returns {S A : Type} (body : A -> Exec S unit) (l : list A) (s : S) :
  (forall a s', fst (body a s') = inr tt) ->
  fst (for_each l body s) = inr tt.
Proof.
  intros Hbody. revert s. induction l as [|a l IH]; intros s; cbn.
  - reflexivity.
  - unfold bindE. specialize (Hbody a s).
    destruct (body a s) as [[e|[]] s']; cbn in Hbody; [discriminate|].
    apply IH.
Qed.

Lemma map2_map {A B C D : Type} (f : B -> C -> D) (g : A -> B) (h : A -> C)
  (l : list A) :
  map2 f (map g l) (map h l) = map (fun a => f (g a) (h a)) l.
Proof. induction l as [|a l IH]; cbn; [reflexivity | now rewrite IH]. Qed.

Lemma combine_map {A B C : Type} (g : A -> B) (h : A -> C) (l : list A) :
  combine (map g l) (map h l) = map (fun a => (g a, h a)) l.
Proof. induction l as [|a l IH]; cbn; [reflexivity | now rewrite IH]. Qed.

Lemma take_rows_filter (keep : list Q -> bool) (l : list (list Q)) :
  map snd (filter fst (combine (map keep l) l)) = filter keep l.
Proof.
  induction l as [|r l IH]; cbn; [reflexivity|].
  destruct (keep r); cbn; now rewrite IH.
Qed.

Lemma existsb_filter_nil {A : Type} (keep : A -> bool) (l : list A) :
  existsb (fun b => b) (map keep l) = false -> filter keep l = [].
Proof.
  induction l as [|a l IH]; cbn; [reflexivity|].
  destruct (keep a); cbn; [discriminate | exact IH].
Qed.

Lemma decoder_loop (self : ObjectDetectionServer) (original_shape : Z * Z)
  (scale : Q) (padding : Z * Z) (l : list (list Q)) (detections : list Detection) :
  for_each (map (fun r => (firstn 4 r, (final_confidence r, argmax (skipn 5 r)))) l)
    (fun '(box, (conf, class_id)) =>
       if Qltb (Float.round np_scalar (confidence_threshold self)) conf then
         modify (fun detections =>
           detections
           ++ [box_to_detection self original_shape scale padding box conf class_id])
       else pure tt) detections
  = (inr tt,
     detections
     ++ map (row_detection self original_shape scale padding)
            (filter (fun r => Qltb (Float.round np_scalar (confidence_threshold self))
                                   (final_confidence r)) l)).
Proof.
  revert detections. induction l as [|r l IH]; intros detections; cbn [map for_each].
  - cbn. now rewrite app_nil_r.
  - unfold bindE at 1. cbn [filter].
    destruct (Qltb (Float.round np_scalar (confidence_threshold self))
                   (final_confidence r)).
    + cbn [modify]. rewrite IH. cbn [map]. now rewrite <- app_assoc.
    + cbn [pure]. apply IH.
Qed.

(** What [postprocess_detections] returns, case by case. *)
Lemma postprocess_detections_eq (self : ObjectDetectionServer)
  (outputs : list ndarray3) (original_shape : Z * Z) (scale : Q) (padding : Z * Z) :
  postprocess_detections self outputs original_shape scale padding
  = match outputs with
    | (predictions :: _) :: _ =>
        if (5 <? ncols predictions)%nat
        then map (row_detection self original_shape scale padding)
                 (survivors (confidence_threshold self) (rows predictions))
        else []
    | _ => []
    end.
Proof.
  unfold postprocess_detections, postprocess_try.
  destruct outputs as [|out0 outs]; [reflexivity|].
  rewrite bindE_lift. cbn [py_getitem nth_error ret].
  destruct out0 as [|predictions batch]; [reflexivity|].
  rewrite bindE_lift. cbn [py_getitem nth_error ret].
  rewrite bindE_lift. unfold np_col at 1.
  destruct (Nat.ltb_spec 4 (ncols predictions)) as [H4|H4].
  2:{ destruct (Nat.ltb_spec 5 (ncols predictions)); [lia | reflexivity]. }
  cbn [ret].
  set (t := Float.round np_dtype (confidence_threshold self)).
  change (map (Qltb t) (map (fun r => nth 4 r 0) (rows predictions)))
    with (map (Qltb t) (map object_confidence (rows predictions))).
  rewrite map_map.
  destruct (existsb (fun b => b)
              (map (fun r => Qltb t (object_confidence r)) (rows predictions)))
    eqn:Hany; cbn [negb].
  2:{ unfold survivors. fold t.
      rewrite (existsb_filter_nil _ _ Hany). cbn [filter map snd].
      now destruct (5 <? ncols predictions)%nat. }
  rewrite bindE_lift. unfold np_col, np_take_rows. cbn [ncols rows].
  destruct (Nat.ltb_spec 4 (ncols predictions)) as [_|]; [|lia].
  cbn [ret]. rewrite bindE_lift.
  unfold np_argmax_axis1, np_max_axis1, np_cols_from. cbn [ncols rows].
  destruct (Nat.eqb_spec (ncols predictions - 5) 0) as [H5|H5].
  { destruct (Nat.ltb_spec 5 (ncols predictions)); [lia | reflexivity]. }
  destruct (Nat.ltb_spec 5 (ncols predictions)) as [_|]; [|lia].
  cbn [ret]. rewrite bindE_lift. cbn [ret].
  unfold np_cols_to. cbn [rows].
  rewrite (take_rows_filter (fun r => Qltb t (object_confidence r))).
  set (valid := filter (fun r => Qltb t (object_confidence r)) (rows predictions)).
  rewrite !map_map.
  rewrite (map2_map (fun c k => Float.round np_dtype (c * k))
             (fun r => nth 4 r 0) (fun r => list_max (skipn 5 r))).
  change (map (fun a => Float.round np_dtype (nth 4 a 0 * list_max (skipn 5 a))) valid)
    with (map final_confidence valid).
  rewrite (combine_map final_confidence (fun r => argmax (skipn 5 r))).
  rewrite (combine_map (firstn 4)
             (fun r => (final_confidence r, argmax (skipn 5 r)))).
  subst valid t. rewrite decoder_loop. reflexivity.
Qed.

End Decoder.

(* ================================================================== *)
(** ** Detection Decoder: claims C1, C2, C3 and C7 *)
(* ================================================================== *)

Section DecoderClaims.

Lemma survivors_antitone `{RT : Runtime} (t1 t2 : Q) (l : list (list Q)) :
  t1 <= t2 -> (length (survivors t2 l) <= length (survivors t1 l))%nat.
Proof.
  intros Ht. unfold survivors.
  (* the casts of the threshold are monotone *)
  pose proof (FloatFacts.round_mono np_dtype t1 t2 Ht) as Hd.
  pose proof (FloatFacts.round_mono np_scalar t1 t2 Ht) as Hs.
  set (d1 := Float.round np_dtype t1) in *.
  set (d2 := Float.round np_dtype t2) in *.
  set (s1 := Float.round np_scalar t1) in *.
  set (s2 := Float.round np_scalar t2) in *.
  induction l as [|r l IH]; cbn [filter]; [lia|].
  destruct (Qltb d2 (object_confidence r)) eqn:Ho2;
    destruct (Qltb d1 (object_confidence r)) eqn:Ho1; cbn [filter].
  - destruct (Qltb s2 (final_confidence r)) eqn:Hf2;
      destruct (Qltb s1 (final_confidence r)) eqn:Hf1; cbn [length]; try lia.
    apply Qltb_lt in Hf2. apply Qltb_ge in Hf1. lra.
  - apply Qltb_lt in Ho2. apply Qltb_ge in Ho1. lra.
  - destruct (Qltb s1 (final_confidence r)); cbn [length]; lia.
  - exact IH.
Qed.

Lemma py_max_lower (a b : Q) : a <= py_max a b.
Proof.
  unfold py_max. destruct (Qltb a b) eqn:Hb.
  - apply Qltb_lt in Hb. now apply Qlt_le_weak.
  - apply Qle_refl.
Qed.

Lemma py_min_upper (a b : Q) : py_min a b <= a.
Proof.
  unfold py_min. destruct (Qltb b a) eqn:Hb.
  - apply Qltb_lt in Hb. now apply Qlt_le_weak.
  - apply Qle_refl.
Qed.

(** What the clamp of lines 178-181 does give: the lower corner is never
    negative and the upper corner never exceeds 1. *)
Lemma decoder_clamps_one_side `{RT : Runtime} (self : ObjectDetectionServer)
  (outputs : list ndarray3) (original_shape : Z * Z) (scale : Q)
  (padding : Z * Z) (d : Detection) :
  In d (postprocess_detections self outputs original_shape scale padding) ->
  0 <= xmin d /\ 0 <= ymin d /\ xmax d <= 1 /\ ymax d <= 1.
Proof.
  rewrite postprocess_detections_eq.
  destruct outputs as [|[|predictions batch] outs]; try (intros []).
  destruct (5 <? ncols predictions)%nat; [|intros []].
  intros Hin. apply in_map_iff in Hin. destruct Hin as (r & <- & _).
  unfold row_detection, box_to_detection.
  destruct padding as [pad_x pad_y]. destruct original_shape as [orig_h orig_w].
  cbn [xmin ymin xmax ymax].
  repeat split; first [apply py_max_lower | apply py_min_upper].
Qed.

(** C1 (the code departs from it): the clamp is one-sided, [max(0, _)] on
    the lower corner and [min(1, _)] on the upper one.  The box in the
    padding comes back with [xmin] = 545/480 > 1. *)
Theorem decoder_xmin_exceeds_one :
  resized_dims 640 480 640 640 = inr (1, 480%Z, 640%Z)
  /\ exists d,
       postprocess_detections (RT := Reference.runtime)
         (Reference.server_with Reference.no_session) box_in_padding (640, 480)%Z 1 (80, 0)%Z = [d]
       /\ xmin d = Float.fl64 (545 # 480)
       /\ 1 < xmin d.
Proof.
  split; [vm_compute; reflexivity|].
  eexists. split; [vm_compute; reflexivity|].
  split; [vm_compute; reflexivity | reflexivity].
Qed.

(** C2 (the code departs from it): on the same input the detection has
    [xmax] = 1 below [xmin] = 545/480. *)
Theorem decoder_xmax_below_xmin :
  exists d,
    postprocess_detections (RT := Reference.runtime)
      (Reference.server_with Reference.no_session)
      box_in_padding (640, 480)%Z 1 (80, 0)%Z = [d]
    /\ xmax d = 1
    /\ xmin d = Float.fl64 (545 # 480)
    /\ xmax d < xmin d.
Proof.
  eexists. split; [vm_compute; reflexivity|].
  split; [reflexivity|].
  split; [vm_compute; reflexivity | reflexivity].
Qed.

(** C3: whenever decoding raises, the decoder returns the empty list, not a
    partial one; being a total function it hands no exception on. *)
Theorem postprocess_exception_returns_empty `{RT : Runtime}
  (self : ObjectDetectionServer) (outputs : list ndarray3)
  (original_shape : Z * Z) (scale : Q) (padding : Z * Z) (e : exn) :
  fst (postprocess_try self outputs original_shape scale padding []) = inl e ->
  postprocess_detections self outputs original_shape scale padding = [].
Proof.
  unfold postprocess_detections, postprocess_try.
  rewrite bindE_lift.
  destruct (py_getitem outputs 0) as [e0|out0]; [reflexivity|].
  rewrite bindE_lift.
  destruct (py_getitem out0 0) as [e1|predictions]; [reflexivity|].
  rewrite bindE_lift.
  destruct (np_col predictions 4) as [e2|confidences]; [reflexivity|].
  destruct (negb _); [reflexivity|].
  rewrite bindE_lift.
  destruct (np_col _ 4) as [e3|confidences']; [reflexivity|].
  rewrite bindE_lift.
  destruct (np_argmax_axis1 _) as [e4|class_ids]; [reflexivity|].
  rewrite bindE_lift.
  destruct (np_max_axis1 _) as [e5|class_confidences]; [reflexivity|].
  intros Hraise. rewrite for_each_returns in Hraise; [discriminate|].
  intros [box [conf class_id]] s.
  now destruct (Qltb (Float.round np_scalar (confidence_threshold self)) conf).
Qed.

Lemma postprocess_exception_returns_empty_witness :
  postprocess_detections (RT := Reference.runtime)
    (Reference.server_with Reference.no_session)
    no_class_scores (640, 640)%Z 1 (0, 0)%Z = [].
Proof.
  apply (postprocess_exception_returns_empty (RT := Reference.runtime)
           (Reference.server_with Reference.no_session)
           no_class_scores (640, 640)%Z 1 (0, 0)%Z ValueError).
  vm_compute. reflexivity.
Defined.

(** C7: for a fixed raw output, transform context and image shape, raising
    the confidence threshold never increases the number of detections.  The
    two comparisons are with the threshold as NumPy casts it, to the array's
    precision at line 144 and to the scalar precision at line 168; both
    casts are monotone. *)
Theorem detection_count_antitone `{RT : Runtime} (self : ObjectDetectionServer)
  (outputs : list ndarray3) (original_shape : Z * Z) (scale : Q)
  (padding : Z * Z) (t1 t2 : Q) :
  t1 <= t2 ->
  (length (postprocess_detections (set_confidence_threshold self t2)
             outputs original_shape scale padding)
   <= length (postprocess_detections (set_confidence_threshold self t1)
                outputs original_shape scale padding))%nat.
Proof.
  intros Ht. rewrite !postprocess_detections_eq.
  destruct outputs as [|[|predictions batch] outs]; try (cbn; lia).
  destruct (5 <? ncols predictions)%nat; [|cbn; lia].
  rewrite !length_map. cbn [set_confidence_threshold confidence_threshold].
  now apply survivors_antitone.
Qed.

Lemma detection_count_antitone_witness :
  (length (postprocess_detections (RT := Reference.runtime)
             (set_confidence_threshold
                (Reference.server_with Reference.no_session) (9 # 10))
             box_in_padding (640, 480)%Z 1 (80, 0)%Z)
   <= length (postprocess_detections (RT := Reference.runtime)
                (set_confidence_threshold
                   (Reference.server_with Reference.no_session) (1 # 2))
                box_in_padding (640, 480)%Z 1 (80, 0)%Z))%nat.
Proof.
  apply (detection_count_antitone (RT := Reference.runtime)
           (Reference.server_with Reference.no_session)
           box_in_padding (640, 480)%Z 1 (80, 0)%Z (1 # 2) (9 # 10)).
  unfold Qle. cbn. lia.
Defined.

End DecoderClaims.

(* ================================================================== *)
(** ** Fallback Heuristic Detector: claims C8 and C10 *)
(* ================================================================== *)

Section FallbackClaims.
Import Float FloatFacts.

Lemma fallback_loop_eq `{RT : Runtime} (h w : Z) (contours : list contour)
  (detections : list Detection) :
  (0 < h)%Z -> (0 < w)%Z ->
  fallback_loop h w contours detections
  = inr (detections
         ++ map (fun c => red_object_at h w (cv2_boundingRect c))
                (filter (fun c => Qltb 500 (cv2_contourArea c)) contours)).
Proof.
  intros Hh Hw. revert detections.
  induction contours as [|c contours IH]; intros detections; cbn [fallback_loop filter].
  - cbn. now rewrite app_nil_r.
  - destruct (Qltb 500 (cv2_contourArea c)).
    + destruct (cv2_boundingRect c) as [[[x y] cw] ch] eqn:Hrect.
      rewrite !py_truediv_pos by assumption. cbn [bind].
      rewrite IH. cbn [map]. rewrite <- app_assoc. cbn [app].
      unfold red_object_at at 2. rewrite Hrect. reflexivity.
    + apply IH.
Qed.

(** A quotient of two ints between 0 and 1 rounds to a float between 0
    and 1. *)
Lemma unit_quotient (a b : Z) :
  (0 <= a <= b)%Z -> (0 < b)%Z ->
  0 <= fl64 (inject_Z a / inject_Z b) /\ fl64 (inject_Z a / inject_Z b) <= 1.
Proof.
  intros [Ha Hab] Hb. split; [now apply quotient_nonneg|].
  rewrite <- fl64_1. apply round_mono.
  rewrite (Zle_Qle a b) in Hab. rewrite (Zlt_Qlt 0 b) in Hb.
  change (inject_Z 0) with 0 in Hb.
  apply Qle_shift_div_r; lra.
Qed.

Lemma red_object_in_unit_square (h w : Z) (rect : Z * Z * Z * Z) :
  (0 < h)%Z -> (0 < w)%Z -> rect_inside h w rect ->
  in_unit_square (red_object_at h w rect).
Proof.
  intros Hh Hw. destruct rect as [[[x y] cw] ch]. cbn [rect_inside].
  intros (Hx & Hy & Hcw & Hch & Hfx & Hfy).
  unfold in_unit_square, red_object_at. cbn [xmin ymin xmax ymax].
  repeat split; apply unit_quotient; lia.
Qed.

(** On the fallback path the corners are ordered. *)
Lemma red_object_corners_ordered (h w : Z) (rect : Z * Z * Z * Z) :
  (0 < h)%Z -> (0 < w)%Z -> rect_inside h w rect ->
  xmin (red_object_at h w rect) <= xmax (red_object_at h w rect)
  /\ ymin (red_object_at h w rect) <= ymax (red_object_at h w rect).
Proof.
  intros Hh Hw. destruct rect as [[[x y] cw] ch]. cbn [rect_inside].
  intros (Hx & Hy & Hcw & Hch & Hfx & Hfy).
  unfold red_object_at. cbn [xmin ymin xmax ymax].
  rewrite (Zlt_Qlt 0 h) in Hh. rewrite (Zlt_Qlt 0 w) in Hw.
  change (inject_Z 0) with 0 in Hh, Hw.
  split; apply round_mono; unfold Qdiv; apply Qmult_le_compat_r;
    try (rewrite <- Zle_Qle; lia);
    apply Qlt_le_weak; now apply Qinv_lt_0_compat.
Qed.

(** Lines 215-217 build the mask of the red bands. *)
Lemma red_mask_red_bands (hsv : rgb_image) : red_mask hsv = red_band_mask hsv.
Proof.
  unfold red_mask, red_band_mask, cv2_bitwise_or, cv2_inRange.
  rewrite (map2_map (map2 Z.lor)). apply map_ext. intros row.
  rewrite (map2_map Z.lor). apply map_ext. intros [[hue sat] val].
  unfold in_range, is_red, lower_red1, upper_red1, lower_red2, upper_red2.
  destruct (0 <=? hue)%Z, (hue <=? 10)%Z, (170 <=? hue)%Z, (hue <=? 180)%Z,
    (50 <=? sat)%Z, (sat <=? 255)%Z, (50 <=? val)%Z, (val <=? 255)%Z;
    reflexivity.
Qed.

(** A conversion that works pixel by pixel, sends pure red to hue 0 with
    full saturation and value, and sends no background pixel into the red
    bands, leaves the red rectangle as the mask. *)
Lemma red_band_mask_of_rectangle (cvt : pixel -> pixel)
  (background : Z -> Z -> pixel) (h w x0 y0 rw rh : Z) :
  cvt (255, 0, 0)%Z = (0, 255, 255)%Z ->
  (forall x y, is_red (cvt (background x y)) = false) ->
  red_band_mask (map (map cvt) (red_rectangle_on background h w x0 y0 rw rh))
  = rectangle_mask h w x0 y0 rw rh.
Proof.
  intros Hred Hbackground.
  unfold red_band_mask, red_rectangle_on, rectangle_mask.
  rewrite !map_map. apply map_ext. intros y.
  rewrite !map_map. apply map_ext. intros x.
  destruct ((x0 <=? x) && (x <? x0 + rw) && (y0 <=? y) && (y <? y0 + rh))%Z.
  - rewrite Hred. reflexivity.
  - rewrite Hbackground. reflexivity.
Qed.

(** Green's formula on the four corners of a 30 x 30 square gives
    29 x 29 = 841, wherever the square lies. *)
Lemma square_contour_area (x0 y0 : Z) :
  Reference.contourArea (rectangle_contour x0 y0 30 30) = fl64 (1682 / 2).
Proof.
  unfold rectangle_contour, Reference.contourArea.
  cbn [Reference.cross_sum fst snd].
  replace (Z.abs _) with 1682%Z by lia.
  reflexivity.
Qed.

Lemma square_contour_rect (x0 y0 : Z) :
  Reference.boundingRect (rectangle_contour x0 y0 30 30) = (x0, y0, 30, 30)%Z.
Proof.
  unfold rectangle_contour, Reference.boundingRect,
    Reference.minimum, Reference.maximum.
  cbn [map fst snd hd fold_right].
  repeat f_equal; lia.
Qed.

(** C8, as stated, fails: the test of line 225 is on [cv2.contourArea], the
    area of the polygon through the contour's points, not on the number of
    pixels.  A pure-red 23 x 23 square is one contour of the red mask that
    encloses 529 pixels, more than 500; its contour area is
    22 x 22 = 484, and the fallback detector returns nothing. *)
Lemma fallback_pixel_area_counterexample :
  exists hsv c,
    cv2_cvtColor_RGB2HSV (Runtime := Reference.runtime) red_square_23_image
    = inr hsv
    /\ cv2_findContours (Runtime := Reference.runtime) (red_mask hsv) = [c]
    /\ pixel_area (red_mask hsv) c = 529%Z
    /\ cv2_contourArea (Runtime := Reference.runtime) c == 484
    /\ fallback_detection (RT := Reference.runtime) Reference.fallback_server
         red_square_23_image
       = inr [].
Proof.
  exists (map (map Reference.hsv_of_rgb) red_square_23_image),
    (rectangle_contour 5 4 23 23).
  split; [vm_compute; reflexivity|].
  split; [vm_compute; reflexivity|].
  split; [vm_compute; reflexivity|].
  split; vm_compute; reflexivity.
Qed.

(** C8 (amended): for an image with positive sides that OpenCV converts to
    [hsv], the fallback detector returns exactly one detection per external
    contour of the red-band mask (hue in [0,10] or [170,180], saturation
    and value in [50,255]) whose [cv2.contourArea] exceeds 500, in order,
    each labelled [red_object] with score 0.8 and the contour's bounding
    rectangle divided by the image width and height, which lies in [0,1]
    when the rectangle lies in the image.  In particular, take any image
    that shows one pure-red 30 x 30 square inside it and nothing else that
    falls into the red bands: when the conversion works pixel by pixel and
    sends pure red to (0, 255, 255), the contour search answers the four
    corners of the square, the contour area is the one of Green's formula
    (841, not 900) and the bounding rectangle is the tight one, the result
    is exactly one detection, the square's, with corners in [0,1]. *)
Theorem fallback_one_detection_per_large_contour `{RT : Runtime}
  (self : ObjectDetectionServer) (image hsv : rgb_image) (h w : Z) :
  shape2 image = (h, w) -> (0 < h)%Z -> (0 < w)%Z ->
  cv2_cvtColor_RGB2HSV image = inr hsv ->
  let contours := cv2_findContours (red_band_mask hsv) in
  let large := filter (fun c => Qltb 500 (cv2_contourArea c)) contours in
  let detections := map (fun c => red_object_at h w (cv2_boundingRect c)) large in
  fallback_detection self image = inr detections
  /\ length detections = length large
  /\ Forall (fun d => label d = "red_object"%string /\ score d = fl64 (8 # 10))
            detections
  /\ (Forall (fun c => rect_inside h w (cv2_boundingRect c)) large ->
      Forall in_unit_square detections)
  /\ (forall (cvt : pixel -> pixel) (background : Z -> Z -> pixel) (x0 y0 : Z),
        image = red_rectangle_on background h w x0 y0 30 30 ->
        (0 <= x0 /\ x0 + 30 <= w)%Z -> (0 <= y0 /\ y0 + 30 <= h)%Z ->
        hsv = map (map cvt) image ->
        cvt (255, 0, 0)%Z = (0, 255, 255)%Z ->
        (forall x y, is_red (cvt (background x y)) = false) ->
        cv2_findContours (rectangle_mask h w x0 y0 30 30)
        = [rectangle_contour x0 y0 30 30] ->
        cv2_contourArea (rectangle_contour x0 y0 30 30)
        = Reference.contourArea (rectangle_contour x0 y0 30 30) ->
        cv2_boundingRect (rectangle_contour x0 y0 30 30)
        = Reference.boundingRect (rectangle_contour x0 y0 30 30) ->
        fallback_detection self image
        = inr [red_object_at h w (x0, y0, 30, 30)%Z]
        /\ in_unit_square (red_object_at h w (x0, y0, 30, 30)%Z)).
Proof.
  intros Hshape Hh Hw Hhsv contours large detections.
  assert (Hrun : fallback_detection self image = inr detections).
  { unfold fallback_detection. rewrite Hhsv. cbn [bind]. rewrite Hshape.
    rewrite red_mask_red_bands. now rewrite fallback_loop_eq by assumption. }
  split; [exact Hrun|]. split; [apply length_map|]. split; [|split].
  - subst detections. apply Forall_map. apply Forall_forall. intros c _.
    unfold red_object_at. now destruct (cv2_boundingRect c) as [[[x y] cw] ch].
  - intros Hin. subst detections. apply Forall_map.
    eapply Forall_impl; [|exact Hin].
    intros c Hc. now apply red_object_in_unit_square.
  - intros cvt background x0 y0 Himage Hx Hy Hcvt Hred Hbackground
      Hfind Harea Hrect.
    split.
    + rewrite Hrun. subst detections large contours.
      rewrite Hcvt, Himage.
      rewrite (red_band_mask_of_rectangle cvt background) by assumption.
      rewrite Hfind. cbn [filter].
      rewrite Harea, square_contour_area.
      replace (Qltb 500 (fl64 (1682 / 2))) with true by (vm_compute; reflexivity).
      cbn [map]. now rewrite Hrect, square_contour_rect.
    + apply red_object_in_unit_square; try assumption.
      cbn [rect_inside]. lia.
Qed.

Lemma fallback_one_detection_per_large_contour_witness :
  fallback_detection (RT := Reference.runtime) Reference.fallback_server
    red_square_on_bright_image
  = inr [red_object_at 40 50 (5, 4, 30, 30)%Z]
  /\ in_unit_square (red_object_at 40 50 (5, 4, 30, 30)%Z).
Proof.
  destruct (fallback_one_detection_per_large_contour (RT := Reference.runtime)
              Reference.fallback_server red_square_on_bright_image
              (map (map Reference.hsv_of_rgb) red_square_on_bright_image) 40 50)
    as (_ & _ & _ & _ & Hone).
  - vm_compute. reflexivity.
  - lia.
  - lia.
  - vm_compute. reflexivity.
  - apply (Hone Reference.hsv_of_rgb bright_background 5 4)%Z.
    + reflexivity.
    + lia.
    + lia.
    + reflexivity.
    + vm_compute. reflexivity.
    + intros x y. unfold bright_background.
      destruct (x <? 3)%Z; [vm_compute; reflexivity|].
      destruct (45 <? x)%Z; vm_compute; reflexivity.
    + vm_compute. reflexivity.
    + reflexivity.
    + reflexivity.
Defined.

(** C10: the fallback detector's result does not depend on the configured
    confidence threshold, called directly or through [detect] on a server
    without a backend. *)
Theorem fallback_ignores_threshold `{RT : Runtime}
  (self : ObjectDetectionServer) (image : rgb_image) (t1 t2 start_time now : Q) :
  session self = None ->
  fallback_detection (set_confidence_threshold self t1) image
  = fallback_detection (set_confidence_threshold self t2) image
  /\ fst (detect start_time now image (set_confidence_threshold self t1))
     = fst (detect start_time now image (set_confidence_threshold self t2)).
Proof.
  intros Hsession. split; [reflexivity|].
  unfold detect, detect_try, bindE, get, lift, dispatch.
  cbn [set_confidence_threshold session]. rewrite Hsession.
  change (fallback_detection (set_confidence_threshold self t1) image)
    with (fallback_detection self image).
  change (fallback_detection (set_confidence_threshold self t2) image)
    with (fallback_detection self image).
  now destruct (fallback_detection self image).
Qed.

Lemma fallback_ignores_threshold_witness :
  fallback_detection (RT := Reference.runtime)
    (set_confidence_threshold Reference.fallback_server (1 # 10)) red_square_image
  = fallback_detection (RT := Reference.runtime)
      (set_confidence_threshold Reference.fallback_server (99 # 100)) red_square_image.
Proof.
  apply (fallback_ignores_threshold (RT := Reference.runtime)
           Reference.fallback_server red_square_image (1 # 10) (99 # 100) 0 1).
  reflexivity.
Defined.

End FallbackClaims.

(* ================================================================== *)
(** ** Detection Session: claims C4 and C9, and the witness of C5 *)
(* ================================================================== *)

Section SessionClaims.
Import Float.

Lemma preprocess_image_letterbox_witness :
  preprocess_image (RT := Reference.runtime)
    (Reference.small_model_server Reference.no_session) tiny_image
  = inr (to_tensor (centered_on_gray 8 8 0 1 8 5 tiny_resized),
         tiny_scale, (0, 1)%Z).
Proof.
  destruct (preprocess_image_letterbox (RT := Reference.runtime)
              (Reference.small_model_server Reference.no_session)
              tiny_image tiny_resized 2 3 8 8 tiny_scale 8 5)
    as (_ & _ & _ & _ & Hrun).
  - reflexivity.
  - reflexivity.
  - unfold max_dim. lia.
  - unfold max_dim. lia.
  - unfold max_dim. lia.
  - unfold max_dim. lia.
  - vm_compute. reflexivity.
  - vm_compute. reflexivity.
  - split; [reflexivity | repeat constructor].
  - exact Hrun.
Defined.

(** C4, as stated, fails: when the dispatched path raises, here a backend
    whose [run] fails, [detect] returns the empty list and leaves both
    counters as they were, although a quarter of a second went by. *)
Lemma detect_failure_uncounted_counterexample :
  let self := Reference.small_model_server Reference.failing_session in
  let after := detect (RT := Reference.runtime) 100 (401 # 4) tiny_image self in
  fst after = []
  /\ inference_count (snd after) = inference_count self
  /\ inference_count (snd after) <> (inference_count self + 1)%Z
  /\ total_inference_time (snd after) = total_inference_time self.
Proof.
  vm_compute. repeat split; discriminate.
Qed.

(** C4 (amended): [detect] never raises.  When the dispatched path returns
    (the decoder's own failures included, which it turns into an empty
    list), [detect] returns its detections, increments [inference_count] by
    exactly 1 and adds the elapsed time to [total_inference_time]; when the
    dispatched path raises, [detect] returns the empty list and leaves both
    counters unchanged. *)
Theorem detect_counts_completed_calls `{RT : Runtime} (start_time now : Q)
  (image : rgb_image) (self : ObjectDetectionServer) :
  let after := detect start_time now image self in
  match dispatch self image with
  | inr detections =>
      fst after = detections
      /\ inference_count (snd after) = (inference_count self + 1)%Z
      /\ total_inference_time (snd after)
         = fl64 (total_inference_time self + fl64 (now - start_time))
  | inl _ =>
      fst after = []
      /\ inference_count (snd after) = inference_count self
      /\ total_inference_time (snd after) = total_inference_time self
  end.
Proof.
  unfold detect, detect_try, bindE, get, lift, modify, pure.
  destruct (dispatch self image) as [e|detections]; cbn; repeat split.
Qed.

(** C9: [detect] changes no field of the server other than
    [inference_count] and [total_inference_time]. *)
Theorem detect_preserves_configuration `{RT : Runtime} (start_time now : Q)
  (image : rgb_image) (self : ObjectDetectionServer) :
  let after := snd (detect start_time now image self) in
  confidence_threshold after = confidence_threshold self
  /\ input_shape after = input_shape self
  /\ model_path after = model_path self
  /\ session after = session self
  /\ class_names after = class_names self
  /\ input_name after = input_name self.
Proof.
  unfold detect, detect_try, bindE, get, lift, modify, pure.
  destruct (dispatch self image) as [e|detections]; cbn; repeat split.
Qed.

End SessionClaims.

(* ================================================================== *)
(** ** More on the decoder *)
(* ================================================================== *)

Section DecoderExtras.

(** X1: every detection the decoder returns has a lower corner that is not
    negative and an upper corner that does not exceed 1. *)
Theorem decoder_corners_clamped_on_one_side `{RT : Runtime}
  (self : ObjectDetectionServer) (outputs : list ndarray3)
  (original_shape : Z * Z) (scale : Q) (padding : Z * Z) (d : Detection) :
  In d (postprocess_detections self outputs original_shape scale padding) ->
  0 <= xmin d /\ 0 <= ymin d /\ xmax d <= 1 /\ ymax d <= 1.
Proof.
  intros Hin.
  exact (decoder_clamps_one_side self outputs original_shape scale padding d Hin).
Qed.

Lemma decoder_corners_clamped_on_one_side_witness :
  0 <= xmin padding_box_detection /\ 0 <= ymin padding_box_detection
  /\ xmax padding_box_detection <= 1 /\ ymax padding_box_detection <= 1.
Proof.
  apply (decoder_corners_clamped_on_one_side (RT := Reference.runtime)
           (Reference.server_with Reference.no_session)
           box_in_padding (640, 480)%Z 1 (80, 0)%Z padding_box_detection).
  vm_compute. left. reflexivity.
Defined.





(** X3: the decoder reads the first batch entry of the first output only,
    and returns at most one detection per row of it, in row order. *)
Theorem decoder_reads_first_batch_entry `{RT : Runtime}
  (self : ObjectDetectionServer) (predictions : ndarray2) (batch : ndarray3)
  (outs : list ndarray3) (original_shape : Z * Z) (scale : Q) (padding : Z * Z) :
  postprocess_detections self ((predictions :: batch) :: outs)
    original_shape scale padding
  = postprocess_detections self [[predictions]] original_shape scale padding
  /\ (length (postprocess_detections self ((predictions :: batch) :: outs)
                original_shape scale padding)
      <= length (rows predictions))%nat
  /\ exists kept,
       postprocess_detections self ((predictions :: batch) :: outs)
         original_shape scale padding
       = map (row_detection self original_shape scale padding)
             (filter kept (rows predictions)).
Proof.
  rewrite !postprocess_detections_eq.
  split; [reflexivity|].
  destruct (5 <? ncols predictions)%nat.
  - split.
    + rewrite length_map. unfold survivors.
      eapply Nat.le_trans; [apply filter_length_le|]. apply filter_length_le.
    + exists (fun r =>
                Qltb (Float.round np_dtype (confidence_threshold self))
                     (object_confidence r)
                && Qltb (Float.round np_scalar (confidence_threshold self))
                        (final_confidence r)).
      unfold survivors. f_equal.
      induction (rows predictions) as [|r l IH]; cbn [filter]; [reflexivity|].
      destruct (Qltb (Float.round np_dtype (confidence_threshold self))
                     (object_confidence r));
        cbn [filter andb]; [|exact IH].
      destruct (Qltb (Float.round np_scalar (confidence_threshold self))
                     (final_confidence r));
        now rewrite IH.
  - split; [cbn; lia|].
    exists (fun _ => false).
    induction (rows predictions) as [|r l IH]; cbn; [reflexivity | exact IH].
Qed.

(** X4: when no row has an object confidence above the threshold as
    line 144 casts it (to the array's precision), decoding returns the
    empty list without raising, even for rows that carry no class scores.
    The comparison is with the cast threshold: a confidence between the
    threshold and its cast is not a candidate. *)
Theorem decoder_without_candidates_returns_quietly `{RT : Runtime}
  (self : ObjectDetectionServer) (predictions : ndarray2) (batch : ndarray3)
  (outs : list ndarray3) (original_shape : Z * Z) (scale : Q) (padding : Z * Z) :
  (4 < ncols predictions)%nat ->
  Forall (fun r => nth 4 r 0 <= Float.round np_dtype (confidence_threshold self))
         (rows predictions) ->
  postprocess_try self ((predictions :: batch) :: outs)
    original_shape scale padding []
  = (inr tt, []).
Proof.
  intros Hcols Hlow. unfold postprocess_try.
  rewrite bindE_lift. cbn [py_getitem nth_error ret].
  rewrite bindE_lift. cbn [py_getitem nth_error ret].
  rewrite bindE_lift. unfold np_col.
  destruct (Nat.ltb_spec 4 (ncols predictions)) as [_|]; [|lia].
  cbn [ret]. rewrite map_map.
  assert (Hnone : existsb (fun b => b)
            (map (fun r => Qltb (Float.round np_dtype (confidence_threshold self))
                                (nth 4 r 0))
                 (rows predictions)) = false).
  { induction Hlow as [|r l Hr _ IH]; cbn; [reflexivity|].
    apply Qltb_ge in Hr. now rewrite Hr. }
  rewrite Hnone. reflexivity.
Qed.

Lemma decoder_without_candidates_returns_quietly_witness :
  Float.fl64 (1 # 10) < 13421773 # 134217728
  /\ postprocess_try (RT := Reference.runtime)
       (set_confidence_threshold (Reference.server_with Reference.no_session)
          (Float.fl64 (1 # 10)))
       confidence_at_cast_threshold (640, 640)%Z 1 (0, 0)%Z []
     = (inr tt, []).
Proof.
  split; [vm_compute; reflexivity|].
  apply (decoder_without_candidates_returns_quietly (RT := Reference.runtime)
           (set_confidence_threshold
              (Reference.server_with Reference.no_session) (Float.fl64 (1 # 10)))
           {| ncols := 5;
              rows := [ [320; 320; 10; 10; 13421773 # 134217728] ] |} [] []
           (640, 640)%Z 1 (0, 0)%Z).
  - cbn. lia.
  - repeat constructor. vm_compute. discriminate.
Defined.

End DecoderExtras.

(* ================================================================== *)
(** ** More on the preprocessor *)
(* ================================================================== *)

Section PreprocessorExtras.
Import Float FloatFacts.

(** What a successful run of [preprocess_image] went through. *)
Lemma preprocess_image_inv `{RT : Runtime} (self : ObjectDetectionServer)
  (image : rgb_image) (h w target_h target_w : Z)
  (input_tensor : tensor) (scale : Q) (pad_x pad_y : Z) :
  shape2 image = (h, w) ->
  input_shape self = (target_h, target_w) ->
  preprocess_image self image = inr (input_tensor, scale, (pad_x, pad_y)) ->
  exists new_w new_h resized canvas padded,
    resized_dims h w target_h target_w = inr (scale, new_w, new_h)
    /\ cv2_resize image (new_w, new_h) = inr resized
    /\ np_full target_h target_w gray = inr canvas
    /\ np_setitem_block canvas (pad_y, pad_y + new_h)%Z (pad_x, pad_x + new_w)%Z
         resized = inr padded
    /\ input_tensor = to_tensor padded
    /\ pad_x = ((target_w - new_w) / 2)%Z
    /\ pad_y = ((target_h - new_h) / 2)%Z.
Proof.
  intros Hshape Hinput. unfold preprocess_image. rewrite Hshape, Hinput.
  destruct (resized_dims h w target_h target_w) as [e|[[s new_w] new_h]];
    cbn [bind]; [discriminate|].
  destruct (cv2_resize image (new_w, new_h)) as [e|resized] eqn:Hresize;
    cbn [bind]; [discriminate|].
  destruct (np_full target_h target_w gray) as [e|canvas] eqn:Hfull;
    cbn [bind]; [discriminate|].
  destruct (np_setitem_block canvas _ _ resized) as [e|padded] eqn:Hset;
    cbn [bind]; [discriminate|].
  unfold ret. intros Heq. injection Heq as <- <- <- <-.
  exists new_w, new_h, resized, canvas, padded.
  split; [reflexivity|]. split; [exact Hresize|]. split; [reflexivity|].
  split; [exact Hset|]. repeat split.
Qed.

(** X5: an image with no rows or no columns makes [preprocess_image] raise
    [ZeroDivisionError], whatever the libraries do, and a server with a
    backend then answers the empty list and changes nothing. *)
Theorem preprocess_rejects_empty_image `{RT : Runtime}
  (self : ObjectDetectionServer) (sess : InferenceSession) (image : rgb_image)
  (h w : Z) (start_time now : Q) :
  shape2 image = (h, w) ->
  (h = 0 \/ w = 0)%Z ->
  session self = Some sess ->
  preprocess_image self image = inl ZeroDivisionError
  /\ detect start_time now image self = ([], self).
Proof.
  intros Hshape Hzero Hsession.
  assert (Hpre : preprocess_image self image = inl ZeroDivisionError).
  { unfold preprocess_image, resized_dims. rewrite Hshape.
    destruct (input_shape self) as [target_h target_w].
    unfold py_truediv.
    destruct (Z.eqb_spec w 0) as [Hw|Hw]; [reflexivity|].
    destruct (Z.eqb_spec h 0) as [Hh|Hh]; [reflexivity | lia]. }
  split; [exact Hpre|].
  unfold detect, detect_try, bindE, get, lift, dispatch.
  now rewrite Hsession, Hpre.
Qed.

Lemma preprocess_rejects_empty_image_witness :
  preprocess_image (RT := Reference.runtime)
    (Reference.small_model_server Reference.no_session) [[]]
  = inl ZeroDivisionError
  /\ detect (RT := Reference.runtime) 0 1 [[]]
       (Reference.small_model_server Reference.no_session)
     = ([], Reference.small_model_server Reference.no_session).
Proof.
  apply (preprocess_rejects_empty_image (RT := Reference.runtime)
           (Reference.small_model_server Reference.no_session)
           Reference.no_session [[]] 1 0 0 1).
  - reflexivity.
  - right. reflexivity.
  - reflexivity.
Defined.

(** X6: the scale [preprocess_image] returns is strictly positive whenever
    the image and the target have positive sides, so the decoder never
    divides by zero with it. *)
Theorem preprocess_scale_positive `{RT : Runtime} (self : ObjectDetectionServer)
  (image : rgb_image) (h w target_h target_w : Z)
  (input_tensor : tensor) (scale : Q) (padding : Z * Z) :
  shape2 image = (h, w) ->
  input_shape self = (target_h, target_w) ->
  (0 < target_h)%Z -> (0 < target_w)%Z ->
  preprocess_image self image = inr (input_tensor, scale, padding) ->
  0 < scale.
Proof.
  intros Hshape Hinput Hth Htw Hrun. destruct padding as [pad_x pad_y].
  destruct (preprocess_image_inv self image h w target_h target_w
              input_tensor scale pad_x pad_y Hshape Hinput Hrun)
    as (new_w & new_h & resized & canvas & padded & Hdims & _).
  unfold resized_dims, py_truediv in Hdims.
  destruct (Z.eqb_spec w 0) as [|Hw]; [discriminate|].
  destruct (Z.eqb_spec h 0) as [|Hh]; [discriminate|].
  cbn [bind ret] in Hdims. injection Hdims as <- _ _.
  assert (Hw0 : (0 < w)%Z).
  { pose proof (f_equal snd Hshape) as E. cbn in E. lia. }
  assert (Hh0 : (0 < h)%Z).
  { pose proof (f_equal fst Hshape) as E. cbn in E. lia. }
  assert (Hpos : forall a b : Z, (0 < a)%Z -> (0 < b)%Z ->
                   0 < fl64 (inject_Z a / inject_Z b)).
  { intros a b Ha Hb. unfold fl64, round.
    rewrite (Zlt_Qlt 0 a) in Ha. rewrite (Zlt_Qlt 0 b) in Hb.
    change (inject_Z 0) with 0 in Ha, Hb.
    assert (Hq : 0 < inject_Z a / inject_Z b).
    { apply Qlt_shift_div_l; lra. }
    pose proof Hq as Hn. apply Qnum_pos_iff in Hn.
    destruct (Qnum (inject_Z a / inject_Z b)) eqn:E; try lia.
    now apply round_pos_pos. }
  destruct (py_min_cases (fl64 (inject_Z target_w / inject_Z w))
                         (fl64 (inject_Z target_h / inject_Z h)))
    as [[-> _]|[-> _]]; now apply Hpos.
Qed.

Lemma preprocess_scale_positive_witness : 0 < tiny_scale.
Proof.
  apply (preprocess_scale_positive (RT := Reference.runtime)
           (Reference.small_model_server Reference.no_session) tiny_image
           2 3 8 8 (to_tensor (centered_on_gray 8 8 0 1 8 5 tiny_resized))
           tiny_scale (0, 1)%Z).
  - reflexivity.
  - reflexivity.
  - lia.
  - lia.
  - vm_compute. reflexivity.
Defined.

(** Rounding keeps a positive number positive, at every precision. *)
Lemma round_positive (p : positive) (x : Q) : 0 < x -> 0 < round p x.
Proof.
  intros Hx. unfold round.
  pose proof Hx as Hn. apply Qnum_pos_iff in Hn.
  destruct (Qnum x) eqn:E; try lia.
  now apply round_pos_pos.
Qed.

(** X27: the three numbers the decoder divides by are never zero on the
    way through [detect].  When [preprocess_image] returns for an image
    and a target with positive sides, the image has positive sides, and
    the scale, the image width and the image height, each cast to the
    precision the decoder computes in, are strictly positive. *)
Theorem decoder_divisors_positive `{RT : Runtime} (self : ObjectDetectionServer)
  (image : rgb_image) (h w target_h target_w : Z)
  (input_tensor : tensor) (scale : Q) (padding : Z * Z) :
  shape2 image = (h, w) ->
  input_shape self = (target_h, target_w) ->
  (0 < target_h)%Z -> (0 < target_w)%Z ->
  preprocess_image self image = inr (input_tensor, scale, padding) ->
  (0 < h)%Z /\ (0 < w)%Z
  /\ 0 < round np_scalar scale
  /\ 0 < round np_scalar (inject_Z w)
  /\ 0 < round np_scalar (inject_Z h).
Proof.
  intros Hshape Hinput Hth Htw Hrun. destruct padding as [pad_x pad_y].
  destruct (preprocess_image_inv self image h w target_h target_w
              input_tensor scale pad_x pad_y Hshape Hinput Hrun)
    as (new_w & new_h & resized & canvas & padded & Hdims & _).
  unfold resized_dims, py_truediv in Hdims.
  destruct (Z.eqb_spec w 0) as [|Hw]; [discriminate|].
  destruct (Z.eqb_spec h 0) as [|Hh]; [discriminate|].
  cbn [bind ret] in Hdims. injection Hdims as <- _ _.
  assert (Hw0 : (0 < w)%Z).
  { pose proof (f_equal snd Hshape) as E. cbn in E. lia. }
  assert (Hh0 : (0 < h)%Z).
  { pose proof (f_equal fst Hshape) as E. cbn in E. lia. }
  assert (Hpos : forall a b : Z, (0 < a)%Z -> (0 < b)%Z ->
                   0 < fl64 (inject_Z a / inject_Z b)).
  { intros a b Ha Hb. apply round_positive.
    rewrite (Zlt_Qlt 0 a) in Ha. rewrite (Zlt_Qlt 0 b) in Hb.
    change (inject_Z 0) with 0 in Ha, Hb.
    apply Qlt_shift_div_l; lra. }
  split; [exact Hh0|]. split; [exact Hw0|]. split; [|split].
  - apply round_positive.
    destruct (py_min_cases (fl64 (inject_Z target_w / inject_Z w))
                           (fl64 (inject_Z target_h / inject_Z h)))
      as [[-> _]|[-> _]]; now apply Hpos.
  - apply round_positive. change 0 with (inject_Z 0). now rewrite <- Zlt_Qlt.
  - apply round_positive. change 0 with (inject_Z 0). now rewrite <- Zlt_Qlt.
Qed.

Lemma decoder_divisors_positive_witness :
  (0 < 2)%Z /\ (0 < 3)%Z
  /\ 0 < round binary64 tiny_scale
  /\ 0 < round binary64 (inject_Z 3)
  /\ 0 < round binary64 (inject_Z 2).
Proof.
  apply (decoder_divisors_positive (RT := Reference.runtime)
           (Reference.small_model_server Reference.no_session) tiny_image
           2 3 8 8 (to_tensor (centered_on_gray 8 8 0 1 8 5 tiny_resized))
           tiny_scale (0, 1)%Z).
  - reflexivity.
  - reflexivity.
  - lia.
  - lia.
  - vm_compute. reflexivity.
Defined.

(** X7: for sides up to [max_dim], the padding [preprocess_image] returns
    is not negative and centres the resized image: the gray margin after it
    equals the margin before it or exceeds it by one pixel, on both axes. *)
Theorem preprocess_padding_centres `{RT : Runtime} (self : ObjectDetectionServer)
  (image : rgb_image) (h w target_h target_w : Z)
  (input_tensor : tensor) (scale : Q) (pad_x pad_y : Z) :
  shape2 image = (h, w) ->
  input_shape self = (target_h, target_w) ->
  (0 < target_h <= max_dim)%Z -> (0 < target_w <= max_dim)%Z ->
  preprocess_image self image = inr (input_tensor, scale, (pad_x, pad_y)) ->
  exists new_w new_h,
    resized_dims h w target_h target_w = inr (scale, new_w, new_h)
    /\ (0 <= pad_x /\ 0 <= pad_y)%Z
    /\ (0 <= target_w - (pad_x + new_w) - pad_x <= 1)%Z
    /\ (0 <= target_h - (pad_y + new_h) - pad_y <= 1)%Z.
Proof.
  intros Hshape Hinput Hth Htw Hrun.
  destruct (preprocess_image_inv self image h w target_h target_w
              input_tensor scale pad_x pad_y Hshape Hinput Hrun)
    as (new_w & new_h & resized & canvas & padded & Hdims & _ & _ & _ & _ & Hpx & Hpy).
  assert (Hw0 : (0 < w)%Z).
  { unfold resized_dims, py_truediv in Hdims.
    destruct (Z.eqb_spec w 0); [discriminate|].
    pose proof (f_equal snd Hshape) as E. cbn in E. lia. }
  assert (Hh0 : (0 < h)%Z).
  { unfold resized_dims, py_truediv in Hdims.
    destruct (Z.eqb_spec w 0); [discriminate|].
    destruct (Z.eqb_spec h 0); [discriminate|].
    pose proof (f_equal fst Hshape) as E. cbn in E. lia. }
  destruct (resized_dims_bounds h w target_h target_w Hh0 Hw0 Hth Htw)
    as (scale' & new_w' & new_h' & Hd & _ & _ & _ & Hbw & Hbh & _).
  rewrite Hdims in Hd. injection Hd as <- <- <-.
  exists new_w, new_h. split; [exact Hdims|].
  pose proof (Z.div_mod (target_w - new_w) 2 ltac:(lia)) as Ex.
  pose proof (Z.mod_pos_bound (target_w - new_w) 2 ltac:(lia)) as Bx.
  pose proof (Z.div_mod (target_h - new_h) 2 ltac:(lia)) as Ey.
  pose proof (Z.mod_pos_bound (target_h - new_h) 2 ltac:(lia)) as By.
  subst pad_x pad_y. lia.
Qed.

Lemma preprocess_padding_centres_witness :
  exists new_w new_h,
    resized_dims 2 3 8 8 = inr (tiny_scale, new_w, new_h)
    /\ (0 <= 0 /\ 0 <= 1)%Z
    /\ (0 <= 8 - (0 + new_w) - 0 <= 1)%Z
    /\ (0 <= 8 - (1 + new_h) - 1 <= 1)%Z.
Proof.
  apply (preprocess_padding_centres (RT := Reference.runtime)
           (Reference.small_model_server Reference.no_session) tiny_image
           2 3 8 8 (to_tensor (centered_on_gray 8 8 0 1 8 5 tiny_resized))
           tiny_scale 0 1).
  - reflexivity.
  - reflexivity.
  - unfold max_dim. lia.
  - unfold max_dim. lia.
  - vm_compute. reflexivity.
Defined.

End PreprocessorExtras.

Section TensorExtras.
Import Float FloatFacts.

Lemma preprocess_image_run `{RT : Runtime} (self : ObjectDetectionServer)
  (image resized : rgb_image) (h w target_h target_w : Z)
  (scale : Q) (new_w new_h : Z) :
  shape2 image = (h, w) ->
  input_shape self = (target_h, target_w) ->
  (0 < h)%Z -> (0 < w)%Z ->
  (0 < target_h <= max_dim)%Z -> (0 < target_w <= max_dim)%Z ->
  resized_dims h w target_h target_w = inr (scale, new_w, new_h) ->
  cv2_resize image (new_w, new_h) = inr resized ->
  has_shape resized new_h new_w ->
  let pad_x := ((target_w - new_w) / 2)%Z in
  let pad_y := ((target_h - new_h) / 2)%Z in
  let padded := centered_on_gray target_h target_w pad_x pad_y new_w new_h resized in
  has_shape padded target_h target_w
  /\ preprocess_image self image = inr (to_tensor padded, scale, (pad_x, pad_y)).
Proof.
  intros Hshape Hinput Hh Hw Hth Htw Hdims Hresize Hresized pad_x pad_y padded.
  destruct (resized_dims_bounds h w target_h target_w Hh Hw Hth Htw)
    as (scale' & new_w' & new_h' & Hd & _ & _ & _ & Hbw & Hbh & _).
  rewrite Hdims in Hd. injection Hd as <- <- <-.
  pose proof (Z.div_mod (target_w - new_w) 2 ltac:(lia)) as Ex.
  pose proof (Z.mod_pos_bound (target_w - new_w) 2 ltac:(lia)) as Bx.
  pose proof (Z.div_mod (target_h - new_h) 2 ltac:(lia)) as Ey.
  pose proof (Z.mod_pos_bound (target_h - new_h) 2 ltac:(lia)) as By.
  fold pad_x in Ex. fold pad_y in Ey.
  split.
  - subst padded. apply centered_on_gray_shape; try assumption; lia.
  - unfold preprocess_image. rewrite Hshape, Hinput, Hdims. cbn [bind].
    rewrite Hresize. cbn [bind]. unfold np_full.
    destruct (Z.ltb_spec target_h 0); [lia|].
    destruct (Z.ltb_spec target_w 0); [lia|].
    cbn [orb ret bind]. fold pad_x pad_y.
    rewrite (setitem_on_canvas target_h target_w pad_x pad_y new_w new_h resized);
      try assumption; try lia.
    reflexivity.
Qed.

Lemma fl32_1 : fl32 1 == 1.
Proof. vm_compute. reflexivity. Qed.

Lemma byte_to_unit (c : Z) :
  (0 <= c <= 255)%Z ->
  0 <= fl32 (inject_Z c / 255) /\ fl32 (inject_Z c / 255) <= 1.
Proof.
  intros [Hlo Hhi].
  rewrite (Zle_Qle 0 c) in Hlo. rewrite (Zle_Qle c 255) in Hhi.
  change (inject_Z 0) with 0 in Hlo. change (inject_Z 255) with 255 in Hhi.
  split.
  - apply round_nonneg. apply Qle_shift_div_l; lra.
  - rewrite <- fl32_1. apply round_mono. apply Qle_shift_div_r; lra.
Qed.

Lemma channel_byte (c : nat) (p : pixel) :
  uint8_pixel p -> (0 <= channel c p <= 255)%Z.
Proof.
  destruct p as [[c0 c1] c2]. cbn. intros (H0 & H1 & H2).
  destruct c as [|[|c]]; assumption.
Qed.

Lemma centered_on_gray_bytes (target_h target_w pad_x pad_y new_w new_h : Z)
  (resized : rgb_image) :
  Forall (Forall uint8_pixel) resized ->
  Forall (Forall uint8_pixel)
    (centered_on_gray target_h target_w pad_x pad_y new_w new_h resized).
Proof.
  intros Hres. unfold centered_on_gray.
  assert (Hgray : uint8_pixel gray) by (cbn; lia).
  assert (Hrow : forall n, Forall uint8_pixel (repeat gray n)).
  { intros n. apply Forall_forall. intros p Hp.
    apply repeat_spec in Hp. now subst p. }
  rewrite !Forall_app. repeat split.
  - apply Forall_forall. intros row Hin. apply repeat_spec in Hin. subst row.
    apply Hrow.
  - apply Forall_map. eapply Forall_impl; [|exact Hres].
    intros row Hr. cbn beta. rewrite !Forall_app. repeat split; auto.
  - apply Forall_forall. intros row Hin. apply repeat_spec in Hin. subst row.
    apply Hrow.
Qed.

Lemma to_tensor_shape (padded : rgb_image) (h w : Z) :
  has_shape padded h w -> tensor_has_shape (to_tensor padded) h w.
Proof.
  intros [Hlen Hrows]. unfold tensor_has_shape, to_tensor.
  split; [reflexivity|]. constructor; [|constructor].
  split; [reflexivity|].
  apply Forall_map. apply Forall_forall. intros c _. split.
  - now rewrite length_map.
  - apply Forall_map. eapply Forall_impl; [|exact Hrows].
    intros row Hr. cbn beta in Hr |- *. now rewrite length_map.
Qed.

Lemma to_tensor_unit (padded : rgb_image) :
  Forall (Forall uint8_pixel) padded ->
  tensor_in_unit_interval (to_tensor padded).
Proof.
  intros Hbytes. unfold tensor_in_unit_interval, to_tensor.
  constructor; [|constructor].
  apply Forall_map. apply Forall_forall. intros c _.
  apply Forall_map. eapply Forall_impl; [|exact Hbytes].
  intros row Hrow. cbn beta. apply Forall_map.
  eapply Forall_impl; [|exact Hrow].
  intros p Hp. cbn beta. apply byte_to_unit. now apply channel_byte.
Qed.

(** X8: when [cv2.resize] returns a byte image of the requested size (sides
    up to [max_dim]), the tensor [preprocess_image] returns has shape
    [1, 3, target_h, target_w] and all its entries lie in [0,1]. *)
Theorem preprocess_tensor_shape_and_range `{RT : Runtime}
  (self : ObjectDetectionServer) (image resized : rgb_image)
  (h w target_h target_w : Z) (scale : Q) (new_w new_h : Z) :
  shape2 image = (h, w) ->
  input_shape self = (target_h, target_w) ->
  (0 < h)%Z -> (0 < w)%Z ->
  (0 < target_h <= max_dim)%Z -> (0 < target_w <= max_dim)%Z ->
  resized_dims h w target_h target_w = inr (scale, new_w, new_h) ->
  cv2_resize image (new_w, new_h) = inr resized ->
  has_shape resized new_h new_w ->
  Forall (Forall uint8_pixel) resized ->
  exists input_tensor padding,
    preprocess_image self image = inr (input_tensor, scale, padding)
    /\ tensor_has_shape input_tensor target_h target_w
    /\ tensor_in_unit_interval input_tensor.
Proof.
  intros Hshape Hinput Hh Hw Hth Htw Hdims Hresize Hresized Hbytes.
  destruct (preprocess_image_run self image resized h w target_h target_w
              scale new_w new_h Hshape Hinput Hh Hw Hth Htw Hdims Hresize Hresized)
    as [Hpadded Hrun].
  eexists. eexists. split; [exact Hrun|]. split.
  - now apply to_tensor_shape.
  - apply to_tensor_unit. now apply centered_on_gray_bytes.
Qed.

Lemma preprocess_tensor_shape_and_range_witness :
  exists input_tensor padding,
    preprocess_image (RT := Reference.runtime)
      (Reference.small_model_server Reference.no_session) tiny_image
    = inr (input_tensor, tiny_scale, padding)
    /\ tensor_has_shape input_tensor 8 8
    /\ tensor_in_unit_interval input_tensor.
Proof.
  apply (preprocess_tensor_shape_and_range (RT := Reference.runtime)
           (Reference.small_model_server Reference.no_session)
           tiny_image tiny_resized 2 3 8 8 tiny_scale 8 5).
  - reflexivity.
  - reflexivity.
  - lia.
  - lia.
  - unfold max_dim. lia.
  - unfold max_dim. lia.
  - vm_compute. reflexivity.
  - vm_compute. reflexivity.
  - split; [reflexivity | repeat constructor].
  - repeat constructor; cbn; lia.
Defined.

End TensorExtras.

(* ================================================================== *)
(** ** More on the fallback detector *)
(* ================================================================== *)

Section FallbackExtras.
Import Float FloatFacts.

(** X9: the mask the fallback detector searches is 255 exactly on the
    pixels whose hue lies in [0,10] or [170,180] and whose saturation and
    value lie in [50,255], and 0 elsewhere. *)
Theorem red_mask_selects_red_bands (hsv : rgb_image) :
  red_mask hsv = map (map (fun p => if is_red p then 255%Z else 0%Z)) hsv.
Proof.
  unfold red_mask, cv2_bitwise_or, cv2_inRange.
  rewrite (map2_map (map2 Z.lor)). apply map_ext. intros row.
  rewrite (map2_map Z.lor). apply map_ext. intros [[hue sat] val].
  unfold in_range, is_red, lower_red1, upper_red1, lower_red2, upper_red2.
  destruct (0 <=? hue)%Z, (hue <=? 10)%Z, (170 <=? hue)%Z, (hue <=? 180)%Z,
    (50 <=? sat)%Z, (sat <=? 255)%Z, (50 <=? val)%Z, (val <=? 255)%Z;
    reflexivity.
Qed.

(** X10: the area test is strict.  When no contour has an area above 500
    (an area of exactly 500 included) the fallback detector returns the
    empty list, and it does so without dividing by the image sides. *)
Theorem fallback_skips_small_contours `{RT : Runtime}
  (self : ObjectDetectionServer) (image hsv : rgb_image) :
  cv2_cvtColor_RGB2HSV image = inr hsv ->
  Forall (fun c => cv2_contourArea c <= 500) (cv2_findContours (red_mask hsv)) ->
  fallback_detection self image = inr [].
Proof.
  intros Hhsv Hsmall. unfold fallback_detection. rewrite Hhsv. cbn [bind].
  destruct (shape2 image) as [h w].
  induction Hsmall as [|c contours Hc _ IH]; cbn [fallback_loop]; [reflexivity|].
  apply Qltb_ge in Hc. rewrite Hc. exact IH.
Qed.

Lemma fallback_skips_small_contours_witness :
  fallback_detection (RT := Reference.runtime) Reference.fallback_server
    small_red_square_image
  = inr [].
Proof.
  apply (fallback_skips_small_contours (RT := Reference.runtime)
           Reference.fallback_server small_red_square_image
           small_red_square_hsv).
  - vm_compute. reflexivity.
  - replace (cv2_findContours (red_mask small_red_square_hsv))
      with [[(5, 4); (5, 23); (24, 23); (24, 4)]%Z]
      by (vm_compute; reflexivity).
    repeat constructor. vm_compute. discriminate.
Defined.

(** X11: for an image with positive sides, when every bounding rectangle
    OpenCV reports lies inside the image, every detection of the fallback
    detector has its corners in [0,1] with [xmin <= xmax] and
    [ymin <= ymax], and there are at most as many detections as contours. *)
Theorem fallback_detections_well_formed `{RT : Runtime}
  (self : ObjectDetectionServer) (image hsv : rgb_image) (h w : Z)
  (detections : list Detection) :
  shape2 image = (h, w) -> (0 < h)%Z -> (0 < w)%Z ->
  cv2_cvtColor_RGB2HSV image = inr hsv ->
  Forall (fun c => rect_inside h w (cv2_boundingRect c))
         (cv2_findContours (red_mask hsv)) ->
  fallback_detection self image = inr detections ->
  Forall well_formed_box detections
  /\ (length detections <= length (cv2_findContours (red_mask hsv)))%nat.
Proof.
  intros Hshape Hh Hw Hhsv Hinside Hrun.
  unfold fallback_detection in Hrun. rewrite Hhsv, Hshape in Hrun.
  cbn [bind] in Hrun. rewrite fallback_loop_eq in Hrun by assumption.
  injection Hrun as <-. cbn [app]. split.
  - apply Forall_map. apply Forall_forall. intros c Hc.
    apply filter_In in Hc. destruct Hc as [Hc _].
    rewrite Forall_forall in Hinside. specialize (Hinside c Hc).
    unfold well_formed_box. split.
    + now apply red_object_in_unit_square.
    + now apply red_object_corners_ordered.
  - rewrite length_map. apply filter_length_le.
Qed.

Lemma fallback_detections_well_formed_witness :
  Forall well_formed_box [red_object_at 40 50 (5, 4, 30, 30)%Z]
  /\ (length [red_object_at 40 50 (5, 4, 30, 30)%Z]
      <= length (cv2_findContours (Runtime := Reference.runtime)
                   (red_mask red_square_hsv)))%nat.
Proof.
  apply (fallback_detections_well_formed (RT := Reference.runtime)
           Reference.fallback_server red_square_image red_square_hsv 40 50).
  - vm_compute. reflexivity.
  - lia.
  - lia.
  - vm_compute. reflexivity.
  - replace (cv2_findContours (red_mask red_square_hsv))
      with [red_square_contour] by (vm_compute; reflexivity).
    repeat constructor; vm_compute; discriminate.
  - vm_compute. reflexivity.
Defined.

End FallbackExtras.

(* ================================================================== *)
(** ** Rounding is idempotent *)
(* ================================================================== *)

Module FloatIdempotent.
Import Float FloatFacts.

Lemma ilog2_unique (y : Q) (k : Z) :
  0 < y -> 2 ^ k <= y -> y < 2 ^ (k + 1) -> ilog2 y = k.
Proof.
  intros Hy Hlo Hhi.
  pose proof (ilog2_le y Hy) as Hl. pose proof (ilog2_lt y Hy) as Hu.
  destruct (Z_lt_le_dec (ilog2 y) k) as [Hlt|Hge].
  - pose proof (pow2_le (ilog2 y + 1) k ltac:(lia)). lra.
  - destruct (Z_lt_le_dec k (ilog2 y)) as [Hlt|Hle]; [|lia].
    pose proof (pow2_le (k + 1) (ilog2 y) ltac:(lia)). lra.
Qed.

Lemma round_half_even_proper (x y : Q) :
  x == y -> round_half_even x = round_half_even y.
Proof.
  intros Hxy. apply Z.le_antisymm; apply round_half_even_mono;
    rewrite Hxy; apply Qle_refl.
Qed.

Lemma round_pos_proper (p : positive) (x y : Q) :
  0 < x -> x == y -> round_pos p x == round_pos p y.
Proof.
  intros Hx Hxy. assert (Hy : 0 < y) by (rewrite <- Hxy; exact Hx).
  apply Qle_antisym; apply round_pos_mono; try assumption;
    rewrite Hxy; apply Qle_refl.
Qed.

(** A positive multiple [m * 2^e] with [2^(p-1) <= m <= 2^p] is its own
    rounding. *)
Lemma round_pos_grid (p : positive) (m e : Z) :
  (2 ^ (Z.pos p - 1) <= m <= 2 ^ Z.pos p)%Z ->
  round_pos p (inject_Z m * 2 ^ e) == inject_Z m * 2 ^ e.
Proof.
  intros [Hlo Hhi].
  pose proof (pow2_pos e) as He.
  assert (Hp1 : (0 < 2 ^ (Z.pos p - 1))%Z) by (apply Z.pow_pos_nonneg; lia).
  assert (Hm : 0 < inject_Z m).
  { change 0 with (inject_Z 0). rewrite <- Zlt_Qlt. lia. }
  assert (Hm' : (0 < m)%Z) by lia.
  set (y := inject_Z m * 2 ^ e).
  assert (Hy : 0 < y) by (unfold y; apply Qmult_lt_0_compat; assumption).
  assert (HloQ : 2 ^ (Z.pos p - 1) <= inject_Z m).
  { rewrite <- pow2_inject by lia. now rewrite <- Zle_Qle. }
  assert (HhiQ : inject_Z m <= 2 ^ Z.pos p).
  { rewrite <- pow2_inject by lia. now rewrite <- Zle_Qle. }
  destruct (Z.eq_dec m (2 ^ Z.pos p)) as [Heq|Hne].
  - (* the top of the binade is the bottom of the next one *)
    assert (Hyv : y == 2 ^ (Z.pos p + e)).
    { unfold y. rewrite Heq, pow2_inject by lia. now rewrite pow2_plus. }
    assert (Hk : ilog2 y = (Z.pos p + e)%Z).
    { apply ilog2_unique; [assumption | rewrite Hyv; apply Qle_refl |].
      rewrite Hyv. rewrite (pow2_plus (Z.pos p + e) 1).
      pose proof (pow2_pos (Z.pos p + e)). change (2 ^ 1) with 2. lra. }
    unfold round_pos. rewrite Qred_correct, Hk.
    replace (Z.pos p + e - (Z.pos p - 1))%Z with (e + 1)%Z by lia.
    assert (Hz : y * 2 ^ (- (e + 1)) == inject_Z (2 ^ (Z.pos p - 1))).
    { rewrite Hyv, <- pow2_plus, pow2_inject by lia.
      now replace (Z.pos p + e + - (e + 1))%Z with (Z.pos p - 1)%Z by lia. }
    rewrite (round_half_even_proper _ _ Hz), round_half_even_Z.
    rewrite pow2_inject by lia. rewrite <- pow2_plus, Hyv.
    now replace (Z.pos p - 1 + (e + 1))%Z with (Z.pos p + e)%Z by lia.
  - assert (Hlt : inject_Z m < 2 ^ Z.pos p).
    { rewrite <- pow2_inject by lia. rewrite <- Zlt_Qlt. lia. }
    assert (Hk : ilog2 y = (Z.pos p - 1 + e)%Z).
    { apply ilog2_unique; [assumption | |].
      - unfold y. rewrite pow2_plus. apply Qmult_le_compat_r; lra.
      - unfold y.
        replace (Z.pos p - 1 + e + 1)%Z with (Z.pos p + e)%Z by lia.
        rewrite pow2_plus. apply Qmult_lt_compat_r; assumption. }
    unfold round_pos. rewrite Qred_correct, Hk.
    replace (Z.pos p - 1 + e - (Z.pos p - 1))%Z with e by lia.
    assert (Hz : y * 2 ^ (- e) == inject_Z m).
    { unfold y. rewrite <- Qmult_assoc, <- pow2_plus.
      replace (e + - e)%Z with 0%Z by lia. change (2 ^ 0) with 1. ring. }
    rewrite (round_half_even_proper _ _ Hz), round_half_even_Z.
    reflexivity.
Qed.

Lemma round_pos_idem (p : positive) (x : Q) :
  0 < x -> round_pos p (round_pos p x) == round_pos p x.
Proof.
  intros Hx.
  pose proof (round_pos_pos p x Hx) as Hy.
  set (e := (ilog2 x - (Z.pos p - 1))%Z).
  set (m := round_half_even (x * 2 ^ (- e))).
  assert (Hform : round_pos p x == inject_Z m * 2 ^ e).
  { unfold round_pos. now rewrite Qred_correct. }
  rewrite (round_pos_proper p _ _ Hy Hform), Hform.
  apply round_pos_grid.
  (* the significand stays within the binade *)
  pose proof (ilog2_le x Hx) as Hlo. pose proof (ilog2_lt x Hx) as Hhi.
  pose proof (pow2_pos (- e)) as HB.
  assert (H1 : 2 ^ ilog2 x * 2 ^ (- e) == inject_Z (2 ^ (Z.pos p - 1))).
  { rewrite pow2_inject by lia. rewrite <- pow2_plus.
    now replace (ilog2 x + - e)%Z with (Z.pos p - 1)%Z by (unfold e; lia). }
  assert (H2 : 2 ^ (ilog2 x + 1) * 2 ^ (- e) == inject_Z (2 ^ Z.pos p)).
  { rewrite pow2_inject by lia. rewrite <- pow2_plus.
    now replace (ilog2 x + 1 + - e)%Z with (Z.pos p) by (unfold e; lia). }
  assert (Hz1 : inject_Z (2 ^ (Z.pos p - 1)) <= x * 2 ^ (- e)).
  { rewrite <- H1. apply Qmult_le_compat_r; lra. }
  assert (Hz2 : x * 2 ^ (- e) <= inject_Z (2 ^ Z.pos p)).
  { rewrite <- H2. apply Qmult_le_compat_r; lra. }
  apply round_half_even_mono in Hz1, Hz2.
  rewrite round_half_even_Z in Hz1, Hz2. fold m in Hz1, Hz2. lia.
Qed.

Lemma round_of_pos (p : positive) (y : Q) : 0 < y -> round p y = round_pos p y.
Proof.
  intros Hy. apply Qnum_pos_iff in Hy. unfold round.
  destruct (Qnum y); try lia. reflexivity.
Qed.

Lemma round_opp (p : positive) (y : Q) : round p (- y) == - round p y.
Proof.
  destruct y as [[|n|n] d]; unfold round; cbn [Qopp Qnum Z.opp].
  - reflexivity.
  - reflexivity.
  - change (- (Z.neg n # d)) with (Z.pos n # d).
    now rewrite Qopp_involutive.
Qed.

Lemma round_idem (p : positive) (x : Q) : round p (round p x) == round p x.
Proof.
  destruct x as [[|n|n] d].
  - reflexivity.
  - rewrite (round_of_pos p (Z.pos n # d)) by reflexivity.
    rewrite round_of_pos by (apply round_pos_pos; reflexivity).
    apply round_pos_idem. reflexivity.
  - change (round p (Z.neg n # d)) with (- round_pos p (Z.pos n # d)).
    rewrite round_opp.
    rewrite round_of_pos by (apply round_pos_pos; reflexivity).
    rewrite (round_pos_idem p (Z.pos n # d)) by reflexivity.
    reflexivity.
Qed.

End FloatIdempotent.

(* ================================================================== *)
(** ** More on [detect] *)
(* ================================================================== *)

Section SessionExtras.
Import Float FloatFacts FloatIdempotent.

(** X12: the statistics only grow.  A call to [detect] leaves
    [inference_count] or adds one to it; if the clock did not run backwards
    and [total_inference_time] was a binary64 number, it is one afterwards
    and has not decreased. *)
Theorem detect_statistics_only_grow `{RT : Runtime} (start_time now : Q)
  (image : rgb_image) (self : ObjectDetectionServer) :
  start_time <= now ->
  fl64 (total_inference_time self) == total_inference_time self ->
  let after := snd (detect start_time now image self) in
  (inference_count self <= inference_count after <= inference_count self + 1)%Z
  /\ total_inference_time self <= total_inference_time after
  /\ fl64 (total_inference_time after) == total_inference_time after.
Proof.
  intros Hclock Hdouble.
  unfold detect, detect_try, bindE, get, lift, modify, pure.
  destruct (dispatch self image) as [e|detections]; cbn.
  - split; [lia|]. split; [apply Qle_refl | exact Hdouble].
  - split; [lia|]. split.
    + rewrite <- Hdouble at 1. apply round_mono.
      pose proof (round_nonneg binary64 (now - start_time) ltac:(lra)) as Hd.
      fold fl64 in Hd. lra.
    + apply round_idem.
Qed.

Lemma detect_statistics_only_grow_witness :
  let self := Reference.fallback_server in
  let after := snd (detect (RT := Reference.runtime) 100 (401 # 4)
                      red_square_image self) in
  (inference_count self <= inference_count after <= inference_count self + 1)%Z
  /\ total_inference_time self <= total_inference_time after
  /\ fl64 (total_inference_time after) == total_inference_time after.
Proof.
  apply (detect_statistics_only_grow (RT := Reference.runtime) 100 (401 # 4)
           red_square_image Reference.fallback_server).
  - unfold Qle. cbn. lia.
  - vm_compute. reflexivity.
Defined.

Lemma decoder_raise_leaves_nothing `{RT : Runtime}
  (self : ObjectDetectionServer) (outputs : list ndarray3)
  (original_shape : Z * Z) (scale : Q) (padding : Z * Z) (e : exn) :
  fst (postprocess_try self outputs original_shape scale padding []) = inl e ->
  postprocess_detections self outputs original_shape scale padding = [].
Proof.
  rewrite postprocess_detections_eq. unfold postprocess_try.
  destruct outputs as [|[|predictions batch] outs]; try reflexivity.
  destruct (Nat.ltb_spec 5 (ncols predictions)) as [H5|H5]; [|reflexivity].
  rewrite bindE_lift. cbn [py_getitem nth_error ret].
  rewrite bindE_lift. cbn [py_getitem nth_error ret].
  rewrite bindE_lift. unfold np_col at 1.
  destruct (Nat.ltb_spec 4 (ncols predictions)) as [_|]; [|lia].
  cbn [ret].
  destruct (negb _) eqn:Hnone; [discriminate|].
  rewrite bindE_lift. unfold np_col, np_take_rows. cbn [ncols rows].
  destruct (Nat.ltb_spec 4 (ncols predictions)) as [_|]; [|lia].
  cbn [ret]. rewrite bindE_lift.
  unfold np_argmax_axis1, np_max_axis1, np_cols_from. cbn [ncols rows].
  destruct (Nat.eqb_spec (ncols predictions - 5) 0) as [|_]; [lia|].
  cbn [ret]. rewrite bindE_lift. cbn [ret].
  intros Hraise. rewrite for_each_returns in Hraise; [discriminate|].
  intros [box [conf class_id]] s.
  now destruct (Qltb (Float.round np_scalar (confidence_threshold self)) conf).
Qed.

(** X13: a failure inside the decoder is invisible to the statistics.  When
    preprocessing and the backend succeed and decoding raises, [detect]
    returns the empty list and still counts the call and its time. *)
Theorem detect_counts_failed_decoding `{RT : Runtime} (start_time now : Q)
  (image : rgb_image) (self : ObjectDetectionServer) (sess : InferenceSession)
  (input_tensor : tensor) (scale : Q) (padding : Z * Z)
  (outputs : list ndarray3) (e : exn) :
  session self = Some sess ->
  preprocess_image self image = inr (input_tensor, scale, padding) ->
  run sess (input_name self) input_tensor = inr outputs ->
  fst (postprocess_try self outputs (shape2 image) scale padding []) = inl e ->
  let after := detect start_time now image self in
  fst after = []
  /\ inference_count (snd after) = (inference_count self + 1)%Z
  /\ total_inference_time (snd after)
     = fl64 (total_inference_time self + fl64 (now - start_time)).
Proof.
  intros Hsession Hpre Hrun Hraise.
  unfold detect, detect_try, bindE, get, lift, modify, pure, dispatch.
  rewrite Hsession, Hpre. cbn [bind]. rewrite Hrun. cbn [bind ret].
  rewrite (decoder_raise_leaves_nothing _ _ _ _ _ e Hraise).
  cbn. repeat split.
Qed.

Lemma detect_counts_failed_decoding_witness :
  let self := Reference.small_model_server
                (Reference.stub_session no_class_scores) in
  let after := detect (RT := Reference.runtime) 100 (401 # 4) tiny_image self in
  fst after = []
  /\ inference_count (snd after) = (inference_count self + 1)%Z
  /\ total_inference_time (snd after)
     = fl64 (total_inference_time self + fl64 ((401 # 4) - 100)).
Proof.
  apply (detect_counts_failed_decoding (RT := Reference.runtime) 100 (401 # 4)
           tiny_image
           (Reference.small_model_server (Reference.stub_session no_class_scores))
           (Reference.stub_session no_class_scores)
           (to_tensor (centered_on_gray 8 8 0 1 8 5 tiny_resized))
           tiny_scale (0, 1)%Z no_class_scores ValueError).
  - reflexivity.
  - vm_compute. reflexivity.
  - reflexivity.
  - vm_compute. reflexivity.
Defined.

Lemma dispatch_ignores_statistics `{RT : Runtime} (start_time now : Q)
  (image image' : rgb_image) (self : ObjectDetectionServer) :
  dispatch (snd (detect start_time now image self)) image' = dispatch self image'.
Proof.
  unfold detect, detect_try, bindE, get, lift, modify, pure.
  destruct (dispatch self image) as [e|detections]; reflexivity.
Qed.

Lemma detect_result_independent_of_history_aux `{RT : Runtime}
  (start1 now1 start2 now2 : Q) (image1 image2 : rgb_image)
  (self : ObjectDetectionServer) :
  fst (detect start2 now2 image2 (snd (detect start1 now1 image1 self)))
  = fst (detect start2 now2 image2 self).
Proof.
  pose proof (dispatch_ignores_statistics start1 now1 image1 image2 self) as Hd.
  set (self' := snd (detect start1 now1 image1 self)) in *.
  unfold detect, detect_try, bindE, get, lift, modify, pure.
  rewrite Hd. now destruct (dispatch self image2).
Qed.

(** X14: what [detect] returns for an image does not depend on the calls
    made before: the server carries no state from one detection into the
    next one's result. *)
Theorem detect_result_independent_of_history `{RT : Runtime}
  (start1 now1 start2 now2 : Q) (image1 image2 : rgb_image)
  (self : ObjectDetectionServer) :
  fst (detect start2 now2 image2 (snd (detect start1 now1 image1 self)))
  = fst (detect start2 now2 image2 self).
Proof.
  apply detect_result_independent_of_history_aux.
Qed.

Lemma completes_after_detect `{RT : Runtime} (start_time now : Q)
  (image : rgb_image) (self : ObjectDetectionServer) (call : Q * Q * rgb_image) :
  completes (snd (detect start_time now image self)) call = completes self call.
Proof. unfold completes. now rewrite dispatch_ignores_statistics. Qed.

(** X15: after any run of calls on one server, [inference_count] has grown
    by the number of calls whose dispatched path returned, and every call
    was answered as a server that had seen no other call would answer it. *)
Theorem detect_all_counts_completed_calls `{RT : Runtime}
  (calls : list (Q * Q * rgb_image)) (self : ObjectDetectionServer) :
  inference_count (snd (detect_all calls self))
  = (inference_count self + Z.of_nat (length (filter (completes self) calls)))%Z
  /\ fst (detect_all calls self)
     = map (fun '(start_time, now, image) => fst (detect start_time now image self))
           calls.
Proof.
  revert self. induction calls as [|[[start_time now] image] rest IH]; intros self.
  - cbn. split; [lia | reflexivity].
  - cbn [detect_all filter map].
    destruct (detect start_time now image self) as [detections self'] eqn:Hcall.
    specialize (IH self').
    destruct (detect_all rest self') as [results self''] eqn:Hrest.
    cbn [fst snd] in IH |- *. destruct IH as [IHcount IHres].
    assert (Hself' : self' = snd (detect start_time now image self))
      by now rewrite Hcall.
    split.
    + rewrite IHcount.
      rewrite (filter_ext (completes self') (completes self)).
      2:{ intros call. rewrite Hself'. apply completes_after_detect. }
      assert (Hc : completes self (start_time, now, image)
                   = match dispatch self image with
                     | inr _ => true
                     | inl _ => false
                     end) by reflexivity.
      rewrite Hc. clear Hc.
      revert Hcall. unfold detect, detect_try, bindE, get, lift, modify, pure.
      destruct (dispatch self image) as [e|ds]; intros Hcall;
        injection Hcall as <- <-;
        cbn [length inference_count add_inference_time count_inference];
        lia.
    + f_equal. rewrite IHres. apply map_ext.
      intros [[s n] img]. rewrite Hself'.
      apply detect_result_independent_of_history_aux.
Qed.

End SessionExtras.

(* ================================================================== *)
(** ** [get_stats] and [handle_config] *)
(* ================================================================== *)

Section StatsAndConfig.
Import Float FloatFacts.

(** X16: [get_stats] never raises: the division by [inference_count] is
    taken only when the count is positive.  It reports the count and
    whether a backend is loaded; the average is 0 while nothing has been
    counted, and it is not negative when the accumulated time is not. *)
Theorem get_stats_never_raises (self : ObjectDetectionServer) :
  exists stats,
    get_stats self = inr stats
    /\ stats_inference_count stats = inference_count self
    /\ stats_model_loaded stats = is_not_None (session self)
    /\ ((inference_count self <= 0)%Z -> stats_average_inference_time_ms stats = 0)
    /\ (0 <= total_inference_time self -> 0 <= stats_average_inference_time_ms stats).
Proof.
  unfold get_stats.
  destruct (Z.ltb_spec 0 (inference_count self)) as [Hpos|Hzero].
  - unfold py_truediv_float_int.
    destruct (Z.eqb_spec (inference_count self) 0) as [E|_]; [lia|].
    cbn [bind ret]. eexists. split; [reflexivity|].
    cbn [stats_inference_count stats_model_loaded stats_average_inference_time_ms].
    split; [reflexivity|]. split; [reflexivity|]. split; [lia|].
    intros Htotal.
    assert (Hcount : 1 <= fl64 (inject_Z (inference_count self))).
    { rewrite <- fl64_1. apply round_mono.
      change 1 with (inject_Z 1). rewrite <- Zle_Qle. lia. }
    apply round_nonneg. apply Qmult_le_0_compat; [|discriminate].
    apply round_nonneg. apply Qle_shift_div_l; lra.
  - cbn [bind ret]. eexists. split; [reflexivity|].
    cbn [stats_inference_count stats_model_loaded stats_average_inference_time_ms].
    split; [reflexivity|]. split; [reflexivity|].
    split; intros _; [reflexivity | vm_compute; discriminate].
Qed.

(** X17: a POST to [/config] whose JSON object carries a number under
    [confidence_threshold] installs [float] of it, with no check that the
    result lies in [0,1]: a JSON float is installed as it is, a JSON int
    is installed rounded to the nearest double, and a following GET
    reports the installed value with the unchanged input shape and model
    path.  An int whose nearest double lies outside the range of the
    doubles makes [float] raise [OverflowError]; the handler passes it on
    and the threshold stays as it was. *)
Theorem config_post_installs_any_threshold `{TR : Transport}
  (fields : list (string * json)) (value : json) (body : web_result json)
  (detector : ObjectDetectionServer) :
  assoc "confidence_threshold" fields = Some value ->
  let installs (t : Q) :=
    handle_config POST (inr (JObject fields)) detector
    = (inr (Message "Configuration updated"), set_confidence_threshold detector t)
    /\ fst (handle_config GET body (set_confidence_threshold detector t))
       = inr (Configuration
                {| view_confidence_threshold := t;
                   view_input_shape := input_shape detector;
                   view_model_path := model_path detector |}) in
  (forall t, value = JFloat t -> installs t)
  /\ (forall n, value = JInt n ->
        Qabs (Float.fl64 (inject_Z n)) < inject_Z (2 ^ 1024) ->
        installs (Float.fl64 (inject_Z n)))
  /\ (forall n, value = JInt n ->
        inject_Z (2 ^ 1024) <= Qabs (Float.fl64 (inject_Z n)) ->
        handle_config POST (inr (JObject fields)) detector
        = (inl OverflowError, detector)).
Proof.
  intros Hfield installs. subst installs. cbv beta.
  unfold handle_config, bindW, py_in, py_subscript.
  rewrite Hfield. cbn [is_not_None].
  split; [|split].
  - intros t ->. split; reflexivity.
  - intros n -> Hrange. unfold py_float.
    apply Qltb_lt in Hrange. unfold float_overflow. rewrite Hrange.
    split; reflexivity.
  - intros n -> Hrange. unfold py_float.
    apply Qltb_ge in Hrange. unfold float_overflow. rewrite Hrange.
    reflexivity.
Qed.

Lemma config_post_installs_any_threshold_witness :
  (handle_config (TR := ReferenceWeb.transport) POST
     (inr (JObject [("confidence_threshold"%string, JInt 9007199254740993)]))
     Reference.fallback_server
   = (inr (Message "Configuration updated"),
      set_confidence_threshold Reference.fallback_server
        (Float.fl64 (inject_Z 9007199254740993)))
   /\ fst (handle_config (TR := ReferenceWeb.transport) GET (inl BadRequest)
             (set_confidence_threshold Reference.fallback_server
                (Float.fl64 (inject_Z 9007199254740993))))
      = inr (Configuration
               {| view_confidence_threshold :=
                    Float.fl64 (inject_Z 9007199254740993);
                  view_input_shape := input_shape Reference.fallback_server;
                  view_model_path := model_path Reference.fallback_server |}))
  /\ Float.fl64 (inject_Z 9007199254740993) == 9007199254740992.
Proof.
  split; [|vm_compute; reflexivity].
  destruct (config_post_installs_any_threshold (TR := ReferenceWeb.transport)
              [("confidence_threshold"%string, JInt 9007199254740993)]
              (JInt 9007199254740993) (inl BadRequest)
              Reference.fallback_server)
    as (_ & Hint & _).
  - reflexivity.
  - apply (Hint 9007199254740993%Z).
    + reflexivity.
    + vm_compute. reflexivity.
Defined.

(** X18: [handle_config] can change the confidence threshold and nothing
    else.  A GET, a POST without the key, and a POST that raises (a body
    that is not an object, a value [float] rejects) leave the detector
    exactly as it was. *)
Theorem config_changes_threshold_only `{TR : Transport} (method : http_method)
  (body : web_result json) (detector : ObjectDetectionServer) :
  let outcome := handle_config method body detector in
  (model_path (snd outcome) = model_path detector
   /\ session (snd outcome) = session detector
   /\ input_name (snd outcome) = input_name detector
   /\ input_shape (snd outcome) = input_shape detector
   /\ class_names (snd outcome) = class_names detector
   /\ inference_count (snd outcome) = inference_count detector
   /\ total_inference_time (snd outcome) = total_inference_time detector)
  /\ (method = GET -> snd outcome = detector)
  /\ (forall e, fst outcome = inl e -> snd outcome = detector)
  /\ (forall fields, body = inr (JObject fields) ->
      assoc "confidence_threshold" fields = None -> snd outcome = detector).
Proof.
  unfold handle_config. destruct method.
  - cbn. repeat split.
  - set (update := bindW body _).
    split; [|split; [discriminate | split]].
    + destruct update as [e|[threshold|]]; cbn; repeat split.
    + intros e. destruct update as [e'|[threshold|]]; cbn;
        [reflexivity | discriminate | reflexivity].
    + intros fields -> Hmissing. subst update.
      unfold bindW, py_in. rewrite Hmissing. reflexivity.
Qed.

End StatsAndConfig.

(* ================================================================== *)
(** ** [detect_objects] *)
(* ================================================================== *)

Section EndpointExtras.

(** X19: a request whose JSON object has no [image] key is answered 400
    with the error [No image provided]; the detector is not touched and no
    inference is counted. *)
Theorem endpoint_rejects_missing_image `{RT : Runtime} `{TR : Transport}
  (fields : list (string * json)) (clock : RequestClock)
  (detector : ObjectDetectionServer) :
  assoc "image" fields = None ->
  detect_objects (inr (JObject fields)) clock detector
  = (Reply400 "No image provided", detector).
Proof.
  intros Hmissing. unfold detect_objects, bindW, py_in.
  rewrite Hmissing. reflexivity.
Qed.

Lemma endpoint_rejects_missing_image_witness :
  detect_objects (RT := Reference.runtime) (TR := ReferenceWeb.transport)
    (inr (JObject [("frame_id"%string, JStr "f1")])) ReferenceWeb.clock
    Reference.fallback_server
  = (Reply400 "No image provided", Reference.fallback_server).
Proof.
  apply (endpoint_rejects_missing_image (RT := Reference.runtime)
           (TR := ReferenceWeb.transport)
           [("frame_id"%string, JStr "f1")] ReferenceWeb.clock
           Reference.fallback_server).
  reflexivity.
Defined.

(** X20: the endpoint changes the detector only by running [detect] on the
    image of the request.  A reply with status 200 comes from a body that
    is a JSON object with a value under [image] that decodes to an array;
    the reply carries exactly what [detect] returned for that array, with
    [detection_count] the length of the list, and the detector is the one
    [detect] left.  A reply with status 400 or 500 leaves the detector as
    it was. *)
Theorem endpoint_touches_detector_only_through_detect `{RT : Runtime}
  `{TR : Transport} (body : web_result json) (clock : RequestClock)
  (detector : ObjectDetectionServer) :
  match detect_objects body clock detector with
  | (Reply200 reply, detector') =>
      exists fields image_data image_np,
        body = inr (JObject fields)
        /\ assoc "image" fields = Some image_data
        /\ read_image image_data = inr image_np
        /\ detector' = snd (detect (t_start clock) (t_done clock) image_np detector)
        /\ reply_detections reply
           = fst (detect (t_start clock) (t_done clock) image_np detector)
        /\ detection_count reply = Z.of_nat (length (reply_detections reply))
  | (_, detector') => detector' = detector
  end.
Proof.
  unfold detect_objects.
  destruct body as [e|data]; cbn [bindW]; [reflexivity|].
  destruct (py_in "image" data) as [e|present]; cbn [bindW]; [reflexivity|].
  destruct present; cbn [negb]; [|reflexivity].
  destruct (py_subscript data "image") as [e|image_data] eqn:Hsub;
    cbn [bindW]; [reflexivity|].
  destruct (read_image image_data) as [e|image_np] eqn:Hread;
    cbn [bindW]; [reflexivity|].
  destruct (detect (t_start clock) (t_done clock) image_np detector)
    as [detections detector'] eqn:Hdetect.
  (* the subscript succeeded, so the body is an object and [get] works *)
  destruct data as [| | | | |items|fields]; try discriminate.
  assert (Himage : assoc "image" fields = Some image_data).
  { unfold py_subscript in Hsub.
    destruct (assoc "image" fields); [now injection Hsub as -> | discriminate]. }
  unfold build_reply, py_get, bindW.
  destruct (assoc "frame_id" fields); destruct (assoc "capture_ts" fields);
    exists fields, image_data, image_np; rewrite Hdetect; cbn; repeat split;
    assumption.
Qed.

(** X21: once the image under [image] decodes, the endpoint answers 200,
    whatever happens during detection: the reply carries the detections of
    [detect], their number, the request's [frame_id] and [capture_ts] or
    their defaults, and the detector is the one [detect] left. *)
Theorem endpoint_answers_200_once_decoded `{RT : Runtime} `{TR : Transport}
  (fields : list (string * json)) (image_data : json) (image_np : rgb_image)
  (clock : RequestClock) (detector : ObjectDetectionServer) :
  assoc "image" fields = Some image_data ->
  read_image image_data = inr image_np ->
  let run := detect (t_start clock) (t_done clock) image_np detector in
  detect_objects (inr (JObject fields)) clock detector
  = (Reply200
       {| frame_id :=
            match assoc "frame_id" fields with
            | Some given => given
            | None => JStr (py_str_of_float (t_frame_id clock))
            end;
          capture_ts :=
            match assoc "capture_ts" fields with
            | Some given => given
            | None => JFloat (Float.fl64 (t_capture clock * 1000))
            end;
          recv_ts := Float.fl64 (t_recv clock * 1000);
          inference_ts := Float.fl64 (t_inference clock * 1000);
          reply_detections := fst run;
          detection_count := Z.of_nat (length (fst run)) |},
     snd run).
Proof.
  intros Himage Hread run. unfold detect_objects, bindW, py_in, py_subscript.
  rewrite Himage. cbn [is_not_None negb]. rewrite Hread.
  subst run.
  destruct (detect (t_start clock) (t_done clock) image_np detector)
    as [detections detector'].
  unfold build_reply, py_get, bindW. cbn [fst snd].
  destruct (assoc "frame_id" fields); destruct (assoc "capture_ts" fields);
    reflexivity.
Qed.

Lemma endpoint_answers_200_once_decoded_witness :
  exists reply detector',
    detect_objects (RT := Reference.runtime) (TR := ReferenceWeb.transport)
      (inr (JObject [("image"%string, JStr ReferenceWeb.red_square_payload)]))
      ReferenceWeb.clock Reference.fallback_server
    = (Reply200 reply, detector')
    /\ detection_count reply = 1%Z
    /\ inference_count detector' = 1%Z.
Proof.
  eexists. eexists. split.
  - apply (endpoint_answers_200_once_decoded (RT := Reference.runtime)
             (TR := ReferenceWeb.transport)
             [("image"%string, JStr ReferenceWeb.red_square_payload)]
             (JStr ReferenceWeb.red_square_payload) red_square_image
             ReferenceWeb.clock Reference.fallback_server).
    + reflexivity.
    + reflexivity.
  - split; vm_compute; reflexivity.
Defined.

Lemma py_split_no_separator (sep : ascii) (s : string) :
  ~ In sep (list_ascii_of_string s) -> py_split sep s = [s].
Proof.
  induction s as [|c s IH]; cbn [py_split list_ascii_of_string]; [reflexivity|].
  intros Hnot. destruct (Ascii.eqb_spec c sep) as [->|_].
  - exfalso. apply Hnot. now left.
  - rewrite IH; [reflexivity|]. intros Hin. apply Hnot. now right.
Qed.

Lemma py_split_at_separator (sep : ascii) (h rest : string) :
  ~ In sep (list_ascii_of_string h) ->
  py_split sep (String.append h (String sep rest)) = h :: py_split sep rest.
Proof.
  induction h as [|c h IH]; cbn [String.append py_split list_ascii_of_string].
  - intros _. now rewrite Ascii.eqb_refl.
  - intros Hnot. destruct (Ascii.eqb_spec c sep) as [->|_].
    + exfalso. apply Hnot. now left.
    + rewrite IH; [reflexivity|]. intros Hin. apply Hnot. now right.
Qed.

Lemma prefix_append (p h rest : string) :
  String.prefix p h = true -> String.prefix p (String.append h rest) = true.
Proof.
  revert p. induction h as [|b h IH]; intros [|a p];
    cbn [String.prefix String.append].
  - intros _. now destruct rest.
  - discriminate.
  - reflexivity.
  - destruct (ascii_dec a b); [apply IH | discriminate].
Qed.

(** X22: a data-URL prefix is stripped before decoding.  For a header that
    starts with [data:image] and a payload, neither containing a comma,
    the image string [header,payload] is decoded as [payload] alone, so the
    request is answered exactly as the one carrying the bare payload. *)
Theorem endpoint_strips_data_url_prefix `{RT : Runtime} `{TR : Transport}
  (header payload : string) (rest : list (string * json))
  (clock : RequestClock) (detector : ObjectDetectionServer) :
  String.prefix "data:image" header = true ->
  String.prefix "data:image" payload = false ->
  ~ In ","%char (list_ascii_of_string header) ->
  ~ In ","%char (list_ascii_of_string payload) ->
  let url := String.append header (String ","%char payload) in
  read_image (JStr url) = decode_image payload
  /\ detect_objects (inr (JObject (("image"%string, JStr url) :: rest)))
       clock detector
     = detect_objects (inr (JObject (("image"%string, JStr payload) :: rest)))
         clock detector.
Proof.
  intros Hheader Hpayload Hh Hp url.
  assert (Hurl : read_image (JStr url) = decode_image payload).
  { unfold read_image. cbn [py_str_receiver bindW]. subst url.
    rewrite (prefix_append _ _ _ Hheader).
    rewrite (py_split_at_separator _ _ _ Hh), (py_split_no_separator _ _ Hp).
    reflexivity. }
  assert (Hbare : read_image (JStr payload) = decode_image payload).
  { unfold read_image. cbn [py_str_receiver bindW]. now rewrite Hpayload. }
  split; [exact Hurl|].
  unfold detect_objects, bindW, py_in, py_subscript.
  cbn [assoc String.eqb Ascii.eqb Bool.eqb is_not_None negb].
  rewrite Hurl, Hbare.
  destruct (decode_image payload) as [e|image_np]; [reflexivity|].
  destruct (detect (t_start clock) (t_done clock) image_np detector)
    as [detections detector'].
  reflexivity.
Qed.

Lemma endpoint_strips_data_url_prefix_witness :
  let url := String.append ReferenceWeb.data_url_header
               (String ","%char ReferenceWeb.red_square_payload) in
  read_image (TR := ReferenceWeb.transport) (JStr url)
  = decode_image (Transport := ReferenceWeb.transport)
      ReferenceWeb.red_square_payload
  /\ detect_objects (RT := Reference.runtime) (TR := ReferenceWeb.transport)
       (inr (JObject (("image"%string, JStr url) :: [])))
       ReferenceWeb.clock Reference.fallback_server
     = detect_objects (RT := Reference.runtime) (TR := ReferenceWeb.transport)
         (inr (JObject (("image"%string, JStr ReferenceWeb.red_square_payload) :: [])))
         ReferenceWeb.clock Reference.fallback_server.
Proof.
  apply (endpoint_strips_data_url_prefix (RT := Reference.runtime)
           (TR := ReferenceWeb.transport)
           ReferenceWeb.data_url_header ReferenceWeb.red_square_payload []
           ReferenceWeb.clock Reference.fallback_server).
  - reflexivity.
  - reflexivity.
  - cbn. intuition discriminate.
  - cbn. intuition discriminate.
Defined.

End EndpointExtras.

(* ================================================================== *)
(** ** Construction *)
(* ================================================================== *)

Section ConstructionExtras.

(** [initialize_model] with its exception handling resolved. *)
Lemma initialize_model_cases `{HO : Host} (self : ObjectDetectionServer) :
  initialize_model self
  = match model_path self with
    | Some path =>
        if path_is_true (Some path) && os_path_exists path then
          match ort_InferenceSession path execution_providers with
          | inl _ => set_session None self
          | inr loaded =>
              let self1 := set_session (Some (ort_session loaded)) self in
              match ort_inputs loaded with
              | [] => set_session None self1
              | (name, shape) :: _ =>
                  let self2 := set_input_name name self1 in
                  if (length shape =? 4)%nat
                  then set_input_shape (nth 2 shape 0%Z, nth 3 shape 0%Z) self2
                  else self2
              end
          end
        else set_session None self
    | None => set_session None self
    end.
Proof.
  unfold initialize_model, initialize_model_try, bindE, get, lift, modify, pure.
  destruct (model_path self) as [path|]; [|reflexivity].
  destruct (path_is_true (Some path) && os_path_exists path); [|reflexivity].
  destruct (ort_InferenceSession path execution_providers) as [e|loaded];
    [reflexivity|].
  unfold py_getitem. destruct (ort_inputs loaded) as [|[name shape] rest];
    cbn [nth_error raise ret fst snd]; [reflexivity|].
  now destruct (length shape =? 4)%nat.
Qed.

(** X23: when the constructor settles on a path ([os.makedirs], called
    when no path is given, did not raise) and there is no usable model (no
    path, no file, a load that raises, a model without inputs), the
    constructor returns: it catches what loading raised and leaves a server
    in fallback mode, with no session, the default 640 x 640 input shape
    and zero statistics; and [detect] on it answers with the fallback
    detector's detections. *)
Theorem init_without_model_is_fallback `{RT : Runtime} `{HO : Host}
  (path_arg : option string) (threshold : Q)
  (start_time now : Q) (image : rgb_image) :
  model_unavailable path_arg ->
  exists self,
    init path_arg threshold = inr self
    /\ session self = None
    /\ input_shape self = (640, 640)%Z
    /\ inference_count self = 0%Z
    /\ total_inference_time self = 0
    /\ fst (detect start_time now image self)
       = match fallback_detection self image with
         | inr detections => detections
         | inl _ => []
         end.
Proof.
  intros Hnone. unfold model_unavailable, chosen_model_path in Hnone.
  unfold init. revert Hnone. unfold os_result.
  destruct (if path_is_true path_arg then inr path_arg
            else get_default_model_path) as [e|chosen]; [intros []|].
  intros Hnone. eexists. split; [reflexivity|].
  set (self := initialize_model _).
  assert (Hmode : session self = None
                  /\ input_shape self = (640, 640)%Z
                  /\ inference_count self = 0%Z
                  /\ total_inference_time self = 0).
  { subst self. rewrite initialize_model_cases. cbn [model_path].
    destruct chosen as [path|]; [|now cbn].
    destruct (path_is_true (Some path) && os_path_exists path); [|now cbn].
    destruct Hnone as [Hno|[[e He]|[loaded [Hl Hin]]]]; [discriminate| |].
    - rewrite He. now cbn.
    - rewrite Hl. cbn zeta. rewrite Hin. now cbn. }
  destruct Hmode as (Hsession & Hshape & Hcount & Htotal).
  repeat split; try assumption.
  unfold detect, detect_try, bindE, get, lift, dispatch. rewrite Hsession.
  now destruct (fallback_detection self image).
Qed.

Lemma init_without_model_is_fallback_witness :
  exists self,
    init (HO := ReferenceWeb.bare_host) None (1 # 2) = inr self
    /\ session self = None
    /\ input_shape self = (640, 640)%Z
    /\ inference_count self = 0%Z
    /\ total_inference_time self = 0
    /\ fst (detect (RT := Reference.runtime) 100 (401 # 4) red_square_image self)
       = match fallback_detection (RT := Reference.runtime) self red_square_image with
         | inr detections => detections
         | inl _ => []
         end.
Proof.
  apply (init_without_model_is_fallback (RT := Reference.runtime)
           (HO := ReferenceWeb.bare_host) None (1 # 2) 100 (401 # 4)
           red_square_image).
  exact I.
Defined.

(** X24: when the constructor settles on a model file that exists and
    loads and whose first input is [(name, shape)], it returns a server in
    backend mode: the loaded session, [input_name = name], and the input
    shape [(shape[2], shape[3])] when [shape] has four entries, the default
    640 x 640 otherwise; the threshold is the one given, the class names
    are the 80 COCO names and the statistics are zero. *)
Theorem init_with_model_is_backend `{HO : Host}
  (path_arg : option string) (threshold : Q) (path name : string)
  (loaded : OrtSession) (shape : list Z) (rest : list (string * list Z)) :
  chosen_model_path path_arg = inr (Some path) ->
  path_is_true (Some path) = true ->
  os_path_exists path = true ->
  ort_InferenceSession path execution_providers = inr loaded ->
  ort_inputs loaded = (name, shape) :: rest ->
  exists self,
    init path_arg threshold = inr self
    /\ session self = Some (ort_session loaded)
    /\ input_name self = name
    /\ input_shape self
       = (if (length shape =? 4)%nat
          then (nth 2 shape 0%Z, nth 3 shape 0%Z)
          else (640, 640)%Z)
    /\ confidence_threshold self = threshold
    /\ model_path self = Some path
    /\ length (class_names self) = 80%nat
    /\ inference_count self = 0%Z
    /\ total_inference_time self = 0.
Proof.
  intros Hchosen Htrue Hexists Hload Hinputs.
  unfold chosen_model_path in Hchosen. unfold init.
  unfold os_result in *. rewrite Hchosen.
  eexists. split; [reflexivity|].
  rewrite initialize_model_cases. cbn [model_path].
  rewrite Htrue, Hexists. cbn [andb]. rewrite Hload. cbn zeta.
  rewrite Hinputs.
  destruct (length shape =? 4)%nat; cbn; repeat split.
Qed.

Lemma init_with_model_is_backend_witness :
  exists self,
    init (HO := ReferenceWeb.model_host) None (1 # 2) = inr self
    /\ session self = Some (ort_session ReferenceWeb.tiny_model)
    /\ input_name self = "images"%string
    /\ input_shape self
       = (if (length [1; 3; 8; 8]%Z =? 4)%nat
          then (nth 2 [1; 3; 8; 8]%Z 0%Z, nth 3 [1; 3; 8; 8]%Z 0%Z)
          else (640, 640)%Z)
    /\ confidence_threshold self = 1 # 2
    /\ model_path self = Some "server/../models/yolov5s.onnx"%string
    /\ length (class_names self) = 80%nat
    /\ inference_count self = 0%Z
    /\ total_inference_time self = 0.
Proof.
  apply (init_with_model_is_backend (HO := ReferenceWeb.model_host)
           None (1 # 2) "server/../models/yolov5s.onnx" "images"
           ReferenceWeb.tiny_model [1; 3; 8; 8]%Z []).
  - reflexivity.
  - reflexivity.
  - reflexivity.
  - reflexivity.
  - reflexivity.
Defined.

(** X26: the constructor raises exactly when no path is given and
    [os.makedirs] raises on the models directory: the exception leaves
    [__init__] as it is and no server is built.  With a non-empty path given
    the directory is never touched and the constructor returns, whatever
    the file system does. *)
Theorem init_raises_only_from_makedirs `{HO : Host}
  (path_arg : option string) (threshold : Q) :
  (forall e,
      init path_arg threshold = inl e
      <-> path_is_true path_arg = false /\ os_makedirs default_model_dir = inl e)
  /\ (path_is_true path_arg = true ->
      exists self,
        init path_arg threshold = inr self /\ model_path self = path_arg).
Proof.
  unfold init, get_default_model_path. split.
  - intros e. destruct (path_is_true path_arg).
    + split; [discriminate | intros [Hfalse _]; discriminate].
    + destruct (os_makedirs default_model_dir) as [e'|[]].
      * split; [intros [= ->]; now split | intros [_ [= ->]]; reflexivity].
      * destruct (negb (os_path_exists default_model_file));
          (split; [discriminate | intros [_ Hraise]; discriminate]).
  - intros Htrue. rewrite Htrue. eexists. split; [reflexivity|].
    rewrite initialize_model_cases. cbn [model_path].
    destruct path_arg as [path|]; [|reflexivity].
    destruct (path_is_true (Some path) && os_path_exists path); [|reflexivity].
    destruct (ort_InferenceSession path execution_providers) as [e|loaded];
      [reflexivity|].
    cbn zeta. destruct (ort_inputs loaded) as [|[name shape] rest];
      [reflexivity|].
    now destruct (length shape =? 4)%nat.
Qed.

Lemma init_raises_only_from_makedirs_witness :
  init (HO := ReferenceWeb.readonly_host) None (1 # 2) = inl PermissionError
  /\ exists self,
       init (HO := ReferenceWeb.readonly_host)
         (Some "/opt/models/custom.onnx"%string) (1 # 2) = inr self
       /\ model_path self = Some "/opt/models/custom.onnx"%string.
Proof.
  split.
  - apply (init_raises_only_from_makedirs (HO := ReferenceWeb.readonly_host)
             None (1 # 2)).
    split; reflexivity.
  - apply (init_raises_only_from_makedirs (HO := ReferenceWeb.readonly_host)
             (Some "/opt/models/custom.onnx"%string) (1 # 2)).
    reflexivity.
Defined.

End ConstructionExtras.

(* ================================================================== *)
(** ** Labels *)
(* ================================================================== *)

Section LabelExtras.

Lemma argmax_from_bound (l : list Q) (best : Q) (best_i i : nat) :
  (best_i < i)%nat -> (argmax_from best best_i i l < i + length l)%nat.
Proof.
  revert best best_i i. induction l as [|x l IH]; intros best best_i i Hlt;
    cbn [argmax_from length].
  - lia.
  - destruct (Qltb best x).
    + specialize (IH x i (S i) ltac:(lia)). lia.
    + specialize (IH best best_i (S i) ltac:(lia)). lia.
Qed.

Lemma argmax_bound (l : list Q) : l <> [] -> (argmax l < length l)%nat.
Proof.
  destruct l as [|x l]; [congruence|]. intros _. cbn [argmax length].
  pose proof (argmax_from_bound l x 0%nat 1%nat ltac:(lia)). lia.
Qed.

(** X25: on an array of the standard YOLO shape, 85 columns per row, a
    server holding the COCO table labels every detection with one of the
    80 COCO names; the synthesized [class_<id>] label cannot occur. *)
Theorem decoder_labels_are_coco_names `{RT : Runtime}
  (self : ObjectDetectionServer) (predictions : ndarray2) (batch : ndarray3)
  (outs : list ndarray3) (original_shape : Z * Z) (scale : Q)
  (padding : Z * Z) (d : Detection) :
  class_names self = get_coco_class_names ->
  ncols predictions = 85%nat ->
  well_shaped predictions ->
  In d (postprocess_detections self ((predictions :: batch) :: outs)
          original_shape scale padding) ->
  In (label d) get_coco_class_names.
Proof.
  intros Hnames Hcols Hshape. rewrite postprocess_detections_eq.
  destruct (5 <? ncols predictions)%nat; [|intros []].
  intros Hin. apply in_map_iff in Hin. destruct Hin as (r & <- & Hr).
  unfold survivors in Hr.
  apply filter_In in Hr. destruct Hr as [Hr _].
  apply filter_In in Hr. destruct Hr as [Hr _].
  unfold well_shaped in Hshape. rewrite Forall_forall in Hshape.
  specialize (Hshape r Hr). rewrite Hcols in Hshape.
  assert (Hlen : length (skipn 5 r) = 80%nat) by (rewrite length_skipn; lia).
  assert (Hid : (argmax (skipn 5 r) < 80)%nat).
  { rewrite <- Hlen. apply argmax_bound. intros E. rewrite E in Hlen.
    discriminate. }
  unfold row_detection, box_to_detection.
  destruct padding as [pad_x pad_y]. destruct original_shape as [orig_h orig_w].
  cbn [label]. unfold class_label. rewrite Hnames.
  change (length get_coco_class_names) with 80%nat.
  destruct (Nat.ltb_spec (argmax (skipn 5 r)) 80) as [_|]; [|lia].
  apply nth_In. exact Hid.
Qed.

Lemma decoder_labels_are_coco_names_witness :
  In (label coco_row_detection) get_coco_class_names.
Proof.
  apply (decoder_labels_are_coco_names (RT := Reference.runtime)
           (Reference.server_with Reference.no_session)
           coco_predictions [] [] (640, 640)%Z 1 (0, 0)%Z coco_row_detection).
  - reflexivity.
  - reflexivity.
  - repeat constructor.
  - vm_compute. left. reflexivity.
Defined.

End LabelExtras.
